(** * Sure Proxies server: account provisioning, session cookie and
      verification e-mail dispatch

    A shallow embedding of [src/modules/user/user.service.ts] and
    [src/modules/auth/auth.controller.ts].  The asynchronous TypeScript
    methods become computations in a state-and-exception monad over a
    [World] (environment variables, the [users] collection, the console,
    the mails handed to the SMTP transport, the cookies of the response).
    The collaborators the code only calls (the identity provider, the
    document store, the SMTP transport, the clock, [AuthService.login] and
    JavaScript's [Number]) are parameters of the development. *)

From Stdlib Require Import ZArith QArith String Ascii List Lia.
From stdpp Require Import base strings gmap list option.

Local Open Scope string_scope.

(** ** JavaScript data *)

(** The values that occur in user documents. *)
#[warnings="-register-all"]
Inductive JsVal : Type :=
| VUndefined
| VNull
| VString (s : string)
| VTimestamp (millis : Z)
| VArray (items : list JsVal).

(** A plain object: its own enumerable properties. *)
Abbreviation JsObj := (gmap string JsVal).

(** [o.k]: reading an absent property gives [undefined]. *)
Definition prop (o : JsObj) (k : string) : JsVal := default VUndefined (o !! k).

(** [{ ...a, ...b }]: the properties of [b] override those of [a]. *)
Definition spread (a b : JsObj) : JsObj := b ∪ a.

(** [a ?? b]: [b] when [a] is [undefined] or [null]. *)
Definition nullish (a b : JsVal) : JsVal :=
  match a with
  | VUndefined | VNull => b
  | _ => a
  end.

(** A JavaScript number, as far as the code looks at one. *)
Inductive JsNum : Type :=
| JNaN
| JInfinity (negative : bool)
| JFinite (q : Q).

(** Truthiness of a number: [NaN] and zero are falsy. *)
Definition num_truthy (n : JsNum) : bool :=
  match n with
  | JNaN => false
  | JInfinity _ => true
  | JFinite q => negb (Qeq_bool q 0)
  end.

(** [n === z] for an integer literal [z]. *)
Definition num_is (n : JsNum) (z : Z) : bool :=
  match n with
  | JFinite q => Qeq_bool q (inject_Z z)
  | _ => false
  end.

Definition nonempty (s : string) : bool :=
  match s with
  | EmptyString => false
  | String _ _ => true
  end.

(** Truthiness of a [string | undefined], the type of [process.env.X]. *)
Definition truthy (o : option string) : bool :=
  match o with
  | Some s => nonempty s
  | None => false
  end.

(** [a || b] where [a : string | undefined] and [b : string]. *)
Definition str_or (a : option string) (b : string) : string :=
  match a with
  | Some s => if nonempty s then s else b
  | None => b
  end.

(** [hay.includes(needle)] on strings. *)
Fixpoint includes (hay needle : string) : bool :=
  String.prefix needle hay ||
  match hay with
  | EmptyString => false
  | String _ rest => includes rest needle
  end.

Definition dquote : string := String "034"%char EmptyString.
Definition newline : string := String "010"%char EmptyString.

(** ** Exceptions *)

Inductive HttpStatus : Type :=
| BAD_REQUEST
| UNAUTHORIZED
| NOT_FOUND
| INTERNAL_SERVER_ERROR.

Definition status_code (s : HttpStatus) : Z :=
  match s with
  | BAD_REQUEST => 400
  | UNAUTHORIZED => 401
  | NOT_FOUND => 404
  | INTERNAL_SERVER_ERROR => 500
  end.

(** What can be thrown: Nest's [HttpException], or an error object raised
    by a collaborator, of which the code reads [code] and [message]. *)
Inductive Exn : Type :=
| HttpException (response : string) (status : HttpStatus)
| ExtError (code : option string) (message : option string).

(** [err?.code] *)
Definition err_code (e : Exn) : option string :=
  match e with
  | HttpException _ _ => None
  | ExtError c _ => c
  end.

(** [err?.message] *)
Definition err_message (e : Exn) : option string :=
  match e with
  | HttpException r _ => Some r
  | ExtError _ m => m
  end.

Inductive Outcome (A : Type) : Type :=
| Ok (a : A)
| Throw (e : Exn).
Arguments Ok {A} a.
Arguments Throw {A} e.

(** ** Records exchanged with the collaborators *)

Record UserRecord := {
  rec_uid : string;
  rec_email : string;
  rec_displayName : string;
}.

Record CreateUserDTO := {
  fullName : string;
  email : string;
  password : string;
  phoneNumber : option string;
}.

Record ActionCodeSettings := {
  url : string;
  handleCodeInApp : bool;
}.

Record TransportOptions := {
  host : string;
  port : JsNum;
  secure : bool;
  auth_user : string;
  auth_pass : string;
}.

Record Mail := {
  from : string;
  to : string;
  subject : string;
  html : string;
}.

Record LoginDto := {
  login_email : string;
  login_password : string;
}.

(** Modelled from the spec: [AuthService.login] is not among the sources;
    the spec says it returns an identity token and the user record
    including its role.  Only [idToken] and [user.role] are read here. *)
Record LoginResult := {
  idToken : string;
  user_role : string;
  user_uid : string;
}.

Inductive SameSite : Type := Lax | Strict | NoneSite.

Record Cookie := {
  cookie_name : string;
  cookie_value : string;
  httpOnly : bool;
  sameSite : SameSite;
  maxAge : Z;
  cookie_secure : bool;
  cookie_path : string;
}.

Inductive LogLevel : Type := LevelLog | LevelWarn | LevelError.

Inductive LogArg : Type :=
| LText (s : string)
| LThrown (e : Exn).

Record LogEntry := {
  level : LogLevel;
  args : list LogArg;
}.

(** How the document store answers [userRef.set(data)]. *)
Inductive SetOutcome : Type :=
| SetApplied
    (* the document is stored *)
| SetLost
    (* acknowledged without error, yet no document is there at the next
       read (a write that did not take effect, a concurrent delete) *)
| SetRejected (e : Exn).
    (* the promise rejects *)

(** Modelled from the spec: [UserRole.USER] of [user.model], which is not
    among the sources; the spec writes the stored role as "USER". *)
Definition UserRole_USER : JsVal := VString "USER".

(** ** The world *)

Record World := {
  env : gmap string string;                 (* process.env *)
  users : gmap string JsObj;                (* db.collection('users') *)
  accounts : list UserRecord;               (* accounts the provider created *)
  clock_reads : nat;                        (* Timestamp.now() calls so far *)
  smtp_attempts : list (TransportOptions * Mail);
  console : list LogEntry;
  cookies : list Cookie;                    (* res.cookie(...) calls *)
}.

Definition with_users (f : gmap string JsObj → gmap string JsObj) (w : World) : World :=
  {| env := env w; users := f (users w); accounts := accounts w;
     clock_reads := clock_reads w; smtp_attempts := smtp_attempts w;
     console := console w; cookies := cookies w |}.

Definition with_account (r : UserRecord) (w : World) : World :=
  {| env := env w; users := users w; accounts := accounts w ++ [r];
     clock_reads := clock_reads w; smtp_attempts := smtp_attempts w;
     console := console w; cookies := cookies w |}.

Definition with_tick (w : World) : World :=
  {| env := env w; users := users w; accounts := accounts w;
     clock_reads := S (clock_reads w); smtp_attempts := smtp_attempts w;
     console := console w; cookies := cookies w |}.

Definition with_attempt (a : TransportOptions * Mail) (w : World) : World :=
  {| env := env w; users := users w; accounts := accounts w;
     clock_reads := clock_reads w; smtp_attempts := smtp_attempts w ++ [a];
     console := console w; cookies := cookies w |}.

Definition with_log (e : LogEntry) (w : World) : World :=
  {| env := env w; users := users w; accounts := accounts w;
     clock_reads := clock_reads w; smtp_attempts := smtp_attempts w;
     console := console w ++ [e]; cookies := cookies w |}.

Definition with_cookie (c : Cookie) (w : World) : World :=
  {| env := env w; users := users w; accounts := accounts w;
     clock_reads := clock_reads w; smtp_attempts := smtp_attempts w;
     console := console w; cookies := cookies w ++ [c] |}.

(** ** The monad of request handlers *)

Definition M (A : Type) : Type := World → Outcome A * World.

#[global] Instance M_ret : MRet M := λ A a w, (Ok a, w).

#[global] Instance M_bind : MBind M := λ A B f m w,
  match m w with
  | (Ok a, w') => f a w'
  | (Throw e, w') => (Throw e, w')
  end.

Definition throw {A} (e : Exn) : M A := λ w, (Throw e, w).

(** [try { body } catch (err) { handler }] *)
Definition try_catch {A} (body : M A) (handler : Exn → M A) : M A := λ w,
  match body w with
  | (Ok a, w') => (Ok a, w')
  | (Throw e, w') => handler e w'
  end.

(** [await] on a promise whose settlement is already known. *)
Definition settle {A} (o : Outcome A) : M A := λ w, (o, w).

Definition process_env (k : string) : M (option string) := λ w, (Ok (env w !! k), w).

Definition console_log (l : list LogArg) : M unit :=
  λ w, (Ok tt, with_log {| level := LevelLog; args := l |} w).
Definition console_warn (l : list LogArg) : M unit :=
  λ w, (Ok tt, with_log {| level := LevelWarn; args := l |} w).
Definition console_error (l : list LogArg) : M unit :=
  λ w, (Ok tt, with_log {| level := LevelError; args := l |} w).

(** ** The collaborators

    Each call of the code into a collaborator is answered by the
    corresponding field: a value, or the error the call raises. *)

Record Services := {
  (* AuthService.login(loginDto) *)
  authSvc_login : LoginDto → Outcome LoginResult;
  (* dbAuth.createUser({ displayName, email, password }); [None] is a
     falsy record *)
  dbAuth_createUser : string → string → string → Outcome (option UserRecord);
  (* dbAuth.getUserByEmail(email) *)
  dbAuth_getUserByEmail : string → Outcome UserRecord;
  (* dbAuth.generateEmailVerificationLink(email, actionCodeSettings) *)
  dbAuth_generateEmailVerificationLink : string → ActionCodeSettings → Outcome string;
  (* createTransport(options).sendMail(mail), giving info.messageId *)
  transporter_sendMail : TransportOptions → Mail → Outcome string;
  (* db.collection('users').doc(id).set(data) *)
  userRef_set : string → JsObj → SetOutcome;
  (* db.collection('users').doc(id).get(): the error it rejects with, if it
     does *)
  userRef_get : string → option Exn;
  (* db.collection('users').doc(id).delete(): the error it rejects with, if
     it does *)
  userRef_delete : string → option Exn;
  (* db.collection('users').get(): the error it rejects with, if it does *)
  users_get : option Exn;
  (* the reading of the n-th call of admin.firestore.Timestamp.now() *)
  Timestamp_reading : nat → Z;
}.

(** ** Calls into the collaborators *)

Section Collaborators.

Variable ext : Services.

Definition Timestamp_now : M JsVal := λ w,
  (Ok (VTimestamp (Timestamp_reading ext (clock_reads w))), with_tick w).

Definition createUser (displayName email password : string) : M (option UserRecord) := λ w,
  match dbAuth_createUser ext displayName email password with
  | Ok (Some r) => (Ok (Some r), with_account r w)
  | Ok None => (Ok None, w)
  | Throw e => (Throw e, w)
  end.

Definition getUserByEmail (email : string) : M UserRecord :=
  settle (dbAuth_getUserByEmail ext email).

Definition generateEmailVerificationLink (email : string) (s : ActionCodeSettings) : M string :=
  settle (dbAuth_generateEmailVerificationLink ext email s).

(** Every call of [sendMail] is recorded, whether it succeeds or raises. *)
Definition sendMail (o : TransportOptions) (m : Mail) : M string := λ w,
  (transporter_sendMail ext o m, with_attempt (o, m) w).

(** [db.collection('users').doc(id).set(data)] *)
Definition doc_set (id : string) (data : JsObj) : M unit := λ w,
  match userRef_set ext id data with
  | SetApplied => (Ok tt, with_users (insert id data) w)
  | SetLost => (Ok tt, with_users (delete id) w)
  | SetRejected e => (Throw e, w)
  end.

(** [db.collection('users').doc(id).get()], then [.data()]: the call can
    reject; when it answers, [None] says that the document does not exist. *)
Definition doc_get (id : string) : M (option JsObj) := λ w,
  match userRef_get ext id with
  | Some e => (Throw e, w)
  | None => (Ok (users w !! id), w)
  end.

(** [db.collection('users').doc(id).delete()]: the call can reject. *)
Definition doc_delete (id : string) : M unit := λ w,
  match userRef_delete ext id with
  | Some e => (Throw e, w)
  | None => (Ok tt, with_users (delete id) w)
  end.

(** [db.collection('users').get()], then [.docs] with [.data()] of each: the
    call can reject; when it answers, it gives the documents of the
    collection with their keys, in the order the store lists them (nothing
    proved below depends on that order). *)
Definition collection_get : M (list (string * JsObj)) := λ w,
  match users_get ext with
  | Some e => (Throw e, w)
  | None => (Ok (map_to_list (users w)), w)
  end.

End Collaborators.

(** ** user.service.ts *)

Module UserService.
Section Methods.

(** JavaScript's [Number(string)]. *)
Variable Number : string → JsNum.

Variable ext : Services.

(** [process.env.FRONTEND_URL ? `${process.env.FRONTEND_URL}/signin`
                              : 'http://localhost:3000/signin'] *)
Definition signin_url (FRONTEND_URL : option string) : string :=
  match FRONTEND_URL with
  | Some u => if nonempty u then u +:+ "/signin" else "http://localhost:3000/signin"
  | None => "http://localhost:3000/signin"
  end.

(** [process.env.SMTP_PORT ? Number(process.env.SMTP_PORT) : undefined] *)
Definition smtp_port (SMTP_PORT : option string) : option JsNum :=
  match SMTP_PORT with
  | Some p => if nonempty p then Some (Number p) else None
  | None => None
  end.

(** The test [host && port && user && pass], with the four values when it
    passes. *)
Definition smtp_configured (host : option string) (port : option JsNum)
    (user pass : option string) : option (string * JsNum * string * string) :=
  match host, port, user, pass with
  | Some h, Some p, Some u, Some s =>
      if nonempty h && num_truthy p && nonempty u && nonempty s
      then Some (h, p, u, s) else None
  | _, _, _, _ => None
  end.

(** [process.env.EMAIL_FROM ||
     `no-reply@${process.env.FRONTEND_BASE_DOMAIN || 'localhost'}`] *)
Definition mail_from (EMAIL_FROM FRONTEND_BASE_DOMAIN : option string) : string :=
  str_or EMAIL_FROM ("no-reply@" +:+ str_or FRONTEND_BASE_DOMAIN "localhost").

Definition service_html (link : string) : string :=
  "<p>Hello,</p>" +:+ newline +:+
  "<p>Thanks for creating an account. Please verify your email by clicking the link below:</p>" +:+ newline +:+
  "<p><a href=" +:+ dquote +:+ link +:+ dquote +:+ ">Verify Email</a></p>" +:+ newline +:+
  "<p>If the link doesn't work, copy and paste the following URL into your browser:</p>" +:+ newline +:+
  "<pre>" +:+ link +:+ "</pre>" +:+ newline +:+
  "<p>Thanks,<br/>Sure Proxies Team</p>".

Definition sendEmailVerification (uid email : string) : M unit :=
  try_catch
    (FRONTEND_URL ← process_env "FRONTEND_URL";
     let actionCodeSettings :=
       {| url := signin_url FRONTEND_URL; handleCodeInApp := false |} in
     link ← generateEmailVerificationLink ext email actionCodeSettings;
     host ← process_env "SMTP_HOST";
     SMTP_PORT ← process_env "SMTP_PORT";
     let port := smtp_port SMTP_PORT in
     user ← process_env "SMTP_USER";
     pass ← process_env "SMTP_PASS";
     match smtp_configured host port user pass with
     | Some (host, port, user, pass) =>
         EMAIL_FROM ← process_env "EMAIL_FROM";
         FRONTEND_BASE_DOMAIN ← process_env "FRONTEND_BASE_DOMAIN";
         info ← sendMail ext
           {| host := host; port := port; secure := num_is port 465;
              auth_user := user; auth_pass := pass |}
           {| from := mail_from EMAIL_FROM FRONTEND_BASE_DOMAIN;
              to := email;
              subject := "Verify your email for Sure Proxies";
              html := service_html link |};
         console_log [LText "✅ [EMAIL] Verification email sent:"; LText info]
     | None =>
         console_warn
           [LText "⚠️ [EMAIL] SMTP not configured. Verification link: "; LText link]
     end)
    (λ err,
       console_error [LText "❌ [EMAIL] Failed to send verification email:"; LThrown err]).

Definition resendVerification (email : string) : M unit :=
  try_catch
    (uid ← try_catch
             (user ← getUserByEmail ext email;
              mret (rec_uid user))
             (λ err, throw (HttpException "Account not found" NOT_FOUND));
     sendEmailVerification uid email)
    (λ err,
       console_error [LText "Error resending verification:"; LThrown err];;
       throw err).

Definition saveUser (userId : string) (userData : JsObj) : M unit :=
  try_catch
    (doc_set ext userId userData)
    (λ error,
       console_error [LText "❌ [USER] Error saving user in db:"; LThrown error];;
       throw (HttpException "Unable to save account information. Please try again."
                INTERNAL_SERVER_ERROR)).

Definition opt_string (o : option string) : JsVal :=
  match o with
  | Some s => VString s
  | None => VUndefined
  end.

(** The object literal [create] hands to [saveUser], given the two clock
    readings. *)
Definition new_user_doc (uid : string) (model : CreateUserDTO) (createdAt lastLogin : JsVal) : JsObj :=
  list_to_map
    [("uid", VString uid);
     ("email", VString (email model));
     ("fullName", VString (fullName model));
     ("phoneNumber", opt_string (phoneNumber model));
     ("createdAt", createdAt);
     ("lastLogin", lastLogin);
     ("purchases", VArray []);
     ("role", UserRole_USER)].

(** The object [create] returns: eight properties read from [data]. *)
Definition user_view (data : JsObj) : JsObj :=
  list_to_map
    [("uid", prop data "uid");
     ("email", prop data "email");
     ("fullName", prop data "fullName");
     ("phoneNumber", prop data "phoneNumber");
     ("createdAt", prop data "createdAt");
     ("lastLogin", prop data "lastLogin");
     ("purchases", prop data "purchases");
     ("role", prop data "role")].

Definition create (model : CreateUserDTO) : M JsObj :=
  try_catch
    (record ← createUser ext (fullName model) (email model) (password model);
     match record with
     | None =>
         throw (HttpException "Unable to create account. Please try again."
                  INTERNAL_SERVER_ERROR)
     | Some record =>
         createdAt ← Timestamp_now ext;
         lastLogin ← Timestamp_now ext;
         saveUser (rec_uid record)
           (new_user_doc (rec_uid record) model createdAt lastLogin);;
         try_catch
           (sendEmailVerification (rec_uid record) (email model))
           (λ e, console_warn [LText "Failed to queue/send verification email:"; LThrown e]);;
         data ← doc_get ext (rec_uid record);
         match data with
         | None =>
             throw (HttpException
                      "Account created but verification failed. Please contact support."
                      INTERNAL_SERVER_ERROR)
         | Some data => mret (user_view data)
         end
     end)
    (λ error,
       console_error [LThrown error; LText "Error creating user"];;
       throw error).

(** [{ id: user.id, ...user.data() }] *)
Definition findOne (id : string) : M JsObj :=
  user ← doc_get ext id;
  match user with
  | None => throw (HttpException "Account not found" NOT_FOUND)
  | Some data => mret (spread {[ "id" := VString id ]} data)
  end.

Definition update (id : string) (model : JsObj) : M JsObj :=
  user ← findOne id;
  let updatedUser := spread user model in
  saveUser id updatedUser;;
  mret updatedUser.

Definition remove (id : string) : M JsObj :=
  user ← findOne id;
  doc_delete ext id;;
  mret user.

(** The object [findAll] builds for one document. *)
Definition listed_view (data : JsObj) : JsObj :=
  list_to_map
    [("uid", prop data "uid");
     ("email", prop data "email");
     ("fullName", prop data "fullName");
     ("phoneNumber", prop data "phoneNumber");
     ("createdAt", prop data "createdAt");
     ("lastLogin", prop data "lastLogin");
     ("purchases", nullish (prop data "purchases") (VArray []));
     ("role", nullish (prop data "role") UserRole_USER)].

Definition findAll : M (list JsObj) :=
  usersSnapshot ← collection_get ext;
  mret ((λ doc, listed_view (snd doc)) <$> usersSnapshot).

End Methods.
End UserService.

(** ** JSON.stringify and base64, as the session cookie uses them

    A [string] is the UTF-8 encoding of the JavaScript string, so
    [Buffer.from(s, 'utf8')] is the byte sequence [s] itself. *)

Definition hex_digit (n : N) : ascii :=
  default "0"%char (String.get (N.to_nat n) "0123456789abcdef").

(** The escape of one character inside a JSON string literal. *)
Definition json_escape (c : ascii) : string :=
  let n := N_of_ascii c in
  if (n =? 8)%N then "\b"
  else if (n =? 9)%N then "\t"
  else if (n =? 10)%N then "\n"
  else if (n =? 12)%N then "\f"
  else if (n =? 13)%N then "\r"
  else if (n =? 34)%N then "\" +:+ dquote
  else if (n =? 92)%N then "\\"
  else if (n <? 32)%N then
    "\u00" +:+ String (hex_digit (n / 16)) (String (hex_digit (n mod 16)) EmptyString)
  else String c EmptyString.

Fixpoint json_escape_all (s : string) : string :=
  match s with
  | EmptyString => EmptyString
  | String c rest => json_escape c +:+ json_escape_all rest
  end.

(** [JSON.stringify(s)] for a string [s]. *)
Definition json_quote (s : string) : string := dquote +:+ json_escape_all s +:+ dquote.

(** [JSON.stringify({ t: t, r: r })] for strings [t] and [r]. *)
Definition JSON_stringify_session (t r : string) : string :=
  "{" +:+ dquote +:+ "t" +:+ dquote +:+ ":" +:+ json_quote t +:+ "," +:+
  dquote +:+ "r" +:+ dquote +:+ ":" +:+ json_quote r +:+ "}".

(** The characters [JSON.stringify] copies as they are: all but the quote,
    the backslash and the control characters. *)
Definition json_plain (c : ascii) : bool :=
  let n := N_of_ascii c in
  (32 <=? n)%N && negb (n =? 34)%N && negb (n =? 92)%N.

Fixpoint all_plain (s : string) : bool :=
  match s with
  | EmptyString => true
  | String c rest => json_plain c && all_plain rest
  end.

Definition base64_alphabet : string :=
  "ABCDEFGHIJKLMNOPQRSTUVWXYZabcdefghijklmnopqrstuvwxyz0123456789+/".

Definition base64_digit (n : N) : ascii :=
  default "A"%char (String.get (N.to_nat n) base64_alphabet).

(** [Buffer.from(bytes).toString('base64')]: three bytes give four digits,
    a last group of one or two bytes is padded with [=]. *)
Fixpoint base64 (bytes : string) : string :=
  match bytes with
  | EmptyString => EmptyString
  | String a EmptyString =>
      let x := N_of_ascii a in
      String (base64_digit (x / 4))
        (String (base64_digit (x mod 4 * 16)) "==")
  | String a (String b EmptyString) =>
      let x := N_of_ascii a in
      let y := N_of_ascii b in
      String (base64_digit (x / 4))
        (String (base64_digit (x mod 4 * 16 + y / 16))
           (String (base64_digit (y mod 16 * 4)) "="))
  | String a (String b (String c rest)) =>
      let x := N_of_ascii a in
      let y := N_of_ascii b in
      let z := N_of_ascii c in
      String (base64_digit (x / 4))
        (String (base64_digit (x mod 4 * 16 + y / 16))
           (String (base64_digit (y mod 16 * 4 + z / 64))
              (String (base64_digit (z mod 64)) (base64 rest))))
  end.

(** Reading base64 text back, as the consumer of the cookie does: the
    value of a digit, and the bytes of a padded text. *)
Fixpoint index_of (c : ascii) (s : string) (i : N) : option N :=
  match s with
  | EmptyString => None
  | String d rest => if Ascii.eqb c d then Some i else index_of c rest (i + 1)
  end.

Definition base64_value (c : ascii) : option N := index_of c base64_alphabet 0.

Definition is_pad (c : ascii) : bool := Ascii.eqb c "="%char.

Fixpoint base64_decode (text : string) : option string :=
  match text with
  | EmptyString => Some EmptyString
  | String a (String b (String c (String d rest))) =>
      match base64_value a, base64_value b with
      | Some p, Some q =>
          let x := ascii_of_N (p * 4 + q / 16) in
          match base64_value c with
          | None =>
              if is_pad c && is_pad d && negb (nonempty rest) && (q mod 16 =? 0)%N
              then Some (String x EmptyString)
              else None
          | Some r =>
              let y := ascii_of_N (q mod 16 * 16 + r / 4) in
              match base64_value d with
              | None =>
                  if is_pad d && negb (nonempty rest) && (r mod 4 =? 0)%N
                  then Some (String x (String y EmptyString))
                  else None
              | Some t =>
                  match base64_decode rest with
                  | Some bytes =>
                      Some (String x (String y (String (ascii_of_N (r mod 4 * 64 + t)) bytes)))
                  | None => None
                  end
              end
          end
      | _, _ => None
      end
  | _ => None
  end.

(** Reading back the JSON text of a session: the string literals as
    [JSON.stringify] writes them (the two-character escapes, and [\u00XX]
    for a byte), between the fixed punctuation of [{ t, r }]. *)
Definition hex_value (c : ascii) : option N := index_of c "0123456789abcdef" 0.

Definition json_unescape (e : ascii) : option ascii :=
  let n := N_of_ascii e in
  if (n =? 98)%N then Some (ascii_of_N 8)
  else if (n =? 116)%N then Some (ascii_of_N 9)
  else if (n =? 110)%N then Some (ascii_of_N 10)
  else if (n =? 102)%N then Some (ascii_of_N 12)
  else if (n =? 114)%N then Some (ascii_of_N 13)
  else if (n =? 34)%N then Some e
  else if (n =? 92)%N then Some e
  else None.

(** The characters of a string literal up to its closing quote, and the
    text after that quote. *)
Fixpoint json_read_string (s : string) : option (string * string) :=
  match s with
  | EmptyString => None
  | String c rest =>
      if (N_of_ascii c =? 34)%N then Some (EmptyString, rest)
      else if (N_of_ascii c =? 92)%N then
        match rest with
        | EmptyString => None
        | String e rest1 =>
            if (N_of_ascii e =? 117)%N then
              match rest1 with
              | String h1 (String h2 (String h3 (String h4 rest2))) =>
                  match hex_value h1, hex_value h2, hex_value h3, hex_value h4 with
                  | Some 0%N, Some 0%N, Some a, Some b =>
                      match json_read_string rest2 with
                      | Some (d, r) => Some (String (ascii_of_N (a * 16 + b)) d, r)
                      | None => None
                      end
                  | _, _, _, _ => None
                  end
              | _ => None
              end
            else
              match json_unescape e, json_read_string rest1 with
              | Some x, Some (d, r) => Some (String x d, r)
              | _, _ => None
              end
        end
      else
        match json_read_string rest with
        | Some (d, r) => Some (String c d, r)
        | None => None
        end
  end.

(** [s] without its prefix [p]. *)
Fixpoint strip_prefix (p s : string) : option string :=
  match p, s with
  | EmptyString, _ => Some s
  | String a p', String b s' => if Ascii.eqb a b then strip_prefix p' s' else None
  | String _ _, EmptyString => None
  end.

(** The token and the role of a serialized session. *)
Definition parse_session (text : string) : option (string * string) :=
  match strip_prefix ("{" +:+ dquote +:+ "t" +:+ dquote +:+ ":" +:+ dquote) text with
  | Some rest =>
      match json_read_string rest with
      | Some (t, rest) =>
          match strip_prefix ("," +:+ dquote +:+ "r" +:+ dquote +:+ ":" +:+ dquote) rest with
          | Some rest =>
              match json_read_string rest with
              | Some (r, String "}" EmptyString) => Some (t, r)
              | _ => None
              end
          | None => None
          end
      | None => None
      end
  | None => None
  end.

(** ** auth.controller.ts *)

Record ResendBody := {
  body_email : option string;
}.

Record ResendResponse := {
  success : bool;
  logged : option bool;
  link : option string;
}.

Module AuthController.
Section Handlers.

(** JavaScript's [Number(string)]. *)
Variable Number : string → JsNum.

Variable ext : Services.

(** [res.cookie(name, value, options)] *)
Definition res_cookie (c : Cookie) : M unit := λ w, (Ok tt, with_cookie c w).

Definition twelveHoursMs : Z := 12 * 60 * 60 * 1000.

Definition login (loginDto : LoginDto) : M LoginResult :=
  result ← settle (authSvc_login ext loginDto);
  try_catch
    (let payload :=
       base64 (JSON_stringify_session (idToken result) (user_role result)) in
     NODE_ENV ← process_env "NODE_ENV";
     res_cookie
       {| cookie_name := "sp_auth";
          cookie_value := payload;
          httpOnly := true;
          sameSite := Lax;
          maxAge := twelveHoursMs;
          cookie_secure := bool_decide (NODE_ENV = Some "production");
          cookie_path := "/" |})
    (λ _, mret tt);;
  mret result.

Definition controller_html (link : string) : string :=
  "<p>Hello,</p><p>Please verify your email by clicking the link below:</p><p><a href=" +:+
  dquote +:+ link +:+ dquote +:+ ">Verify Email</a></p><pre>" +:+ link +:+ "</pre>".

(** The test of the [catch] clause:
    [err?.code === 'auth/user-not-found' || err?.message?.includes?.('user')] *)
Definition maps_to_not_found (err : Exn) : bool :=
  bool_decide (err_code err = Some "auth/user-not-found") ||
  match err_message err with
  | Some m => includes m "user"
  | None => false
  end.

(** The body of the [try] block of [resendVerification]. *)
Definition resend_try (email : string) : M ResendResponse :=
  getUserByEmail ext email;;
  FRONTEND_URL ← process_env "FRONTEND_URL";
  let actionCodeSettings :=
    {| url := UserService.signin_url FRONTEND_URL; handleCodeInApp := false |} in
  link ← generateEmailVerificationLink ext email actionCodeSettings;
  host ← process_env "SMTP_HOST";
  SMTP_PORT ← process_env "SMTP_PORT";
  let port := UserService.smtp_port Number SMTP_PORT in
  user ← process_env "SMTP_USER";
  pass ← process_env "SMTP_PASS";
  match UserService.smtp_configured host port user pass with
  | Some (host, port, user, pass) =>
      EMAIL_FROM ← process_env "EMAIL_FROM";
      FRONTEND_BASE_DOMAIN ← process_env "FRONTEND_BASE_DOMAIN";
      sendMail ext
        {| host := host; port := port; secure := num_is port 465;
           auth_user := user; auth_pass := pass |}
        {| from := UserService.mail_from EMAIL_FROM FRONTEND_BASE_DOMAIN;
           to := email;
           subject := "Verify your email for Sure Proxies";
           html := controller_html link |};;
      mret {| success := true; logged := None; link := None |}
  | None =>
      console_warn
        [LText "⚠️ [EMAIL] SMTP not configured. Verification link: "; LText link];;
      mret {| success := true; logged := Some true; link := Some link |}
  end.

(** The [catch] clause of [resendVerification]. *)
Definition resend_catch (err : Exn) : M ResendResponse :=
  if maps_to_not_found err then
    throw (HttpException "Account not found" NOT_FOUND)
  else
    console_error [LText "Failed to resend verification link:"; LThrown err];;
    throw (HttpException "Unable to resend verification link" INTERNAL_SERVER_ERROR).

Definition resendVerification (body : option ResendBody) : M ResendResponse :=
  match body ≫= body_email with
  | Some email =>
      if nonempty email then try_catch (resend_try email) resend_catch
      else throw (HttpException "Email is required" BAD_REQUEST)
  | None => throw (HttpException "Email is required" BAD_REQUEST)
  end.

Definition logout : M ResendResponse :=
  try_catch
    (NODE_ENV ← process_env "NODE_ENV";
     res_cookie
       {| cookie_name := "sp_auth";
          cookie_value := EmptyString;
          httpOnly := true;
          sameSite := Lax;
          maxAge := 0;
          cookie_secure := bool_decide (NODE_ENV = Some "production");
          cookie_path := "/" |})
    (λ _, mret tt);;
  mret {| success := true; logged := None; link := None |}.

End Handlers.
End AuthController.

(** ** Failures of the identity provider and of the transport, as a request
       to resend the verification link meets them *)

(** The settings under which the link for a request is generated. *)
Definition link_settings (w : World) : ActionCodeSettings :=
  {| url := UserService.signin_url (env w !! "FRONTEND_URL");
     handleCodeInApp := false |}.

(** The provider fails with [e] while [email] is looked up, or while its
    verification link is generated. *)
Inductive provider_fails (ext : Services) (w : World) (email : string) (e : Exn) : Prop :=
| lookup_fails :
    dbAuth_getUserByEmail ext email = Throw e →
    provider_fails ext w email e
| link_fails (r : UserRecord) :
    dbAuth_getUserByEmail ext email = Ok r →
    dbAuth_generateEmailVerificationLink ext email (link_settings w) = Throw e →
    provider_fails ext w email e.

(** The SMTP settings [process.env] holds, when all four are truthy. *)
Definition smtp_settings (Number : string → JsNum) (w : World)
    : option (string * JsNum * string * string) :=
  UserService.smtp_configured
    (env w !! "SMTP_HOST")
    (UserService.smtp_port Number (env w !! "SMTP_PORT"))
    (env w !! "SMTP_USER")
    (env w !! "SMTP_PASS").

(** ** Sample collaborators and worlds *)

Fixpoint digits_value (acc : Z) (s : string) : option Z :=
  match s with
  | EmptyString => Some acc
  | String c rest =>
      let n := Z.of_N (N_of_ascii c) in
      if (48 <=? n)%Z && (n <=? 57)%Z
      then digits_value (10 * acc + (n - 48))%Z rest
      else None
  end.

(** A stand-in for [Number]: exact on strings of decimal digits; any other
    spelling is read as [NaN] (true of the spelling "abc" used below). *)
Definition Number_decimal (s : string) : JsNum :=
  match digits_value 0 s with
  | Some z => JFinite (inject_Z z)
  | None => JNaN
  end.

Definition link_1 : string := "https://idp.example/verify?oobCode=1".

(** Collaborators that all answer. *)
Definition healthy : Services :=
  {| authSvc_login := λ dto,
       Ok {| idToken := "abc"; user_role := "USER"; user_uid := "uid-1" |};
     dbAuth_createUser := λ name mail _,
       Ok (Some {| rec_uid := "uid-1"; rec_email := mail; rec_displayName := name |});
     dbAuth_getUserByEmail := λ mail,
       Ok {| rec_uid := "uid-1"; rec_email := mail; rec_displayName := "A" |};
     dbAuth_generateEmailVerificationLink := λ _ _, Ok link_1;
     transporter_sendMail := λ _ _, Ok "<1@mail>";
     userRef_set := λ _ _, SetApplied;
     userRef_get := λ _, None;
     userRef_delete := λ _, None;
     users_get := None;
     Timestamp_reading := λ n, (1700000000000 + Z.of_nat n)%Z |}.

Definition with_sendMail (f : TransportOptions → Mail → Outcome string) (s : Services) : Services :=
  {| authSvc_login := authSvc_login s;
     dbAuth_createUser := dbAuth_createUser s;
     dbAuth_getUserByEmail := dbAuth_getUserByEmail s;
     dbAuth_generateEmailVerificationLink := dbAuth_generateEmailVerificationLink s;
     transporter_sendMail := f;
     userRef_set := userRef_set s;
     userRef_get := userRef_get s;
     userRef_delete := userRef_delete s;
     users_get := users_get s;
     Timestamp_reading := Timestamp_reading s |}.

Definition with_getUserByEmail (f : string → Outcome UserRecord) (s : Services) : Services :=
  {| authSvc_login := authSvc_login s;
     dbAuth_createUser := dbAuth_createUser s;
     dbAuth_getUserByEmail := f;
     dbAuth_generateEmailVerificationLink := dbAuth_generateEmailVerificationLink s;
     transporter_sendMail := transporter_sendMail s;
     userRef_set := userRef_set s;
     userRef_get := userRef_get s;
     userRef_delete := userRef_delete s;
     users_get := users_get s;
     Timestamp_reading := Timestamp_reading s |}.

Definition with_generateLink (f : string → ActionCodeSettings → Outcome string) (s : Services) : Services :=
  {| authSvc_login := authSvc_login s;
     dbAuth_createUser := dbAuth_createUser s;
     dbAuth_getUserByEmail := dbAuth_getUserByEmail s;
     dbAuth_generateEmailVerificationLink := f;
     transporter_sendMail := transporter_sendMail s;
     userRef_set := userRef_set s;
     userRef_get := userRef_get s;
     userRef_delete := userRef_delete s;
     users_get := users_get s;
     Timestamp_reading := Timestamp_reading s |}.

Definition with_set (f : string → JsObj → SetOutcome) (s : Services) : Services :=
  {| authSvc_login := authSvc_login s;
     dbAuth_createUser := dbAuth_createUser s;
     dbAuth_getUserByEmail := dbAuth_getUserByEmail s;
     dbAuth_generateEmailVerificationLink := dbAuth_generateEmailVerificationLink s;
     transporter_sendMail := transporter_sendMail s;
     userRef_set := f;
     userRef_get := userRef_get s;
     userRef_delete := userRef_delete s;
     users_get := users_get s;
     Timestamp_reading := Timestamp_reading s |}.

Definition connection_refused : Exn :=
  ExtError (Some "ESOCKET") (Some "connect ECONNREFUSED 127.0.0.1:587").

Definition mailbox_unknown : Exn :=
  ExtError (Some "EENVELOPE") (Some "Can't send mail - all recipients were rejected: 550 5.1.1 user unknown").

Definition no_such_user : Exn :=
  ExtError (Some "auth/user-not-found")
    (Some "There is no user record corresponding to the provided identifier.").

Definition provider_unreachable : Exn :=
  ExtError (Some "app/network-error") (Some "Error while making request: timeout of 25000ms exceeded.").

(** The transport refuses the connexion. *)
Definition smtp_down : Services := with_sendMail (λ _ _, Throw connection_refused) healthy.

(** The transport rejects the recipient. *)
Definition smtp_rejects : Services := with_sendMail (λ _ _, Throw mailbox_unknown) healthy.

(** The provider knows no account. *)
Definition no_account : Services := with_getUserByEmail (λ _, Throw no_such_user) healthy.

(** The provider cannot be reached for the look-up. *)
Definition lookup_down : Services := with_getUserByEmail (λ _, Throw provider_unreachable) healthy.

(** The provider cannot be reached for the link. *)
Definition link_down : Services := with_generateLink (λ _ _, Throw provider_unreachable) healthy.

(** The store acknowledges the write, which is not there afterwards. *)
Definition store_loses : Services := with_set (λ _ _, SetLost) healthy.

Definition world_of (e : gmap string string) (docs : gmap string JsObj) : World :=
  {| env := e; users := docs; accounts := []; clock_reads := 0;
     smtp_attempts := []; console := []; cookies := [] |}.

Definition smtp_env (port : string) : gmap string string :=
  list_to_map
    [("SMTP_HOST", "smtp.example.com"); ("SMTP_PORT", port);
     ("SMTP_USER", "mailer"); ("SMTP_PASS", "secret")].

(** No environment variable is set, no document is stored. *)
Definition bare_world : World := world_of ∅ ∅.

(** SMTP is configured, on port 587. *)
Definition smtp_world : World := world_of (smtp_env "587") ∅.

Definition request_A : CreateUserDTO :=
  {| fullName := "A"; email := "a@x.com"; password := "secret1"; phoneNumber := None |}.

Definition resend_A : option ResendBody := Some {| body_email := Some "a@x.com" |}.

Definition profile (uid name : string) : JsObj :=
  list_to_map
    [("uid", VString uid); ("email", VString (uid +:+ "@x.com"));
     ("fullName", VString name); ("createdAt", VTimestamp 1);
     ("lastLogin", VTimestamp 1); ("purchases", VArray []);
     ("role", UserRole_USER)].

(** Two profiles are stored, under the keys "a" and "b". *)
Definition two_profiles : World :=
  world_of ∅ (list_to_map [("a", profile "a" "Ann"); ("b", profile "b" "Bob")]).

(** More sample collaborators and worlds. *)

Definition email_exists : Exn :=
  ExtError (Some "auth/email-already-exists")
    (Some "The email address is already in use by another account.").

Definition store_unavailable : Exn :=
  ExtError (Some "unavailable") (Some "The service is currently unavailable.").

(** The provider refuses to create the account. *)
Definition email_taken : Services :=
  {| authSvc_login := authSvc_login healthy;
     dbAuth_createUser := λ _ _ _, Throw email_exists;
     dbAuth_getUserByEmail := dbAuth_getUserByEmail healthy;
     dbAuth_generateEmailVerificationLink := dbAuth_generateEmailVerificationLink healthy;
     transporter_sendMail := transporter_sendMail healthy;
     userRef_set := userRef_set healthy;
     userRef_get := userRef_get healthy;
     userRef_delete := userRef_delete healthy;
     users_get := users_get healthy;
     Timestamp_reading := Timestamp_reading healthy |}.

(** The store rejects every write. *)
Definition store_rejects : Services := with_set (λ _ _, SetRejected store_unavailable) healthy.

(** The store takes the writes and rejects every read of a document. *)
Definition read_rejects : Services :=
  {| authSvc_login := authSvc_login healthy;
     dbAuth_createUser := dbAuth_createUser healthy;
     dbAuth_getUserByEmail := dbAuth_getUserByEmail healthy;
     dbAuth_generateEmailVerificationLink := dbAuth_generateEmailVerificationLink healthy;
     transporter_sendMail := transporter_sendMail healthy;
     userRef_set := userRef_set healthy;
     userRef_get := λ _, Some store_unavailable;
     userRef_delete := userRef_delete healthy;
     users_get := users_get healthy;
     Timestamp_reading := Timestamp_reading healthy |}.

(** [AuthService.login] returns a token and a role that need escaping: a
    quote, a backslash and a line feed. *)
Definition odd_token : string := "a" +:+ dquote +:+ "b\c".
Definition odd_role : string := "US" +:+ newline +:+ "ER".
Definition odd_login : Services :=
  {| authSvc_login := λ _,
       Ok {| idToken := odd_token; user_role := odd_role; user_uid := "uid-1" |};
     dbAuth_createUser := dbAuth_createUser healthy;
     dbAuth_getUserByEmail := dbAuth_getUserByEmail healthy;
     dbAuth_generateEmailVerificationLink := dbAuth_generateEmailVerificationLink healthy;
     transporter_sendMail := transporter_sendMail healthy;
     userRef_set := userRef_set healthy;
     userRef_get := userRef_get healthy;
     userRef_delete := userRef_delete healthy;
     users_get := users_get healthy;
     Timestamp_reading := Timestamp_reading healthy |}.

(** The profiles of Ann and Bob are stored, under the keys "a" and "b". *)
Definition ann_and_bob : World :=
  world_of ∅ (<["a" := profile "a" "Ann"]> (<["b" := profile "b" "Bob"]> ∅)).

Definition record_A : UserRecord :=
  {| rec_uid := "uid-1"; rec_email := "a@x.com"; rec_displayName := "A" |}.
Definition bad_credentials : Exn := HttpException "Invalid credentials" UNAUTHORIZED.

(** [AuthService.login] refuses the credentials. *)
Definition wrong_password : Services :=
  {| authSvc_login := λ _, Throw bad_credentials;
     dbAuth_createUser := dbAuth_createUser healthy;
     dbAuth_getUserByEmail := dbAuth_getUserByEmail healthy;
     dbAuth_generateEmailVerificationLink := dbAuth_generateEmailVerificationLink healthy;
     transporter_sendMail := transporter_sendMail healthy;
     userRef_set := userRef_set healthy;
     userRef_get := userRef_get healthy;
     userRef_delete := userRef_delete healthy;
     users_get := users_get healthy;
     Timestamp_reading := Timestamp_reading healthy |}.

(** The names of the eight properties of the object [create] returns. *)
Definition profile_fields : gset string :=
  list_to_set ["uid"; "email"; "fullName"; "phoneNumber"; "createdAt"; "lastLogin";
               "purchases"; "role"].

(** The document [create] hands to the store for the account [r]: the
    object literal with the two clock readings taken in world [w]. *)
Definition created_doc (ext : Services) (model : CreateUserDTO) (w : World)
    (r : UserRecord) : JsObj :=
  UserService.new_user_doc (rec_uid r) model
    (VTimestamp (Timestamp_reading ext (clock_reads w)))
    (VTimestamp (Timestamp_reading ext (S (clock_reads w)))).

(** The options the transport is created with, from the SMTP settings. *)
Definition transport_options (cfg : string * JsNum * string * string) : TransportOptions :=
  let '(h, p, u, s) := cfg in
  {| host := h; port := p; secure := num_is p 465; auth_user := u; auth_pass := s |}.

(** The mail the resend endpoint hands to the transport. *)
Definition controller_mail (w : World) (mail l : string) : Mail :=
  {| from := UserService.mail_from (env w !! "EMAIL_FROM") (env w !! "FRONTEND_BASE_DOMAIN");
     to := mail;
     subject := "Verify your email for Sure Proxies";
     html := AuthController.controller_html l |}.

(** The mail [sendEmailVerification] hands to the transport. *)
Definition service_mail (w : World) (mail l : string) : Mail :=
  {| from := UserService.mail_from (env w !! "EMAIL_FROM") (env w !! "FRONTEND_BASE_DOMAIN");
     to := mail;
     subject := "Verify your email for Sure Proxies";
     html := UserService.service_html l |}.

(** The world in which [create] dispatches the verification mail, after
    the account [r] was created and its document stored. *)
Definition world_with_profile (ext : Services) (model : CreateUserDTO) (w : World)
    (r : UserRecord) : World :=
  with_users (insert (rec_uid r) (created_doc ext model w r))
    (with_tick (with_tick (with_account r w))).

(** The console entry that carries the link when SMTP is not configured. *)
Definition link_logged (l : string) : LogEntry :=
  {| level := LevelWarn;
     args := [LText "⚠️ [EMAIL] SMTP not configured. Verification link: "; LText l] |}.

(** Every stored document that has an [id] property of its own has its key
    there. *)
Definition id_matches_key (docs : gmap string JsObj) : Prop :=
  map_Forall (λ key data, ∀ v, data !! "id" = Some v → v = VString key) docs.

(** Every stored document has its key as [uid]. *)
Definition uid_matches_key (docs : gmap string JsObj) : Prop :=
  map_Forall (λ key data, data !! "uid" = Some (VString key)) docs.

(** ** Sequences of calls to the service *)

Inductive Request : Type :=
| ReqCreate (model : CreateUserDTO)
| ReqFindAll
| ReqFindOne (id : string)
| ReqUpdate (id : string) (partial : JsObj)
| ReqRemove (id : string).

(** The world after one call, served with the answers [ext] of the
    collaborators. *)
Definition serve (Number : string → JsNum) (ext : Services) (q : Request) (w : World) : World :=
  match q with
  | ReqCreate model => snd (UserService.create Number ext model w)
  | ReqFindAll => snd (UserService.findAll ext w)
  | ReqFindOne id => snd (UserService.findOne ext id w)
  | ReqUpdate id partial => snd (UserService.update ext id partial w)
  | ReqRemove id => snd (UserService.remove ext id w)
  end.

(** The world after a sequence of calls, each with its own answers. *)
Fixpoint serve_all (Number : string → JsNum) (qs : list (Services * Request)) (w : World) : World :=
  match qs with
  | [] => w
  | (ext, q) :: rest => serve_all Number rest (serve Number ext q w)
  end.

(** A partial that sets neither [id] nor [uid]. *)
Definition keeps_keys (q : Request) : Prop :=
  match q with
  | ReqUpdate _ partial => partial !! "id" = None ∧ partial !! "uid" = None
  | _ => True
  end.

(** Only the console and the list of SMTP attempts differ. *)
Definition quiet (w w' : World) : Prop :=
  env w' = env w ∧ users w' = users w ∧ accounts w' = accounts w ∧
  clock_reads w' = clock_reads w ∧ cookies w' = cookies w.

(** * Properties *)

Ltac unfold_monad :=
  unfold Timestamp_now, createUser, getUserByEmail,
    generateEmailVerificationLink, sendMail, doc_set, doc_get, doc_delete;
  unfold try_catch, throw, settle, process_env, console_log, console_warn,
    console_error, mbind, mret, M_bind, M_ret;
  cbn beta iota zeta.

Lemma quiet_refl w : quiet w w.
Proof. repeat split. Qed.

Lemma quiet_trans w1 w2 w3 : quiet w1 w2 → quiet w2 w3 → quiet w1 w3.
Proof.
  unfold quiet. intros (? & ? & ? & ? & ?) (? & ? & ? & ? & ?).
  repeat split; congruence.
Qed.

Lemma quiet_log e w : quiet w (with_log e w).
Proof. repeat split. Qed.

Lemma quiet_attempt a w : quiet w (with_attempt a w).
Proof. repeat split. Qed.

(** ** The verification e-mail helper never throws *)

Lemma sendEmailVerification_ok Number ext uid mail w :
  ∃ w', UserService.sendEmailVerification Number ext uid mail w = (Ok tt, w') ∧ quiet w w'.
Proof.
  unfold UserService.sendEmailVerification. unfold_monad.
  destruct (dbAuth_generateEmailVerificationLink ext mail _) as [l | e].
  - destruct (UserService.smtp_configured _ _ _ _) as [[[[h p] u] s] | ].
    + destruct (transporter_sendMail ext _ _) as [info | e];
        eexists; (split; [reflexivity |]);
        (eapply quiet_trans; [apply quiet_attempt | apply quiet_log]).
    + eexists. split; [reflexivity | apply quiet_log].
  - eexists. split; [reflexivity | apply quiet_log].
Qed.



(** ** findOne and update *)

Lemma findOne_rejected ext id w e :
  userRef_get ext id = Some e →
  UserService.findOne ext id w = (Throw e, w).
Proof.
  intros Hget. unfold UserService.findOne. unfold_monad.
  now rewrite Hget.
Qed.

Lemma findOne_missing ext id w :
  userRef_get ext id = None →
  users w !! id = None →
  UserService.findOne ext id w = (Throw (HttpException "Account not found" NOT_FOUND), w).
Proof.
  intros Hget Hnone. unfold UserService.findOne. unfold_monad.
  now rewrite Hget, Hnone.
Qed.

Lemma findOne_found ext id data w :
  userRef_get ext id = None →
  users w !! id = Some data →
  UserService.findOne ext id w = (Ok (spread {[ "id" := VString id ]} data), w).
Proof.
  intros Hget Hsome. unfold UserService.findOne. unfold_monad.
  now rewrite Hget, Hsome.
Qed.

Lemma update_read_rejected ext id model w e :
  userRef_get ext id = Some e →
  UserService.update ext id model w = (Throw e, w).
Proof.
  intros Hget. unfold UserService.update. unfold_monad.
  now rewrite (findOne_rejected ext id w e Hget).
Qed.

Lemma update_missing ext id model w :
  userRef_get ext id = None →
  users w !! id = None →
  UserService.update ext id model w
    = (Throw (HttpException "Account not found" NOT_FOUND), w).
Proof.
  intros Hget Hnone. unfold UserService.update. unfold_monad.
  now rewrite (findOne_missing ext id w Hget Hnone).
Qed.

Lemma two_profiles_c : users two_profiles !! "c" = None.
Proof.
  unfold two_profiles, world_of. cbn [users list_to_map foldr uncurry fst snd].
  rewrite !lookup_insert_ne by discriminate. apply lookup_empty.
Qed.

(** C7: [update] on an id that has no document fails and writes nothing:
    the world after the call, the document store included, is the world
    before it.  When the store answers the read, the failure is "Account
    not found" (404, AccountNotFound); when the read itself is rejected, the
    failure is the store's error. *)
Theorem update_missing_fails_without_write ext id model w :
  users w !! id = None →
  (userRef_get ext id = None →
   UserService.update ext id model w
     = (Throw (HttpException "Account not found" NOT_FOUND), w)) ∧
  (∀ e, userRef_get ext id = Some e →
        UserService.update ext id model w = (Throw e, w)) ∧
  status_code NOT_FOUND = 404%Z ∧
  (∃ e, fst (UserService.update ext id model w) = Throw e) ∧
  snd (UserService.update ext id model w) = w ∧
  users (snd (UserService.update ext id model w)) = users w.
Proof.
  intros Hnone.
  split; [intros Hget; exact (update_missing ext id model w Hget Hnone) |].
  split; [intros e Hget; exact (update_read_rejected ext id model w e Hget) |].
  split; [reflexivity |].
  destruct (userRef_get ext id) as [e |] eqn:Hget.
  - rewrite (update_read_rejected ext id model w e Hget).
    split; [eexists; reflexivity | split; reflexivity].
  - rewrite (update_missing ext id model w Hget Hnone).
    split; [eexists; reflexivity | split; reflexivity].
Qed.

Lemma update_missing_fails_without_write_witness :
  users two_profiles !! "c" = None ∧
  UserService.update healthy "c" {[ "fullName" := VString "Cy" ]} two_profiles
    = (Throw (HttpException "Account not found" NOT_FOUND), two_profiles) ∧
  users (snd (UserService.update healthy "c" {[ "fullName" := VString "Cy" ]} two_profiles))
    = users two_profiles ∧
  UserService.update read_rejects "c" {[ "fullName" := VString "Cy" ]} two_profiles
    = (Throw store_unavailable, two_profiles).
Proof.
  split; [exact two_profiles_c |].
  destruct (update_missing_fails_without_write healthy "c"
              {[ "fullName" := VString "Cy" ]} two_profiles two_profiles_c)
    as (Hthrow & _ & _ & _ & _ & Hsame).
  split; [exact (Hthrow eq_refl) |]. split; [exact Hsame |].
  destruct (update_missing_fails_without_write read_rejects "c"
              {[ "fullName" := VString "Cy" ]} two_profiles two_profiles_c)
    as (_ & Hraw & _).
  exact (Hraw store_unavailable eq_refl).
Defined.

(** ** create, outcome by outcome of the collaborators *)

Ltac run_email :=
  match goal with
  | |- context [UserService.sendEmailVerification ?N ?e ?u ?m ?w] =>
      let w2 := fresh "w2" in
      let Hq := fresh "Hq" in
      destruct (sendEmailVerification_ok N e u m w) as (w2 & -> & Hq)
  end.

Lemma create_provider_rejects Number ext model w e :
  dbAuth_createUser ext (fullName model) (email model) (password model) = Throw e →
  UserService.create Number ext model w
    = (Throw e,
       with_log {| level := LevelError;
                   args := [LThrown e; LText "Error creating user"] |} w).
Proof.
  intros Hc. unfold UserService.create. unfold_monad. now rewrite Hc.
Qed.

Lemma create_no_record Number ext model w :
  dbAuth_createUser ext (fullName model) (email model) (password model) = Ok None →
  ∃ w', UserService.create Number ext model w
    = (Throw (HttpException "Unable to create account. Please try again."
                INTERNAL_SERVER_ERROR), w').
Proof.
  intros Hc. unfold UserService.create. unfold_monad. rewrite Hc.
  eexists. reflexivity.
Qed.

Section CreateWithAccount.

Variable Number : string → JsNum.
Variable ext : Services.
Variable model : CreateUserDTO.
Variable w : World.
Variable r : UserRecord.

Hypothesis account_created :
  dbAuth_createUser ext (fullName model) (email model) (password model) = Ok (Some r).

Lemma create_write_rejected e :
  userRef_set ext (rec_uid r) (created_doc ext model w r) = SetRejected e →
  ∃ w', UserService.create Number ext model w
    = (Throw (HttpException "Unable to save account information. Please try again."
                INTERNAL_SERVER_ERROR), w') ∧
    users w' = users w.
Proof.
  intros Hset. unfold UserService.create, UserService.saveUser. unfold_monad.
  rewrite account_created. cbn [clock_reads with_tick with_account].
  fold (created_doc ext model w r). rewrite Hset. cbn beta iota.
  eexists. split; reflexivity.
Qed.

Lemma create_write_applied :
  userRef_set ext (rec_uid r) (created_doc ext model w r) = SetApplied →
  userRef_get ext (rec_uid r) = None →
  ∃ w', UserService.create Number ext model w
    = (Ok (UserService.user_view (created_doc ext model w r)), w') ∧
    users w' = <[rec_uid r := created_doc ext model w r]> (users w) ∧
    accounts w' = (accounts w ++ [r])%list.
Proof.
  intros Hset Hget. unfold UserService.create, UserService.saveUser. unfold_monad.
  rewrite account_created. cbn [clock_reads with_tick with_account].
  fold (created_doc ext model w r). rewrite Hset. cbn beta iota.
  run_email. destruct Hq as (_ & Husers & Haccounts & _).
  cbn [users accounts with_users with_tick with_account] in Husers, Haccounts.
  rewrite Hget, Husers, lookup_insert_eq.
  eexists. split; [reflexivity |]. split; assumption.
Qed.

Lemma create_write_lost :
  userRef_set ext (rec_uid r) (created_doc ext model w r) = SetLost →
  userRef_get ext (rec_uid r) = None →
  ∃ w', UserService.create Number ext model w
    = (Throw (HttpException
                "Account created but verification failed. Please contact support."
                INTERNAL_SERVER_ERROR), w') ∧
    users w' = delete (rec_uid r) (users w) ∧
    accounts w' = (accounts w ++ [r])%list.
Proof.
  intros Hset Hget. unfold UserService.create, UserService.saveUser. unfold_monad.
  rewrite account_created. cbn [clock_reads with_tick with_account].
  fold (created_doc ext model w r). rewrite Hset. cbn beta iota.
  run_email. destruct Hq as (_ & Husers & Haccounts & _).
  cbn [users accounts with_users with_tick with_account] in Husers, Haccounts.
  rewrite Hget, Husers, lookup_delete_eq.
  eexists. split; [reflexivity |]. split; assumption.
Qed.

(** The read at line 42 is rejected: the catch at lines 62-65 logs the
    store's error and throws it again, as it is. *)
Lemma create_reread_rejected e :
  (∀ e', userRef_set ext (rec_uid r) (created_doc ext model w r) ≠ SetRejected e') →
  userRef_get ext (rec_uid r) = Some e →
  ∃ w', UserService.create Number ext model w = (Throw e, w') ∧
    accounts w' = (accounts w ++ [r])%list ∧
    (userRef_set ext (rec_uid r) (created_doc ext model w r) = SetApplied →
     users w' = <[rec_uid r := created_doc ext model w r]> (users w)) ∧
    (userRef_set ext (rec_uid r) (created_doc ext model w r) = SetLost →
     users w' = delete (rec_uid r) (users w)).
Proof.
  intros Hno Hget. unfold UserService.create, UserService.saveUser. unfold_monad.
  rewrite account_created. cbn [clock_reads with_tick with_account].
  fold (created_doc ext model w r).
  destruct (userRef_set ext (rec_uid r) (created_doc ext model w r)) as [| | e'] eqn:Hset;
    [| | destruct (Hno e'); reflexivity];
    cbn beta iota; run_email; destruct Hq as (_ & Husers & Haccounts & _);
    cbn [users accounts with_users with_tick with_account] in Husers, Haccounts;
    rewrite Hget; eexists; (split; [reflexivity |]);
    cbn [users accounts with_log]; (split; [assumption |]);
    (split; [intros Heq | intros Heq]); first [assumption | discriminate Heq].
Qed.

End CreateWithAccount.

Lemma created_doc_fields ext model w r :
  created_doc ext model w r !! "uid" = Some (VString (rec_uid r)) ∧
  created_doc ext model w r !! "purchases" = Some (VArray []) ∧
  created_doc ext model w r !! "role" = Some UserRole_USER ∧
  created_doc ext model w r !! "createdAt"
    = Some (VTimestamp (Timestamp_reading ext (clock_reads w))) ∧
  created_doc ext model w r !! "lastLogin"
    = Some (VTimestamp (Timestamp_reading ext (S (clock_reads w)))).
Proof.
  unfold created_doc, UserService.new_user_doc. repeat split; reflexivity.
Qed.

(** The object [create] returns has the eight properties of the source's
    return literal and no others; each is the property of that name of the
    document read back, [undefined] when the document has none. *)
Lemma user_view_fields (data : JsObj) :
  dom (UserService.user_view data) = profile_fields ∧
  ∀ k, k ∈ profile_fields → UserService.user_view data !! k = Some (prop data k).
Proof.
  split.
  - unfold UserService.user_view, profile_fields. rewrite dom_list_to_map_L.
    reflexivity.
  - intros k Hk. unfold profile_fields in Hk.
    rewrite elem_of_list_to_set in Hk.
    repeat (apply elem_of_cons in Hk as [-> | Hk]; [reflexivity |]).
    now apply elem_of_nil in Hk.
Qed.

(** [create] hands to the store an object that already has the eight
    properties, so reading it back and copying them gives the same object. *)
Lemma user_view_created_doc ext model w r :
  UserService.user_view (created_doc ext model w r) = created_doc ext model w r.
Proof. reflexivity. Qed.

(** C1, amended: when [create] returns, the provider has created an account
    and the store holds, under that account's uid, a document whose [uid] is
    the account's, with [purchases = []] and [role = USER]; [createdAt] and
    [lastLogin] are the two successive readings of the clock taken for the
    document, [createdAt] first, so they are equal when the clock did not
    move between the two readings. *)
Theorem create_success_persists_profile Number ext model w v w' :
  UserService.create Number ext model w = (Ok v, w') →
  ∃ r d,
    dbAuth_createUser ext (fullName model) (email model) (password model) = Ok (Some r) ∧
    r ∈ accounts w' ∧
    users w' !! rec_uid r = Some d ∧
    d !! "uid" = Some (VString (rec_uid r)) ∧
    d !! "purchases" = Some (VArray []) ∧
    d !! "role" = Some UserRole_USER ∧
    d !! "createdAt" = Some (VTimestamp (Timestamp_reading ext (clock_reads w))) ∧
    d !! "lastLogin" = Some (VTimestamp (Timestamp_reading ext (S (clock_reads w)))) ∧
    (Timestamp_reading ext (clock_reads w) = Timestamp_reading ext (S (clock_reads w)) →
     d !! "createdAt" = d !! "lastLogin") ∧
    v = UserService.user_view d.
Proof.
  intros Hrun.
  destruct (dbAuth_createUser ext (fullName model) (email model) (password model))
    as [[r |] | e] eqn:Hc.
  - destruct (userRef_set ext (rec_uid r) (created_doc ext model w r)) as [| | e] eqn:Hset.
    + destruct (userRef_get ext (rec_uid r)) as [e |] eqn:Hget.
      { destruct (create_reread_rejected Number ext model w r Hc e) as (w1 & Hrun1 & _);
          [intros e'; rewrite Hset; discriminate | exact Hget |].
        rewrite Hrun1 in Hrun. discriminate Hrun. }
      destruct (create_write_applied Number ext model w r Hc Hset Hget)
        as (w1 & Hrun1 & Husers & Haccounts).
      rewrite Hrun1 in Hrun. injection Hrun as <- <-.
      destruct (created_doc_fields ext model w r) as (Hu & Hp & Hr & Hca & Hll).
      exists r, (created_doc ext model w r).
      split; [reflexivity |]. split.
      { rewrite Haccounts. apply elem_of_app. right. apply list_elem_of_singleton.
        reflexivity. }
      split; [rewrite Husers; apply lookup_insert_eq |].
      repeat (split; [assumption |]).
      split; [| reflexivity].
      intros Heq. rewrite Hca, Hll, Heq. reflexivity.
    + destruct (userRef_get ext (rec_uid r)) as [e |] eqn:Hget.
      { destruct (create_reread_rejected Number ext model w r Hc e) as (w1 & Hrun1 & _);
          [intros e'; rewrite Hset; discriminate | exact Hget |].
        rewrite Hrun1 in Hrun. discriminate Hrun. }
      destruct (create_write_lost Number ext model w r Hc Hset Hget) as (w1 & Hrun1 & _).
      rewrite Hrun1 in Hrun. discriminate Hrun.
    + destruct (create_write_rejected Number ext model w r Hc e Hset) as (w1 & Hrun1 & _).
      rewrite Hrun1 in Hrun. discriminate Hrun.
  - destruct (create_no_record Number ext model w Hc) as (w1 & Hrun1).
    rewrite Hrun1 in Hrun. discriminate Hrun.
  - rewrite (create_provider_rejects Number ext model w e Hc) in Hrun.
    discriminate Hrun.
Qed.

Lemma create_success_persists_profile_witness :
  ∃ v w', UserService.create Number_decimal healthy request_A bare_world = (Ok v, w') ∧
    ∃ d, users w' !! "uid-1" = Some d ∧ d !! "role" = Some UserRole_USER.
Proof.
  destruct (create_write_applied Number_decimal healthy request_A bare_world record_A
              eq_refl eq_refl eq_refl) as (w' & Hrun & _).
  eexists. exists w'. split; [exact Hrun |].
  destruct (create_success_persists_profile _ _ _ _ _ _ Hrun)
    as (r & d & Hc & _ & Hd & _ & _ & Hrole & _).
  injection Hc as <-. exists d. split; assumption.
Defined.

(** C1 as the claim states it fails: with a clock that moves between the
    two calls of [Timestamp.now()], [create] succeeds and the persisted
    document has [createdAt = 1700000000000] and
    [lastLogin = 1700000000001]. *)
Lemma create_timestamps_differ :
  ∃ v w' d,
    UserService.create Number_decimal healthy request_A bare_world = (Ok v, w') ∧
    users w' !! "uid-1" = Some d ∧
    d !! "createdAt" = Some (VTimestamp 1700000000000) ∧
    d !! "lastLogin" = Some (VTimestamp 1700000000001) ∧
    d !! "createdAt" ≠ d !! "lastLogin".
Proof.
  pose (r := {| rec_uid := "uid-1"; rec_email := "a@x.com"; rec_displayName := "A" |}).
  destruct (create_write_applied Number_decimal healthy request_A bare_world r
              eq_refl eq_refl eq_refl) as (w' & Hrun & Husers & _).
  destruct (created_doc_fields healthy request_A bare_world r)
    as (_ & _ & _ & Hca & Hll).
  eexists. exists w', (created_doc healthy request_A bare_world r).
  split; [exact Hrun |].
  split; [rewrite Husers; apply lookup_insert_eq |].
  split; [exact Hca |]. split; [exact Hll |].
  rewrite Hca, Hll. intros Heq. vm_compute in Heq. discriminate Heq.
Qed.





(** C5: when the provider created the account and the write raised no error,
    [create] reads the document back.  When the read finds a document,
    [create] returns its contents: an object with the eight properties
    [uid], [email], [fullName], [phoneNumber], [createdAt], [lastLogin],
    [purchases] and [role], each the property of that name of the document
    read; after a write that took effect this is the document written.
    When the read finds no document, [create] fails with the internal error
    "Account created but verification failed" (500).  When the read itself
    is rejected, [create] fails with the store's error. *)
Theorem create_rereads_document Number ext model w r :
  dbAuth_createUser ext (fullName model) (email model) (password model) = Ok (Some r) →
  (∀ e, userRef_set ext (rec_uid r) (created_doc ext model w r) ≠ SetRejected e) →
  ∃ res w',
    UserService.create Number ext model w = (res, w') ∧
    match userRef_get ext (rec_uid r) with
    | Some e => res = Throw e
    | None =>
        match users w' !! rec_uid r with
        | Some data =>
            ∃ v, res = Ok v ∧ dom v = profile_fields ∧
                 ∀ k, k ∈ profile_fields → v !! k = Some (prop data k)
        | None =>
            res = Throw (HttpException
                           "Account created but verification failed. Please contact support."
                           INTERNAL_SERVER_ERROR)
        end
    end ∧
    status_code INTERNAL_SERVER_ERROR = 500%Z ∧
    (userRef_set ext (rec_uid r) (created_doc ext model w r) = SetApplied →
     users w' !! rec_uid r = Some (created_doc ext model w r) ∧
     (userRef_get ext (rec_uid r) = None → res = Ok (created_doc ext model w r))) ∧
    (userRef_set ext (rec_uid r) (created_doc ext model w r) = SetLost →
     users w' !! rec_uid r = None).
Proof.
  intros Hc Hno.
  destruct (userRef_get ext (rec_uid r)) as [e |] eqn:Hget.
  { destruct (create_reread_rejected Number ext model w r Hc e Hno Hget)
      as (w' & Hrun & _ & Happlied & Hlost).
    eexists. exists w'. split; [exact Hrun |]. split; [reflexivity |].
    split; [reflexivity |]. split.
    - intros Hset. rewrite (Happlied Hset), lookup_insert_eq.
      split; [reflexivity | discriminate].
    - intros Hset. rewrite (Hlost Hset). apply lookup_delete_eq. }
  destruct (userRef_set ext (rec_uid r) (created_doc ext model w r)) as [| | e] eqn:Hset.
  - destruct (create_write_applied Number ext model w r Hc Hset Hget)
      as (w' & Hrun & Husers & _).
    eexists. exists w'. split; [exact Hrun |].
    rewrite Husers, lookup_insert_eq. split.
    { eexists. split; [reflexivity |]. apply user_view_fields. }
    split; [reflexivity |]. split; [| discriminate].
    intros _. split; [reflexivity |]. intros _.
    now rewrite user_view_created_doc.
  - destruct (create_write_lost Number ext model w r Hc Hset Hget)
      as (w' & Hrun & Husers & _).
    eexists. exists w'. split; [exact Hrun |].
    rewrite Husers, lookup_delete_eq. repeat split; congruence.
  - destruct (Hno e). reflexivity.
Qed.

Lemma create_rereads_document_witness :
  (∃ w', UserService.create Number_decimal healthy request_A bare_world
         = (Ok (created_doc healthy request_A bare_world record_A), w') ∧
     users w' !! "uid-1" = Some (created_doc healthy request_A bare_world record_A) ∧
     created_doc healthy request_A bare_world record_A !! "email"
       = Some (VString "a@x.com")) ∧
  (∃ w', UserService.create Number_decimal store_loses request_A bare_world
         = (Throw (HttpException
                     "Account created but verification failed. Please contact support."
                     INTERNAL_SERVER_ERROR), w') ∧
     users w' !! "uid-1" = None) ∧
  ∃ w', UserService.create Number_decimal read_rejects request_A bare_world
        = (Throw store_unavailable, w').
Proof.
  split; [| split].
  - destruct (create_rereads_document Number_decimal healthy request_A bare_world
                record_A eq_refl)
      as (res & w' & Hrun & _ & _ & Happlied & _).
    { intros e. discriminate. }
    destruct (Happlied eq_refl) as (Hdoc & Hres).
    rewrite (Hres eq_refl) in Hrun.
    exists w'. split; [exact Hrun |]. split; [exact Hdoc | reflexivity].
  - destruct (create_rereads_document Number_decimal store_loses request_A bare_world
                record_A eq_refl)
      as (res & w' & Hrun & Hres & _ & _ & Hlost).
    { intros e. discriminate. }
    specialize (Hlost eq_refl). cbn [rec_uid record_A] in Hres, Hlost.
    change (userRef_get store_loses "uid-1") with (@None Exn) in Hres.
    rewrite Hlost in Hres. subst res. exists w'. split; assumption.
  - destruct (create_rereads_document Number_decimal read_rejects request_A bare_world
                record_A eq_refl)
      as (res & w' & Hrun & Hres & _).
    { intros e. discriminate. }
    change (userRef_get read_rejects (rec_uid record_A)) with (Some store_unavailable)
      in Hres.
    cbv beta iota in Hres. subst res. exists w'. exact Hrun.
Defined.

(** ** The resend endpoint, outcome by outcome of the collaborators *)

Section ResendEndpoint.

Variable Number : string → JsNum.
Variable ext : Services.
Variable mail : string.
Variable w : World.

Lemma resend_try_lookup_fails e :
  dbAuth_getUserByEmail ext mail = Throw e →
  AuthController.resend_try Number ext mail w = (Throw e, w).
Proof.
  intros Hlookup. unfold AuthController.resend_try. unfold_monad.
  now rewrite Hlookup.
Qed.

Lemma resend_try_link_fails r e :
  dbAuth_getUserByEmail ext mail = Ok r →
  dbAuth_generateEmailVerificationLink ext mail (link_settings w) = Throw e →
  AuthController.resend_try Number ext mail w = (Throw e, w).
Proof.
  unfold link_settings. intros Hlookup Hlink.
  unfold AuthController.resend_try. unfold_monad.
  now rewrite Hlookup, Hlink.
Qed.

Lemma resend_try_provider_fails e :
  provider_fails ext w mail e →
  AuthController.resend_try Number ext mail w = (Throw e, w).
Proof.
  intros [Hlookup | r Hlookup Hlink].
  - now apply resend_try_lookup_fails.
  - now apply resend_try_link_fails with r.
Qed.

Lemma resend_try_unconfigured r l :
  dbAuth_getUserByEmail ext mail = Ok r →
  dbAuth_generateEmailVerificationLink ext mail (link_settings w) = Ok l →
  smtp_settings Number w = None →
  AuthController.resend_try Number ext mail w
    = (Ok {| success := true; logged := Some true; link := Some l |},
       with_log (link_logged l) w).
Proof.
  unfold link_settings, smtp_settings. intros Hlookup Hlink Hcfg.
  unfold AuthController.resend_try. unfold_monad.
  now rewrite Hlookup, Hlink, Hcfg.
Qed.

Lemma resend_try_configured r l cfg :
  dbAuth_getUserByEmail ext mail = Ok r →
  dbAuth_generateEmailVerificationLink ext mail (link_settings w) = Ok l →
  smtp_settings Number w = Some cfg →
  AuthController.resend_try Number ext mail w
    = (match transporter_sendMail ext (transport_options cfg) (controller_mail w mail l) with
       | Ok _ => Ok {| success := true; logged := None; link := None |}
       | Throw e => Throw e
       end,
       with_attempt (transport_options cfg, controller_mail w mail l) w).
Proof.
  unfold link_settings, smtp_settings. intros Hlookup Hlink Hcfg.
  unfold AuthController.resend_try. unfold_monad.
  rewrite Hlookup, Hlink, Hcfg. destruct cfg as [[[h p] u] s].
  unfold transport_options, controller_mail.
  now destruct (transporter_sendMail ext _ _).
Qed.


(** The errors the [try] block throws are those of its three calls. *)
Lemma resend_try_throws_inv e w1 :
  AuthController.resend_try Number ext mail w = (Throw e, w1) →
  provider_fails ext w mail e ∨
  ∃ r l cfg,
    dbAuth_getUserByEmail ext mail = Ok r ∧
    dbAuth_generateEmailVerificationLink ext mail (link_settings w) = Ok l ∧
    smtp_settings Number w = Some cfg ∧
    transporter_sendMail ext (transport_options cfg) (controller_mail w mail l) = Throw e.
Proof.
  intros Htry.
  destruct (dbAuth_getUserByEmail ext mail) as [r | e'] eqn:Hlookup.
  - destruct (dbAuth_generateEmailVerificationLink ext mail (link_settings w))
      as [l | e'] eqn:Hlink.
    + destruct (smtp_settings Number w) as [cfg |] eqn:Hcfg.
      * rewrite (resend_try_configured r l cfg Hlookup Hlink Hcfg) in Htry.
        right. exists r, l, cfg. repeat (split; [reflexivity || assumption |]).
        destruct (transporter_sendMail ext _ _); [discriminate Htry |].
        now injection Htry as -> _.
      * rewrite (resend_try_unconfigured r l Hlookup Hlink Hcfg) in Htry.
        discriminate Htry.
    + rewrite (resend_try_link_fails r e' Hlookup Hlink) in Htry.
      injection Htry as -> _. left. now apply link_fails with r.
  - rewrite (resend_try_lookup_fails e' Hlookup) in Htry.
    injection Htry as -> _. left. now apply lookup_fails.
Qed.

Lemma resendVerification_with_email :
  nonempty mail = true →
  AuthController.resendVerification Number ext (Some {| body_email := Some mail |}) w
    = try_catch (AuthController.resend_try Number ext mail)
        AuthController.resend_catch w.
Proof.
  intros Hmail. unfold AuthController.resendVerification. cbn. now rewrite Hmail.
Qed.

Lemma resendVerification_throws e w1 :
  nonempty mail = true →
  AuthController.resend_try Number ext mail w = (Throw e, w1) →
  AuthController.resendVerification Number ext (Some {| body_email := Some mail |}) w
    = AuthController.resend_catch e w1.
Proof.
  intros Hmail Htry. rewrite (resendVerification_with_email Hmail).
  unfold try_catch. now rewrite Htry.
Qed.

Lemma resendVerification_returns v w1 :
  nonempty mail = true →
  AuthController.resend_try Number ext mail w = (Ok v, w1) →
  AuthController.resendVerification Number ext (Some {| body_email := Some mail |}) w
    = (Ok v, w1).
Proof.
  intros Hmail Htry. rewrite (resendVerification_with_email Hmail).
  unfold try_catch. now rewrite Htry.
Qed.

End ResendEndpoint.

Lemma resend_catch_not_found e w :
  AuthController.maps_to_not_found e = true →
  AuthController.resend_catch e w
    = (Throw (HttpException "Account not found" NOT_FOUND), w).
Proof.
  intros Hm. unfold AuthController.resend_catch. now rewrite Hm.
Qed.

Lemma resend_catch_internal e w :
  AuthController.maps_to_not_found e = false →
  AuthController.resend_catch e w
    = (Throw (HttpException "Unable to resend verification link" INTERNAL_SERVER_ERROR),
       with_log {| level := LevelError;
                   args := [LText "Failed to resend verification link:"; LThrown e] |} w).
Proof.
  intros Hm. unfold AuthController.resend_catch. now rewrite Hm.
Qed.

Lemma resend_catch_no_attempt e w :
  smtp_attempts (snd (AuthController.resend_catch e w)) = smtp_attempts w.
Proof.
  destruct (AuthController.maps_to_not_found e) eqn:Hm.
  - now rewrite resend_catch_not_found.
  - now rewrite resend_catch_internal.
Qed.

Lemma maps_to_not_found_code e :
  err_code e = Some "auth/user-not-found" →
  AuthController.maps_to_not_found e = true.
Proof.
  intros Hcode. unfold AuthController.maps_to_not_found.
  rewrite Hcode. reflexivity.
Qed.

Lemma maps_to_not_found_message e m :
  err_message e = Some m →
  includes m "user" = true →
  AuthController.maps_to_not_found e = true.
Proof.
  intros Hm Hinc. unfold AuthController.maps_to_not_found.
  rewrite Hm, Hinc. apply orb_true_r.
Qed.

(** ** The service's resendVerification *)

Lemma sendEmailVerification_link_fails Number ext uid mail w e :
  dbAuth_generateEmailVerificationLink ext mail (link_settings w) = Throw e →
  UserService.sendEmailVerification Number ext uid mail w
    = (Ok tt,
       with_log {| level := LevelError;
                   args := [LText "❌ [EMAIL] Failed to send verification email:";
                            LThrown e] |} w).
Proof.
  unfold link_settings. intros Hlink.
  unfold UserService.sendEmailVerification. unfold_monad. now rewrite Hlink.
Qed.

Lemma service_resend_lookup_fails Number ext mail w e :
  dbAuth_getUserByEmail ext mail = Throw e →
  UserService.resendVerification Number ext mail w
    = (Throw (HttpException "Account not found" NOT_FOUND),
       with_log {| level := LevelError;
                   args := [LText "Error resending verification:";
                            LThrown (HttpException "Account not found" NOT_FOUND)] |} w).
Proof.
  intros Hlookup. unfold UserService.resendVerification. unfold_monad.
  now rewrite Hlookup.
Qed.

Lemma service_resend_resolved Number ext mail w r :
  dbAuth_getUserByEmail ext mail = Ok r →
  UserService.resendVerification Number ext mail w
    = UserService.sendEmailVerification Number ext (rec_uid r) mail w.
Proof.
  intros Hlookup. unfold UserService.resendVerification. unfold_monad.
  rewrite Hlookup.
  destruct (sendEmailVerification_ok Number ext (rec_uid r) mail w) as (w' & Hrun & _).
  now rewrite Hrun.
Qed.

(** ** create attempts a delivery only with SMTP settings *)


(** C8: when an error is thrown inside the [try] block of the resend
    handler and its message contains "user", the endpoint answers "Account
    not found" (404), whichever call threw it: the look-up, the generation
    of the link or the SMTP transport. *)
Theorem resend_user_in_message_gives_404 Number ext mail w e w1 m :
  nonempty mail = true →
  AuthController.resend_try Number ext mail w = (Throw e, w1) →
  err_message e = Some m →
  includes m "user" = true →
  AuthController.resendVerification Number ext (Some {| body_email := Some mail |}) w
    = (Throw (HttpException "Account not found" NOT_FOUND), w1) ∧
  status_code NOT_FOUND = 404%Z.
Proof.
  intros Hmail Htry Hm Hinc. split; [| reflexivity].
  rewrite (resendVerification_throws Number ext mail w e w1 Hmail Htry).
  apply resend_catch_not_found. now apply maps_to_not_found_message with m.
Qed.

Lemma resend_user_in_message_gives_404_witness :
  AuthController.resend_try Number_decimal smtp_rejects "a@x.com" smtp_world
    = (Throw mailbox_unknown,
       with_attempt
         (transport_options ("smtp.example.com", JFinite 587, "mailer", "secret"),
          controller_mail smtp_world "a@x.com" link_1) smtp_world) ∧
  AuthController.resendVerification Number_decimal smtp_rejects resend_A smtp_world
    = (Throw (HttpException "Account not found" NOT_FOUND),
       with_attempt
         (transport_options ("smtp.example.com", JFinite 587, "mailer", "secret"),
          controller_mail smtp_world "a@x.com" link_1) smtp_world).
Proof.
  assert (AuthController.resend_try Number_decimal smtp_rejects "a@x.com" smtp_world
    = (Throw mailbox_unknown,
       with_attempt
         (transport_options ("smtp.example.com", JFinite 587, "mailer", "secret"),
          controller_mail smtp_world "a@x.com" link_1) smtp_world)) as Htry.
  { vm_compute. reflexivity. }
  split; [exact Htry |].
  apply (resend_user_in_message_gives_404 Number_decimal smtp_rejects "a@x.com"
           smtp_world mailbox_unknown _
           "Can't send mail - all recipients were rejected: 550 5.1.1 user unknown").
  - reflexivity.
  - exact Htry.
  - reflexivity.
  - vm_compute. reflexivity.
Defined.

(** The errors of C8 that have nothing to do with the existence of the
    account: a failure of link generation, and a failure of the transport. *)
Lemma resend_link_error_with_user_gives_404 Number ext mail w r e m :
  nonempty mail = true →
  dbAuth_getUserByEmail ext mail = Ok r →
  dbAuth_generateEmailVerificationLink ext mail (link_settings w) = Throw e →
  err_message e = Some m →
  includes m "user" = true →
  AuthController.resendVerification Number ext (Some {| body_email := Some mail |}) w
    = (Throw (HttpException "Account not found" NOT_FOUND), w).
Proof.
  intros Hmail Hlookup Hlink Hm Hinc.
  rewrite (resendVerification_throws Number ext mail w e w Hmail
             (resend_try_link_fails Number ext mail w r e Hlookup Hlink)).
  apply resend_catch_not_found. now apply maps_to_not_found_message with m.
Qed.

Lemma resend_smtp_error_with_user_gives_404 Number ext mail w r l cfg e m :
  nonempty mail = true →
  dbAuth_getUserByEmail ext mail = Ok r →
  dbAuth_generateEmailVerificationLink ext mail (link_settings w) = Ok l →
  smtp_settings Number w = Some cfg →
  transporter_sendMail ext (transport_options cfg) (controller_mail w mail l) = Throw e →
  err_message e = Some m →
  includes m "user" = true →
  AuthController.resendVerification Number ext (Some {| body_email := Some mail |}) w
    = (Throw (HttpException "Account not found" NOT_FOUND),
       with_attempt (transport_options cfg, controller_mail w mail l) w).
Proof.
  intros Hmail Hlookup Hlink Hcfg Hsend Hm Hinc.
  pose proof (resend_try_configured Number ext mail w r l cfg Hlookup Hlink Hcfg) as Htry.
  rewrite Hsend in Htry.
  rewrite (resendVerification_throws Number ext mail w e _ Hmail Htry).
  apply resend_catch_not_found. now apply maps_to_not_found_message with m.
Qed.

(** C3, amended: for an email that resolves to a provider account, the
    service's [resendVerification] returns without error whatever link
    generation and the SMTP transport do; the HTTP endpoint, which sends the
    mail itself, fails when the transport raises: with "Unable to resend
    verification link" (500), or with "Account not found" (404) when the
    error passes the test of the [catch] clause. *)
Theorem resend_when_transport_raises Number ext mail w r l cfg e :
  nonempty mail = true →
  dbAuth_getUserByEmail ext mail = Ok r →
  dbAuth_generateEmailVerificationLink ext mail (link_settings w) = Ok l →
  smtp_settings Number w = Some cfg →
  transporter_sendMail ext (transport_options cfg) (controller_mail w mail l) = Throw e →
  (∀ link_answer mail_answer,
     ∃ w', UserService.resendVerification Number
             (with_generateLink link_answer (with_sendMail mail_answer ext)) mail w
           = (Ok tt, w')) ∧
  (∃ w', UserService.resendVerification Number ext mail w = (Ok tt, w')) ∧
  ∃ failure w',
    AuthController.resendVerification Number ext (Some {| body_email := Some mail |}) w
      = (Throw failure, w') ∧
    smtp_attempts w'
      = (smtp_attempts w ++ [(transport_options cfg, controller_mail w mail l)])%list ∧
    (AuthController.maps_to_not_found e = false →
     failure = HttpException "Unable to resend verification link" INTERNAL_SERVER_ERROR) ∧
    (AuthController.maps_to_not_found e = true →
     failure = HttpException "Account not found" NOT_FOUND).
Proof.
  intros Hmail Hlookup Hlink Hcfg Hsend. split; [| split].
  - intros link_answer mail_answer.
    rewrite (service_resend_resolved Number
               (with_generateLink link_answer (with_sendMail mail_answer ext))
               mail w r Hlookup).
    destruct (sendEmailVerification_ok Number
                (with_generateLink link_answer (with_sendMail mail_answer ext))
                (rec_uid r) mail w) as (w' & Hrun & _).
    exists w'. exact Hrun.
  - rewrite (service_resend_resolved Number ext mail w r Hlookup).
    destruct (sendEmailVerification_ok Number ext (rec_uid r) mail w) as (w' & Hrun & _).
    exists w'. exact Hrun.
  - pose proof (resend_try_configured Number ext mail w r l cfg Hlookup Hlink Hcfg) as Htry.
    rewrite Hsend in Htry.
    rewrite (resendVerification_throws Number ext mail w e _ Hmail Htry).
    destruct (AuthController.maps_to_not_found e) eqn:Hm.
    + rewrite (resend_catch_not_found _ _ Hm). do 2 eexists.
      split; [reflexivity |]. split; [reflexivity |]. split; [discriminate | reflexivity].
    + rewrite (resend_catch_internal _ _ Hm). do 2 eexists.
      split; [reflexivity |]. split; [reflexivity |]. split; [reflexivity | discriminate].
Qed.

Lemma resend_when_transport_raises_witness :
  (∃ w', UserService.resendVerification Number_decimal smtp_down "a@x.com" smtp_world
         = (Ok tt, w')) ∧
  ∃ w', AuthController.resendVerification Number_decimal smtp_down resend_A smtp_world
        = (Throw (HttpException "Unable to resend verification link"
                    INTERNAL_SERVER_ERROR), w').
Proof.
  destruct (resend_when_transport_raises Number_decimal smtp_down "a@x.com" smtp_world
              {| rec_uid := "uid-1"; rec_email := "a@x.com"; rec_displayName := "A" |}
              link_1 ("smtp.example.com", JFinite 587, "mailer", "secret")
              connection_refused)
    as (_ & Hservice & failure & w' & Hrun & _ & Hinternal & _).
  - reflexivity.
  - reflexivity.
  - reflexivity.
  - vm_compute. reflexivity.
  - reflexivity.
  - split; [exact Hservice |].
    exists w'. unfold resend_A. rewrite Hrun, Hinternal; [reflexivity |].
    vm_compute. reflexivity.
Defined.

(** C3 as the claim states it fails at the endpoint: the email resolves,
    the link is generated, SMTP is configured, the transport refuses the
    connexion, and the request fails with status 500. *)
Lemma resend_endpoint_fails_on_transport_error :
  dbAuth_getUserByEmail smtp_down "a@x.com"
    = Ok {| rec_uid := "uid-1"; rec_email := "a@x.com"; rec_displayName := "A" |} ∧
  transporter_sendMail smtp_down
    (transport_options ("smtp.example.com", JFinite 587, "mailer", "secret"))
    (controller_mail smtp_world "a@x.com" link_1) = Throw connection_refused ∧
  AuthController.resendVerification Number_decimal smtp_down resend_A smtp_world
    = (Throw (HttpException "Unable to resend verification link" INTERNAL_SERVER_ERROR),
       with_log
         {| level := LevelError;
            args := [LText "Failed to resend verification link:";
                     LThrown connection_refused] |}
         (with_attempt
            (transport_options ("smtp.example.com", JFinite 587, "mailer", "secret"),
             controller_mail smtp_world "a@x.com" link_1) smtp_world)) ∧
  status_code INTERNAL_SERVER_ERROR = 500%Z.
Proof.
  split; [reflexivity |]. split; [reflexivity |]. split; [| reflexivity].
  vm_compute. reflexivity.
Qed.

(** C4, amended: when the provider fails while the email is looked up or
    its link generated, the endpoint fails and no delivery is attempted: with
    "Account not found" (404) when the provider reports
    [auth/user-not-found], with "Unable to resend verification link" (500)
    when the error does not pass the test of the [catch] clause.  The
    service's [resendVerification] reports every failure of the look-up as
    "Account not found" (404), and returns without error when only the
    generation of the link fails; it attempts no delivery either. *)
Theorem resend_when_provider_fails Number ext mail w e :
  nonempty mail = true →
  provider_fails ext w mail e →
  (∃ failure w',
     AuthController.resendVerification Number ext (Some {| body_email := Some mail |}) w
       = (Throw failure, w') ∧
     smtp_attempts w' = smtp_attempts w ∧
     (err_code e = Some "auth/user-not-found" →
      failure = HttpException "Account not found" NOT_FOUND) ∧
     (AuthController.maps_to_not_found e = false →
      failure = HttpException "Unable to resend verification link" INTERNAL_SERVER_ERROR)) ∧
  (dbAuth_getUserByEmail ext mail = Throw e →
   ∃ w', UserService.resendVerification Number ext mail w
         = (Throw (HttpException "Account not found" NOT_FOUND), w') ∧
     smtp_attempts w' = smtp_attempts w) ∧
  (∀ r, dbAuth_getUserByEmail ext mail = Ok r →
   ∃ w', UserService.resendVerification Number ext mail w = (Ok tt, w') ∧
     smtp_attempts w' = smtp_attempts w) ∧
  status_code NOT_FOUND = 404%Z ∧ status_code INTERNAL_SERVER_ERROR = 500%Z.
Proof.
  intros Hmail Hfails. split; [| split; [| split; [| split; reflexivity]]].
  - rewrite (resendVerification_throws Number ext mail w e w Hmail
               (resend_try_provider_fails Number ext mail w e Hfails)).
    destruct (AuthController.maps_to_not_found e) eqn:Hm.
    + rewrite (resend_catch_not_found _ _ Hm). do 2 eexists.
      split; [reflexivity |]. split; [reflexivity |]. split; [reflexivity | discriminate].
    + rewrite (resend_catch_internal _ _ Hm). do 2 eexists.
      split; [reflexivity |]. split; [reflexivity |]. split; [| reflexivity].
      intros Hcode. rewrite (maps_to_not_found_code e Hcode) in Hm. discriminate Hm.
  - intros Hlookup. rewrite (service_resend_lookup_fails Number ext mail w e Hlookup).
    eexists. split; reflexivity.
  - intros r Hlookup. destruct Hfails as [Hthrow | r' _ Hlink]; [congruence |].
    rewrite (service_resend_resolved Number ext mail w r Hlookup).
    rewrite (sendEmailVerification_link_fails Number ext (rec_uid r) mail w e Hlink).
    eexists. split; reflexivity.
Qed.

Lemma resend_when_provider_fails_witness :
  provider_fails no_account smtp_world "a@x.com" no_such_user ∧
  (∃ w', AuthController.resendVerification Number_decimal no_account resend_A smtp_world
         = (Throw (HttpException "Account not found" NOT_FOUND), w') ∧
     smtp_attempts w' = []) ∧
  ∃ w', UserService.resendVerification Number_decimal no_account "a@x.com" smtp_world
        = (Throw (HttpException "Account not found" NOT_FOUND), w') ∧
    smtp_attempts w' = [].
Proof.
  assert (provider_fails no_account smtp_world "a@x.com" no_such_user) as Hfails.
  { apply lookup_fails. reflexivity. }
  split; [exact Hfails |].
  destruct (resend_when_provider_fails Number_decimal no_account "a@x.com" smtp_world
              no_such_user eq_refl Hfails)
    as ((failure & w' & Hrun & Hatt & Hnf & _) & Hservice & _).
  split.
  - exists w'. unfold resend_A. rewrite Hrun, (Hnf eq_refl).
    split; [reflexivity | exact Hatt].
  - exact (Hservice eq_refl).
Defined.

(** C4 as the claim states it fails in the service: a look-up that fails
    because the provider cannot be reached is reported as "Account not found"
    (404), and a failure of link generation is swallowed, the call returning
    without error; neither gives status 500. *)
Lemma resend_service_other_provider_failures :
  dbAuth_getUserByEmail lookup_down "a@x.com" = Throw provider_unreachable ∧
  err_code provider_unreachable ≠ Some "auth/user-not-found" ∧
  UserService.resendVerification Number_decimal lookup_down "a@x.com" smtp_world
    = (Throw (HttpException "Account not found" NOT_FOUND),
       with_log {| level := LevelError;
                   args := [LText "Error resending verification:";
                            LThrown (HttpException "Account not found" NOT_FOUND)] |}
         smtp_world) ∧
  status_code NOT_FOUND ≠ 500%Z ∧
  dbAuth_generateEmailVerificationLink link_down "a@x.com" (link_settings smtp_world)
    = Throw provider_unreachable ∧
  UserService.resendVerification Number_decimal link_down "a@x.com" smtp_world
    = (Ok tt,
       with_log {| level := LevelError;
                   args := [LText "❌ [EMAIL] Failed to send verification email:";
                            LThrown provider_unreachable] |} smtp_world).
Proof.
  split; [reflexivity |]. split; [discriminate |].
  split; [vm_compute; reflexivity |]. split; [discriminate |].
  split; [reflexivity |]. vm_compute. reflexivity.
Qed.



(** ** base64 *)

Example base64_empty : base64 EmptyString = EmptyString.
Proof. reflexivity. Qed.

Example base64_f : base64 "f" = "Zg==".
Proof. reflexivity. Qed.

Example base64_fo : base64 "fo" = "Zm8=".
Proof. reflexivity. Qed.

Example base64_foo : base64 "foo" = "Zm9v".
Proof. reflexivity. Qed.

Example base64_foob : base64 "foob" = "Zm9vYg==".
Proof. reflexivity. Qed.

Example base64_fooba : base64 "fooba" = "Zm9vYmE=".
Proof. reflexivity. Qed.

Example base64_foobar : base64 "foobar" = "Zm9vYmFy".
Proof. reflexivity. Qed.

Example session_json : JSON_stringify_session "abc" "USER"
  = "{" +:+ dquote +:+ "t" +:+ dquote +:+ ":" +:+ dquote +:+ "abc" +:+ dquote +:+ "," +:+
    dquote +:+ "r" +:+ dquote +:+ ":" +:+ dquote +:+ "USER" +:+ dquote +:+ "}".
Proof. reflexivity. Qed.

Example json_quote_escapes :
  json_quote ("a" +:+ dquote +:+ "b\c" +:+ newline)
  = dquote +:+ "a\" +:+ dquote +:+ "b\\c\n" +:+ dquote.
Proof. reflexivity. Qed.

Example json_escape_control : json_escape (ascii_of_N 31) = "\u001f".
Proof. reflexivity. Qed.

Lemma base64_value_digit_nat (k : nat) :
  (k < 64)%nat → base64_value (base64_digit (N.of_nat k)) = Some (N.of_nat k).
Proof.
  intros Hk.
  do 64 (destruct k as [| k]; [vm_compute; reflexivity |]). lia.
Qed.

Lemma base64_value_digit (n : N) :
  (n < 64)%N → base64_value (base64_digit n) = Some n.
Proof.
  intros Hn. rewrite <- (N2Nat.id n). apply base64_value_digit_nat. lia.
Qed.

Lemma base64_value_pad : base64_value "="%char = None.
Proof. vm_compute. reflexivity. Qed.

(** The arithmetic of the four sextets of three bytes [x], [y], [z]. *)

Lemma sextet_1 (x : N) : (x < 256 → x / 4 < 64)%N.
Proof. intros Hx. apply N.Div0.div_lt_upper_bound. lia. Qed.

Lemma sextet_2 (x y : N) : (y < 256 → x mod 4 * 16 + y / 16 < 64)%N.
Proof.
  intros Hy.
  assert (x mod 4 < 4)%N by (apply N.mod_lt; lia).
  assert (y / 16 < 16)%N by (apply N.Div0.div_lt_upper_bound; lia).
  lia.
Qed.

Lemma sextet_3 (y z : N) : (z < 256 → y mod 16 * 4 + z / 64 < 64)%N.
Proof.
  intros Hz.
  assert (y mod 16 < 16)%N by (apply N.mod_lt; lia).
  assert (z / 64 < 4)%N by (apply N.Div0.div_lt_upper_bound; lia).
  lia.
Qed.

Lemma sextet_4 (z : N) : (z mod 64 < 64)%N.
Proof. apply N.mod_lt. lia. Qed.

Lemma octet_1 (x y : N) :
  (y < 256 → x / 4 * 4 + (x mod 4 * 16 + y / 16) / 16 = x)%N.
Proof.
  intros Hy.
  assert (y / 16 < 16)%N by (apply N.Div0.div_lt_upper_bound; lia).
  rewrite (N.add_comm (x mod 4 * 16)), N.div_add by lia.
  rewrite (N.div_small (y / 16)) by lia.
  pose proof (N.div_mod x 4). lia.
Qed.

Lemma octet_2 (x y z : N) :
  (y < 256 → z < 256 →
   (x mod 4 * 16 + y / 16) mod 16 * 16 + (y mod 16 * 4 + z / 64) / 4 = y)%N.
Proof.
  intros Hy Hz.
  assert (y / 16 < 16)%N by (apply N.Div0.div_lt_upper_bound; lia).
  assert (z / 64 < 4)%N by (apply N.Div0.div_lt_upper_bound; lia).
  rewrite (N.add_comm (x mod 4 * 16)), N.Div0.mod_add.
  rewrite (N.mod_small (y / 16)) by lia.
  rewrite (N.add_comm (y mod 16 * 4)), N.div_add by lia.
  rewrite (N.div_small (z / 64)) by lia.
  pose proof (N.div_mod y 16). lia.
Qed.

Lemma octet_3 (y z : N) :
  (z < 256 → (y mod 16 * 4 + z / 64) mod 4 * 64 + z mod 64 = z)%N.
Proof.
  intros Hz.
  assert (z / 64 < 4)%N by (apply N.Div0.div_lt_upper_bound; lia).
  rewrite (N.add_comm (y mod 16 * 4)), N.Div0.mod_add.
  rewrite (N.mod_small (z / 64)) by lia.
  pose proof (N.div_mod z 64). lia.
Qed.

(** The last group, of one byte or of two. *)

Lemma last_sextet_of_1 (x : N) : (x mod 4 * 16 < 64)%N.
Proof. assert (x mod 4 < 4)%N by (apply N.mod_lt; lia). lia. Qed.

Lemma last_sextet_of_1_padding (x : N) : ((x mod 4 * 16) mod 16 = 0)%N.
Proof. apply N.Div0.mod_mul. Qed.

Lemma last_octet_of_1 (x : N) : (x / 4 * 4 + x mod 4 * 16 / 16 = x)%N.
Proof. rewrite N.div_mul by lia. pose proof (N.div_mod x 4). lia. Qed.

Lemma last_sextet_of_2 (y : N) : (y mod 16 * 4 < 64)%N.
Proof. assert (y mod 16 < 16)%N by (apply N.mod_lt; lia). lia. Qed.

Lemma last_sextet_of_2_padding (y : N) : ((y mod 16 * 4) mod 4 = 0)%N.
Proof. apply N.Div0.mod_mul. Qed.

Lemma last_octet_of_2 (x y : N) :
  (y < 256 → (x mod 4 * 16 + y / 16) mod 16 * 16 + y mod 16 * 4 / 4 = y)%N.
Proof.
  intros Hy.
  assert (y / 16 < 16)%N by (apply N.Div0.div_lt_upper_bound; lia).
  rewrite (N.add_comm (x mod 4 * 16)), N.Div0.mod_add.
  rewrite (N.mod_small (y / 16)) by lia.
  rewrite N.div_mul by lia.
  pose proof (N.div_mod y 16). lia.
Qed.

(** Decoding the base64 text of a byte sequence gives the sequence back. *)
Lemma base64_decode_encode_upto (n : nat) (bytes : string) :
  (String.length bytes < n)%nat → base64_decode (base64 bytes) = Some bytes.
Proof.
  revert bytes. induction n as [| n IH]; intros bytes Hlen; [lia |].
  destruct bytes as [| a [| b [| c rest]]]; [reflexivity | | |].
  - pose proof (N_ascii_bounded a) as Ha.
    cbn [base64 base64_decode]. cbv zeta.
    rewrite (base64_value_digit _ (sextet_1 _ Ha)).
    rewrite (base64_value_digit _ (last_sextet_of_1 _)).
    rewrite base64_value_pad, last_sextet_of_1_padding, last_octet_of_1.
    cbn. now rewrite ascii_N_embedding.
  - pose proof (N_ascii_bounded a) as Ha. pose proof (N_ascii_bounded b) as Hb.
    cbn [base64 base64_decode]. cbv zeta.
    rewrite (base64_value_digit _ (sextet_1 _ Ha)).
    rewrite (base64_value_digit _ (sextet_2 _ _ Hb)).
    rewrite (base64_value_digit _ (last_sextet_of_2 _)).
    rewrite base64_value_pad, last_sextet_of_2_padding.
    rewrite (octet_1 _ _ Hb), (last_octet_of_2 _ _ Hb).
    cbn. now rewrite !ascii_N_embedding.
  - pose proof (N_ascii_bounded a) as Ha. pose proof (N_ascii_bounded b) as Hb.
    pose proof (N_ascii_bounded c) as Hc.
    cbn [base64 base64_decode]. cbv zeta.
    rewrite (base64_value_digit _ (sextet_1 _ Ha)).
    rewrite (base64_value_digit _ (sextet_2 _ _ Hb)).
    rewrite (base64_value_digit _ (sextet_3 _ _ Hc)).
    rewrite (base64_value_digit _ (sextet_4 _)).
    rewrite IH by (cbn [String.length] in Hlen; lia).
    rewrite (octet_1 _ _ Hb), (octet_2 _ _ _ Hb Hc), (octet_3 _ _ Hc).
    now rewrite !ascii_N_embedding.
Qed.

Lemma base64_decode_encode (bytes : string) :
  base64_decode (base64 bytes) = Some bytes.
Proof. apply (base64_decode_encode_upto (S (String.length bytes))). lia. Qed.

(** Distinct byte sequences have distinct base64 texts. *)
Lemma base64_injective (s t : string) : base64 s = base64 t → s = t.
Proof.
  intros Heq. apply (f_equal base64_decode) in Heq.
  rewrite !base64_decode_encode in Heq. now injection Heq.
Qed.

(** ** login *)

Lemma login_rejected ext dto w e :
  authSvc_login ext dto = Throw e →
  AuthController.login ext dto w = (Throw e, w).
Proof.
  intros Hlogin. unfold AuthController.login. unfold_monad. now rewrite Hlogin.
Qed.

Lemma append_assoc_string (a b c : string) : (a +:+ b) +:+ c = a +:+ (b +:+ c).
Proof.
  induction a as [| x a IH]; [reflexivity |].
  change (String x ((a +:+ b) +:+ c) = String x (a +:+ (b +:+ c))).
  now rewrite IH.
Qed.

(** Reading the escape of one character gives the character back. *)
Lemma json_read_escape (c : ascii) (tail : string) :
  json_read_string (json_escape c +:+ tail)
  = match json_read_string tail with
    | Some (d, r) => Some (String c d, r)
    | None => None
    end.
Proof.
  destruct c as [b0 b1 b2 b3 b4 b5 b6 b7].
  destruct b0, b1, b2, b3, b4, b5, b6, b7; reflexivity.
Qed.

Lemma json_read_escape_all (s tail : string) :
  json_read_string (json_escape_all s +:+ dquote +:+ tail) = Some (s, tail).
Proof.
  induction s as [| c s IH]; [reflexivity |].
  change (json_escape_all (String c s)) with (json_escape c +:+ json_escape_all s).
  rewrite append_assoc_string, json_read_escape, IH.
  reflexivity.
Qed.

Lemma strip_prefix_cancel (a p s : string) :
  strip_prefix (a +:+ p) (a +:+ s) = strip_prefix p s.
Proof.
  induction a as [| x a IH]; [reflexivity |].
  change (strip_prefix (String x (a +:+ p)) (String x (a +:+ s)) = strip_prefix p s).
  cbn [strip_prefix]. now rewrite Ascii.eqb_refl.
Qed.

Lemma strip_prefix_append (p s : string) : strip_prefix p (p +:+ s) = Some s.
Proof.
  induction p as [| x p IH]; [reflexivity |].
  change (strip_prefix (String x p) (String x (p +:+ s)) = Some s).
  cbn [strip_prefix]. now rewrite Ascii.eqb_refl.
Qed.

(** Reading a serialized session gives the token and the role back. *)
Lemma parse_session_stringify (t r : string) :
  parse_session (JSON_stringify_session t r) = Some (t, r).
Proof.
  unfold parse_session, JSON_stringify_session, json_quote.
  rewrite !append_assoc_string.
  rewrite !strip_prefix_cancel, strip_prefix_append.
  rewrite (json_read_escape_all t).
  rewrite !strip_prefix_cancel, strip_prefix_append.
  rewrite (json_read_escape_all r). reflexivity.
Qed.

(** A string of plain characters is written as it is. *)
Lemma json_escape_plain (c : ascii) : json_plain c = true → json_escape c = String c EmptyString.
Proof.
  destruct c as [b0 b1 b2 b3 b4 b5 b6 b7].
  destruct b0, b1, b2, b3, b4, b5, b6, b7; (reflexivity || discriminate).
Qed.

Lemma json_escape_all_plain (s : string) : all_plain s = true → json_escape_all s = s.
Proof.
  induction s as [| c s IH]; [reflexivity |].
  cbn [all_plain json_escape_all]. intros [Hc Hs]%andb_true_iff.
  now rewrite (json_escape_plain c Hc), (IH Hs).
Qed.

(** C6: a successful login adds to the response one cookie, named
    [sp_auth], whose value is the base64 text of
    [JSON.stringify({ t: idToken, r: role })] (and decodes back to it),
    HttpOnly, SameSite=Lax, path [/], with a max-age of twelve hours
    (43200000 ms, 43200 s), and Secure exactly when [NODE_ENV] is
    [production].  The value is a serialization: decoding it and reading the
    JSON text gives the token and the role back, whatever characters they
    contain; for a token and a role without quote, backslash or control
    character the JSON text is [{"t":"<idToken>","r":"<role>"}]. *)
Theorem login_sets_session_cookie ext dto w result :
  authSvc_login ext dto = Ok result →
  ∃ c,
    AuthController.login ext dto w = (Ok result, with_cookie c w) ∧
    cookies (with_cookie c w) = (cookies w ++ [c])%list ∧
    cookie_name c = "sp_auth" ∧
    cookie_value c = base64 (JSON_stringify_session (idToken result) (user_role result)) ∧
    base64_decode (cookie_value c)
      = Some (JSON_stringify_session (idToken result) (user_role result)) ∧
    httpOnly c = true ∧
    sameSite c = Lax ∧
    cookie_path c = "/" ∧
    maxAge c = (12 * 60 * 60 * 1000)%Z ∧
    (maxAge c / 1000 = 43200)%Z ∧
    (cookie_secure c = true ↔ env w !! "NODE_ENV" = Some "production") ∧
    base64_decode (cookie_value c) ≫= parse_session
      = Some (idToken result, user_role result) ∧
    (all_plain (idToken result) = true → all_plain (user_role result) = true →
     base64_decode (cookie_value c)
       = Some ("{" +:+ dquote +:+ "t" +:+ dquote +:+ ":" +:+
               dquote +:+ idToken result +:+ dquote +:+ "," +:+
               dquote +:+ "r" +:+ dquote +:+ ":" +:+
               dquote +:+ user_role result +:+ dquote +:+ "}")).
Proof.
  intros Hlogin. unfold AuthController.login, AuthController.res_cookie.
  unfold_monad. rewrite Hlogin. eexists. split; [reflexivity |].
  cbn [cookie_name cookie_value httpOnly sameSite cookie_path maxAge cookie_secure
       cookies with_cookie].
  do 3 (split; [reflexivity |]).
  split; [apply base64_decode_encode |].
  do 5 (split; [reflexivity |]).
  split; [apply bool_decide_eq_true |].
  rewrite base64_decode_encode. split.
  - cbn [mbind option_bind]. apply parse_session_stringify.
  - intros Ht Hr. unfold JSON_stringify_session, json_quote.
    rewrite (json_escape_all_plain _ Ht), (json_escape_all_plain _ Hr).
    now rewrite !append_assoc_string.
Qed.

Lemma login_sets_session_cookie_witness :
  authSvc_login healthy {| login_email := "a@x.com"; login_password := "secret1" |}
    = Ok {| idToken := "abc"; user_role := "USER"; user_uid := "uid-1" |} ∧
  (∃ c,
    AuthController.login healthy
      {| login_email := "a@x.com"; login_password := "secret1" |} bare_world
      = (Ok {| idToken := "abc"; user_role := "USER"; user_uid := "uid-1" |},
         with_cookie c bare_world) ∧
    cookie_name c = "sp_auth" ∧
    cookie_value c = "eyJ0IjoiYWJjIiwiciI6IlVTRVIifQ==" ∧
    base64_decode (cookie_value c)
      = Some ("{" +:+ dquote +:+ "t" +:+ dquote +:+ ":" +:+ dquote +:+ "abc" +:+ dquote
              +:+ "," +:+ dquote +:+ "r" +:+ dquote +:+ ":" +:+ dquote +:+ "USER"
              +:+ dquote +:+ "}") ∧
    cookie_secure c ≠ true) ∧
  ∃ c,
    AuthController.login odd_login
      {| login_email := "a@x.com"; login_password := "secret1" |} bare_world
      = (Ok {| idToken := odd_token; user_role := odd_role; user_uid := "uid-1" |},
         with_cookie c bare_world) ∧
    base64_decode (cookie_value c)
      = Some ("{" +:+ dquote +:+ "t" +:+ dquote +:+ ":" +:+
              dquote +:+ "a\" +:+ dquote +:+ "b\\c" +:+ dquote +:+ "," +:+
              dquote +:+ "r" +:+ dquote +:+ ":" +:+
              dquote +:+ "US\nER" +:+ dquote +:+ "}") ∧
    base64_decode (cookie_value c) ≫= parse_session = Some (odd_token, odd_role).
Proof.
  split; [reflexivity |]. split.
  - destruct (login_sets_session_cookie healthy
                {| login_email := "a@x.com"; login_password := "secret1" |}
                bare_world _ eq_refl)
      as (c & Hrun & _ & Hname & Hvalue & _ & _ & _ & _ & _ & _ & Hsecure & _ & Hplain).
    exists c. split; [exact Hrun |]. split; [exact Hname |]. split; [| split].
    + rewrite Hvalue. vm_compute. reflexivity.
    + exact (Hplain eq_refl eq_refl).
    + intros Htrue. apply Hsecure in Htrue. vm_compute in Htrue. discriminate Htrue.
  - destruct (login_sets_session_cookie odd_login
                {| login_email := "a@x.com"; login_password := "secret1" |}
                bare_world _ eq_refl)
      as (c & Hrun & _ & _ & _ & Hdecoded & _ & _ & _ & _ & _ & _ & Hparse & _).
    exists c. split; [exact Hrun |]. split; [| exact Hparse].
    rewrite Hdecoded. reflexivity.
Defined.

(** ** update on an existing document *)

Lemma lookup_spread (a b : JsObj) (k : string) :
  spread a b !! k = match b !! k with
                    | Some v => Some v
                    | None => a !! k
                    end.
Proof.
  unfold spread. rewrite lookup_union.
  destruct (b !! k), (a !! k); reflexivity.
Qed.

Lemma two_profiles_b : users two_profiles !! "b" = Some (profile "b" "Bob").
Proof.
  unfold two_profiles, world_of. cbn [users list_to_map foldr uncurry fst snd].
  rewrite lookup_insert_ne by discriminate. apply lookup_insert_eq.
Qed.

Lemma update_found ext id model data w :
  userRef_get ext id = None →
  users w !! id = Some data →
  UserService.update ext id model w
    = match userRef_set ext id (spread (spread {[ "id" := VString id ]} data) model) with
      | SetApplied =>
          (Ok (spread (spread {[ "id" := VString id ]} data) model),
           with_users (insert id (spread (spread {[ "id" := VString id ]} data) model)) w)
      | SetLost =>
          (Ok (spread (spread {[ "id" := VString id ]} data) model),
           with_users (delete id) w)
      | SetRejected e =>
          (Throw (HttpException "Unable to save account information. Please try again."
                    INTERNAL_SERVER_ERROR),
           with_log {| level := LevelError;
                       args := [LText "❌ [USER] Error saving user in db:"; LThrown e] |} w)
      end.
Proof.
  intros Hget Hdata. unfold UserService.update. unfold_monad.
  rewrite (findOne_found ext id data w Hget Hdata).
  unfold UserService.saveUser. unfold_monad.
  now destruct (userRef_set ext id _).
Qed.

(** C9, amended: a successful [update] returns, and hands to the store, the
    merge of the partial over [{ id: key, ...stored }]; it always has an
    [id] property, which is the partial's [id] if the partial has one, else
    the stored document's [id] if it has one, else the document key.  So it
    equals the key when neither the partial nor the stored document carries
    an [id] of its own.  When the store takes the write, the stored document
    is the returned value. *)
Theorem update_result_carries_id ext id model w v w' :
  UserService.update ext id model w = (Ok v, w') →
  ∃ data,
    users w !! id = Some data ∧
    v = spread (spread {[ "id" := VString id ]} data) model ∧
    v !! "id" = Some (default (default (VString id) (data !! "id")) (model !! "id")) ∧
    (model !! "id" = None → data !! "id" = None → v !! "id" = Some (VString id)) ∧
    (userRef_set ext id v = SetApplied → users w' !! id = Some v).
Proof.
  intros Hrun.
  destruct (userRef_get ext id) as [e |] eqn:Hget;
    [rewrite (update_read_rejected ext id model w e Hget) in Hrun; discriminate Hrun |].
  destruct (users w !! id) as [data |] eqn:Hdata.
  - exists data. split; [reflexivity |].
    rewrite (update_found ext id model data w Hget Hdata) in Hrun.
    assert (spread (spread {[ "id" := VString id ]} data) model !! "id"
            = Some (default (default (VString id) (data !! "id")) (model !! "id")))
      as Hid.
    { rewrite !lookup_spread, lookup_singleton_eq.
      destruct (model !! "id"), (data !! "id"); reflexivity. }
    destruct (userRef_set ext id _) as [| | e] eqn:Hset.
    + injection Hrun as <- <-. split; [reflexivity |]. split; [exact Hid |].
      split.
      * intros Hm Hd. rewrite Hid, Hm, Hd. reflexivity.
      * intros _. apply lookup_insert_eq.
    + injection Hrun as <- <-. split; [reflexivity |]. split; [exact Hid |].
      split.
      * intros Hm Hd. rewrite Hid, Hm, Hd. reflexivity.
      * rewrite Hset. discriminate.
    + discriminate Hrun.
  - rewrite (update_missing ext id model w Hget Hdata) in Hrun. discriminate Hrun.
Qed.

Lemma update_result_carries_id_witness :
  ∃ v w',
    UserService.update healthy "b" {[ "fullName" := VString "Robert" ]} two_profiles
      = (Ok v, w') ∧
    v !! "id" = Some (VString "b") ∧
    v !! "fullName" = Some (VString "Robert") ∧
    users w' !! "b" = Some v.
Proof.
  pose proof (update_found healthy "b" {[ "fullName" := VString "Robert" ]}
                (profile "b" "Bob") two_profiles eq_refl two_profiles_b) as Hrun.
  cbn [userRef_set healthy] in Hrun.
  do 2 eexists. split; [exact Hrun |].
  destruct (update_result_carries_id _ _ _ _ _ _ Hrun)
    as (data & Hdata & Hv & _ & Hkey & Hstored).
  rewrite two_profiles_b in Hdata. injection Hdata as <-.
  split; [apply Hkey; reflexivity |].
  split; [rewrite lookup_spread; reflexivity |].
  apply Hstored. reflexivity.
Defined.

(** C9 as the claim states it fails: a partial that carries an [id] of its
    own, here the one of the document "a", is merged over the document "b";
    the update succeeds, and the value returned and stored under the key "b"
    has [id = "a"]. *)
Lemma update_keeps_id_of_partial :
  ∃ v w',
    UserService.update healthy "b"
      {[ "id" := VString "a"; "fullName" := VString "Robert" ]} two_profiles
      = (Ok v, w') ∧
    users w' !! "b" = Some v ∧
    v !! "id" = Some (VString "a") ∧
    v !! "id" ≠ Some (VString "b").
Proof.
  pose proof (update_found healthy "b"
                {[ "id" := VString "a"; "fullName" := VString "Robert" ]}
                (profile "b" "Bob") two_profiles eq_refl two_profiles_b) as Hrun.
  cbn [userRef_set healthy] in Hrun.
  do 2 eexists. split; [exact Hrun |].
  split; [apply lookup_insert_eq |].
  assert (spread (spread {[ "id" := VString "b" ]} (profile "b" "Bob"))
            {[ "id" := VString "a"; "fullName" := VString "Robert" ]} !! "id"
          = Some (VString "a")) as Hid.
  { rewrite lookup_spread. reflexivity. }
  split; [exact Hid |]. rewrite Hid. discriminate.
Qed.

(** ** The [id] property across the service

    Documents written by [create] have no [id]; those written by [update]
    get the key as [id] unless the partial or the stored document overrides
    it.  So a store in which every [id] is the key stays so under [create],
    [remove] and every [update] whose partial has no [id]. *)

Lemma id_matches_key_empty : id_matches_key ∅.
Proof. apply map_Forall_empty. Qed.

Lemma create_preserves_id_matches_key Number ext model w :
  id_matches_key (users w) →
  id_matches_key (users (snd (UserService.create Number ext model w))).
Proof.
  intros Hinv.
  destruct (dbAuth_createUser ext (fullName model) (email model) (password model))
    as [[r |] | e] eqn:Hc.
  - assert (id_matches_key (<[rec_uid r := created_doc ext model w r]> (users w)))
      as Hinserted.
    { apply map_Forall_insert_2; [| exact Hinv].
      intros v Hv. vm_compute in Hv. discriminate Hv. }
    destruct (userRef_set ext (rec_uid r) (created_doc ext model w r)) as [| | e] eqn:Hset.
    + destruct (userRef_get ext (rec_uid r)) as [e |] eqn:Hget.
      * destruct (create_reread_rejected Number ext model w r Hc e)
          as (w' & Hrun & _ & Husers & _);
          [intros e'; rewrite Hset; discriminate | exact Hget |].
        rewrite Hrun. cbn [snd]. rewrite (Husers Hset). exact Hinserted.
      * destruct (create_write_applied Number ext model w r Hc Hset Hget)
          as (w' & Hrun & Husers & _).
        rewrite Hrun. cbn [snd]. rewrite Husers. exact Hinserted.
    + destruct (userRef_get ext (rec_uid r)) as [e |] eqn:Hget.
      * destruct (create_reread_rejected Number ext model w r Hc e)
          as (w' & Hrun & _ & _ & Husers);
          [intros e'; rewrite Hset; discriminate | exact Hget |].
        rewrite Hrun. cbn [snd]. rewrite (Husers Hset). now apply map_Forall_delete.
      * destruct (create_write_lost Number ext model w r Hc Hset Hget)
          as (w' & Hrun & Husers & _).
        rewrite Hrun. cbn [snd]. rewrite Husers. now apply map_Forall_delete.
    + destruct (create_write_rejected Number ext model w r Hc e Hset)
        as (w' & Hrun & Husers).
      rewrite Hrun. cbn [snd]. rewrite Husers. exact Hinv.
  - unfold UserService.create. unfold_monad. rewrite Hc. exact Hinv.
  - rewrite (create_provider_rejects Number ext model w e Hc). exact Hinv.
Qed.

Lemma update_preserves_id_matches_key ext id model w :
  id_matches_key (users w) →
  model !! "id" = None →
  id_matches_key (users (snd (UserService.update ext id model w))).
Proof.
  intros Hinv Hmodel.
  destruct (userRef_get ext id) as [e |] eqn:Hget;
    [rewrite (update_read_rejected ext id model w e Hget); exact Hinv |].
  destruct (users w !! id) as [data |] eqn:Hdata.
  - rewrite (update_found ext id model data w Hget Hdata).
    destruct (userRef_set ext id _) as [| | e]; cbn [snd users with_users with_log].
    + apply map_Forall_insert_2; [| exact Hinv].
      intros v. rewrite !lookup_spread, Hmodel, lookup_singleton_eq.
      destruct (data !! "id") as [v' |] eqn:Hown.
      * intros [= <-]. exact (Hinv id data Hdata v' Hown).
      * now intros [= <-].
    + now apply map_Forall_delete.
    + exact Hinv.
  - rewrite (update_missing ext id model w Hget Hdata). exact Hinv.
Qed.

(** [remove], answer by answer of the store. *)
Lemma remove_run ext id w :
  UserService.remove ext id w
    = match userRef_get ext id with
      | Some e => (Throw e, w)
      | None =>
          match users w !! id with
          | None => (Throw (HttpException "Account not found" NOT_FOUND), w)
          | Some data =>
              match userRef_delete ext id with
              | Some e => (Throw e, w)
              | None => (Ok (spread {[ "id" := VString id ]} data),
                         with_users (delete id) w)
              end
          end
      end.
Proof.
  unfold UserService.remove. unfold_monad.
  destruct (userRef_get ext id) as [e |] eqn:Hget;
    [now rewrite (findOne_rejected ext id w e Hget) |].
  destruct (users w !! id) as [data |] eqn:Hdata.
  - rewrite (findOne_found ext id data w Hget Hdata).
    now destruct (userRef_delete ext id).
  - now rewrite (findOne_missing ext id w Hget Hdata).
Qed.

Lemma remove_preserves_id_matches_key ext id w :
  id_matches_key (users w) →
  id_matches_key (users (snd (UserService.remove ext id w))).
Proof.
  intros Hinv. rewrite remove_run.
  destruct (userRef_get ext id); [exact Hinv |].
  destruct (users w !! id); [| exact Hinv].
  destruct (userRef_delete ext id); [exact Hinv |].
  cbn. now apply map_Forall_delete.
Qed.

(** In such a store, an update whose partial has no [id] returns a value
    whose [id] is the document key. *)
Lemma update_id_is_key ext id model w v w' :
  id_matches_key (users w) →
  model !! "id" = None →
  UserService.update ext id model w = (Ok v, w') →
  v !! "id" = Some (VString id).
Proof.
  intros Hinv Hmodel Hrun.
  destruct (userRef_get ext id) as [e |] eqn:Hget;
    [rewrite (update_read_rejected ext id model w e Hget) in Hrun; discriminate Hrun |].
  destruct (users w !! id) as [data |] eqn:Hdata;
    [| rewrite (update_missing ext id model w Hget Hdata) in Hrun; discriminate Hrun].
  rewrite (update_found ext id model data w Hget Hdata) in Hrun.
  assert (spread (spread {[ "id" := VString id ]} data) model !! "id"
          = Some (VString id)) as Hid.
  { rewrite !lookup_spread, Hmodel, lookup_singleton_eq.
    destruct (data !! "id") as [v' |] eqn:Hown; [| reflexivity].
    now rewrite (Hinv id data Hdata v' Hown). }
  destruct (userRef_set ext id _) as [| | e];
    [injection Hrun as <- _; exact Hid | injection Hrun as <- _; exact Hid
    | discriminate Hrun].
Qed.

(** * Further properties of the service and of the controller *)

Lemma ann_and_bob_a : users ann_and_bob !! "a" = Some (profile "a" "Ann").
Proof. apply lookup_insert_eq. Qed.

Lemma ann_and_bob_b : users ann_and_bob !! "b" = Some (profile "b" "Bob").
Proof.
  unfold ann_and_bob, world_of. cbn [users].
  rewrite lookup_insert_ne by discriminate. apply lookup_insert_eq.
Qed.

(** ** Profile CRUD *)

Lemma spread_id_absorbed (x : JsVal) (v : JsObj) :
  is_Some (v !! "id") → spread {[ "id" := x ]} v = v.
Proof.
  intros [y Hy]. apply map_eq. intros k. rewrite lookup_spread.
  destruct (v !! k) eqn:Hk; [reflexivity |].
  destruct (decide (k = "id")) as [-> | Hne]; [congruence |].
  now rewrite lookup_singleton_ne.
Qed.

Lemma merged_has_id (id : string) (data model : JsObj) :
  is_Some (spread (spread {[ "id" := VString id ]} data) model !! "id").
Proof.
  rewrite !lookup_spread, lookup_singleton_eq.
  destruct (model !! "id"), (data !! "id"); eauto.
Qed.

Lemma spread_twice (a b : JsObj) : spread (spread a b) b = spread a b.
Proof.
  apply map_eq. intros k. rewrite !lookup_spread. now destruct (b !! k).
Qed.

(** What a successful [update] did, read off [update_found]. *)
Lemma update_ok_inv ext id model w v w' :
  UserService.update ext id model w = (Ok v, w') →
  ∃ data,
    userRef_get ext id = None ∧
    users w !! id = Some data ∧
    v = spread (spread {[ "id" := VString id ]} data) model ∧
    ((userRef_set ext id v = SetApplied ∧ w' = with_users (insert id v) w) ∨
     (userRef_set ext id v = SetLost ∧ w' = with_users (delete id) w)).
Proof.
  intros Hrun.
  destruct (userRef_get ext id) as [e |] eqn:Hget;
    [rewrite (update_read_rejected ext id model w e Hget) in Hrun; discriminate Hrun |].
  destruct (users w !! id) as [data |] eqn:Hdata;
    [| rewrite (update_missing ext id model w Hget Hdata) in Hrun; discriminate Hrun].
  exists data. split; [reflexivity |]. split; [reflexivity |].
  rewrite (update_found ext id model data w Hget Hdata) in Hrun.
  destruct (userRef_set ext id _) as [| | e] eqn:Hset.
  - injection Hrun as <- <-. split; [reflexivity |]. left. now split.
  - injection Hrun as <- <-. split; [reflexivity |]. right. now split.
  - discriminate Hrun.
Qed.

(** X1: a successful [update] returns the stored document with the
    partial's properties laid over it: every property of the partial has the
    partial's value, every other property (apart from [id]) keeps the stored
    value, so no property is lost; the documents under other keys, the
    provider's accounts, the console and the mails are untouched. *)
Theorem update_merges_partial_over_stored ext id model w v w' :
  UserService.update ext id model w = (Ok v, w') →
  ∃ data,
    users w !! id = Some data ∧
    (∀ k x, model !! k = Some x → v !! k = Some x) ∧
    (∀ k, model !! k = None → k ≠ "id" → v !! k = data !! k) ∧
    (∀ j, j ≠ id → users w' !! j = users w !! j) ∧
    accounts w' = accounts w ∧
    smtp_attempts w' = smtp_attempts w ∧
    console w' = console w.
Proof.
  intros Hrun.
  destruct (update_ok_inv ext id model w v w' Hrun) as (data & Hget & Hdata & Hv & Hw).
  exists data. split; [exact Hdata |]. split; [| split; [| split]].
  - intros k x Hk. rewrite Hv, lookup_spread, Hk. reflexivity.
  - intros k Hk Hne. rewrite Hv, !lookup_spread, Hk.
    destruct (data !! k); [reflexivity |]. now rewrite lookup_singleton_ne.
  - intros j Hne. destruct Hw as [[_ ->] | [_ ->]]; cbn [users with_users].
    + now rewrite lookup_insert_ne.
    + now rewrite lookup_delete_ne.
  - destruct Hw as [[_ ->] | [_ ->]]; repeat split.
Qed.

Lemma update_merges_partial_over_stored_witness :
  ∃ v w',
    UserService.update healthy "b" {[ "fullName" := VString "Robert" ]} ann_and_bob
      = (Ok v, w') ∧
    v !! "fullName" = Some (VString "Robert") ∧
    v !! "email" = Some (VString "b@x.com") ∧
    users w' !! "a" = Some (profile "a" "Ann").
Proof.
  pose proof (update_found healthy "b" {[ "fullName" := VString "Robert" ]}
                (profile "b" "Bob") ann_and_bob eq_refl ann_and_bob_b) as Hrun.
  cbn [userRef_set healthy] in Hrun.
  destruct (update_merges_partial_over_stored _ _ _ _ _ _ Hrun)
    as (data & Hdata & Hset & Hkept & Hframe & _).
  rewrite ann_and_bob_b in Hdata. injection Hdata as <-.
  do 2 eexists. split; [exact Hrun |].
  split; [apply Hset, lookup_singleton_eq |].
  split; [rewrite Hkept; [reflexivity | now apply lookup_singleton_ne | discriminate] |].
  rewrite Hframe by discriminate. exact ann_and_bob_a.
Defined.

(** X2: [update] is idempotent: when the store takes the write, calling
    [update] again with the same partial returns the same value and leaves
    the world as the first call left it. *)
Theorem update_twice_is_update_once ext id model w v w' :
  UserService.update ext id model w = (Ok v, w') →
  userRef_set ext id v = SetApplied →
  UserService.update ext id model w' = (Ok v, w').
Proof.
  intros Hrun Hset.
  destruct (update_ok_inv ext id model w v w' Hrun) as (data & Hget & Hdata & Hv & Hw).
  destruct Hw as [[_ ->] | [Hlost _]]; [| congruence].
  assert (users (with_users (insert id v) w) !! id = Some v) as Hstored
    by apply lookup_insert_eq.
  rewrite (update_found ext id model v _ Hget Hstored).
  assert (spread (spread {[ "id" := VString id ]} v) model = v) as ->.
  { rewrite spread_id_absorbed by (rewrite Hv; apply merged_has_id).
    rewrite Hv. apply spread_twice. }
  rewrite Hset. unfold with_users. cbn [users env accounts clock_reads
    smtp_attempts console cookies]. now rewrite insert_insert_eq.
Qed.

Lemma update_twice_is_update_once_witness :
  ∃ v w',
    UserService.update healthy "b" {[ "fullName" := VString "Robert" ]} ann_and_bob
      = (Ok v, w') ∧
    UserService.update healthy "b" {[ "fullName" := VString "Robert" ]} w' = (Ok v, w').
Proof.
  pose proof (update_found healthy "b" {[ "fullName" := VString "Robert" ]}
                (profile "b" "Bob") ann_and_bob eq_refl ann_and_bob_b) as Hrun.
  cbn [userRef_set healthy] in Hrun.
  do 2 eexists. split; [exact Hrun |].
  exact (update_twice_is_update_once healthy "b" _ ann_and_bob _ _ Hrun eq_refl).
Defined.

(** X3: after a successful [update] that the store took, [findOne] on the
    same id returns exactly the value [update] returned, and changes
    nothing. *)
Theorem findOne_after_update ext id model w v w' :
  UserService.update ext id model w = (Ok v, w') →
  userRef_set ext id v = SetApplied →
  UserService.findOne ext id w' = (Ok v, w').
Proof.
  intros Hrun Hset.
  destruct (update_ok_inv ext id model w v w' Hrun) as (data & Hget & Hdata & Hv & Hw).
  destruct Hw as [[_ ->] | [Hlost _]]; [| congruence].
  rewrite (findOne_found ext id v _ Hget) by apply lookup_insert_eq.
  rewrite spread_id_absorbed by (rewrite Hv; apply merged_has_id).
  reflexivity.
Qed.

Lemma findOne_after_update_witness :
  ∃ v w',
    UserService.update healthy "a" {[ "phoneNumber" := VString "555" ]} ann_and_bob
      = (Ok v, w') ∧
    UserService.findOne healthy "a" w' = (Ok v, w').
Proof.
  pose proof (update_found healthy "a" {[ "phoneNumber" := VString "555" ]}
                (profile "a" "Ann") ann_and_bob eq_refl ann_and_bob_a) as Hrun.
  cbn [userRef_set healthy] in Hrun.
  do 2 eexists. split; [exact Hrun |].
  exact (findOne_after_update healthy "a" _ ann_and_bob _ _ Hrun eq_refl).
Defined.

Lemma remove_found ext id data w :
  userRef_get ext id = None →
  userRef_delete ext id = None →
  users w !! id = Some data →
  UserService.remove ext id w
    = (Ok (spread {[ "id" := VString id ]} data), with_users (delete id) w).
Proof.
  intros Hget Hdelete Hdata. now rewrite remove_run, Hget, Hdata, Hdelete.
Qed.

Lemma remove_missing ext id w :
  userRef_get ext id = None →
  users w !! id = None →
  UserService.remove ext id w = (Throw (HttpException "Account not found" NOT_FOUND), w).
Proof.
  intros Hget Hnone. now rewrite remove_run, Hget, Hnone.
Qed.

(** What a successful [remove] did, read off [remove_run]. *)
Lemma remove_ok_inv ext id w v w' :
  UserService.remove ext id w = (Ok v, w') →
  ∃ data,
    userRef_get ext id = None ∧
    userRef_delete ext id = None ∧
    users w !! id = Some data ∧
    v = spread {[ "id" := VString id ]} data ∧
    w' = with_users (delete id) w.
Proof.
  rewrite remove_run. intros Hrun.
  destruct (userRef_get ext id); [discriminate Hrun |].
  destruct (users w !! id) as [data |]; [| discriminate Hrun].
  destruct (userRef_delete ext id); [discriminate Hrun |].
  injection Hrun as <- <-. exists data. now repeat split.
Qed.

(** X4: a successful [remove] returns the document as [findOne] shows it
    (with its [id]), deletes that document and no other, and leaves the
    provider's accounts as they are; afterwards [findOne] and a second
    [remove] on the id fail with "Account not found" (404) and change
    nothing. *)
Theorem remove_deletes_one_document ext id w v w' :
  UserService.remove ext id w = (Ok v, w') →
  UserService.findOne ext id w = (Ok v, w) ∧
  users w' !! id = None ∧
  (∀ j, j ≠ id → users w' !! j = users w !! j) ∧
  accounts w' = accounts w ∧
  UserService.findOne ext id w'
    = (Throw (HttpException "Account not found" NOT_FOUND), w') ∧
  UserService.remove ext id w'
    = (Throw (HttpException "Account not found" NOT_FOUND), w').
Proof.
  intros Hrun.
  destruct (remove_ok_inv ext id w v w' Hrun) as (data & Hget & _ & Hdata & -> & ->).
  assert (users (with_users (delete id) w) !! id = None) as Hgone
    by apply lookup_delete_eq.
  split; [now apply findOne_found |]. split; [exact Hgone |].
  split; [intros j Hne; cbn [users with_users]; now rewrite lookup_delete_ne |].
  split; [reflexivity |].
  split; [now apply findOne_missing | now apply remove_missing].
Qed.

Lemma remove_deletes_one_document_witness :
  ∃ v w',
    UserService.remove healthy "a" ann_and_bob = (Ok v, w') ∧
    users w' !! "a" = None ∧
    users w' !! "b" = Some (profile "b" "Bob") ∧
    UserService.remove healthy "a" w'
      = (Throw (HttpException "Account not found" NOT_FOUND), w').
Proof.
  pose proof (remove_found healthy "a" (profile "a" "Ann") ann_and_bob
                eq_refl eq_refl ann_and_bob_a) as Hrun.
  destruct (remove_deletes_one_document healthy "a" ann_and_bob _ _ Hrun)
    as (_ & Hgone & Hframe & _ & _ & Hagain).
  do 2 eexists. split; [exact Hrun |]. split; [exact Hgone |].
  split; [| exact Hagain].
  rewrite Hframe by discriminate. exact ann_and_bob_b.
Defined.

(** X5: a failed [update] never changes the store, and fails in one of
    three ways.  When the read of the document is rejected, it fails with
    the store's error, as it is, and changes nothing.  When the read finds
    no document, it fails with "Account not found" (404) and changes
    nothing.  When the write is rejected, it fails with "Unable to save
    account information" (500) and only logs the store's error: the error
    of the write is the only one it replaces. *)
Theorem update_failure_leaves_store ext id model w x w' :
  UserService.update ext id model w = (Throw x, w') →
  users w' = users w ∧
  ((userRef_get ext id = Some x ∧ w' = w) ∨
   (userRef_get ext id = None ∧
    x = HttpException "Account not found" NOT_FOUND ∧
    users w !! id = None ∧ w' = w) ∨
   (userRef_get ext id = None ∧
    x = HttpException "Unable to save account information. Please try again."
          INTERNAL_SERVER_ERROR ∧
    ∃ data e,
      users w !! id = Some data ∧
      userRef_set ext id (spread (spread {[ "id" := VString id ]} data) model)
        = SetRejected e ∧
      console w'
        = (console w ++
           [ {| level := LevelError;
                args := [LText "❌ [USER] Error saving user in db:"; LThrown e] |} ])%list)).
Proof.
  intros Hrun.
  destruct (userRef_get ext id) as [e |] eqn:Hget.
  { rewrite (update_read_rejected ext id model w e Hget) in Hrun.
    injection Hrun as <- <-. split; [reflexivity |]. left. now split. }
  destruct (users w !! id) as [data |] eqn:Hdata.
  - rewrite (update_found ext id model data w Hget Hdata) in Hrun.
    destruct (userRef_set ext id _) as [| | e] eqn:Hset;
      [discriminate Hrun | discriminate Hrun |].
    injection Hrun as <- <-. split; [reflexivity |]. right. right.
    split; [reflexivity |]. split; [reflexivity |]. exists data, e. now repeat split.
  - rewrite (update_missing ext id model w Hget Hdata) in Hrun.
    injection Hrun as <- <-. split; [reflexivity |]. right. left. now repeat split.
Qed.

Lemma update_failure_leaves_store_witness :
  (∃ w',
    UserService.update store_rejects "a" {[ "fullName" := VString "Anna" ]} ann_and_bob
      = (Throw (HttpException "Unable to save account information. Please try again."
                  INTERNAL_SERVER_ERROR), w') ∧
    users w' = users ann_and_bob) ∧
  UserService.update read_rejects "a" {[ "fullName" := VString "Anna" ]} ann_and_bob
    = (Throw store_unavailable, ann_and_bob) ∧
  users (snd (UserService.update read_rejects "a" {[ "fullName" := VString "Anna" ]}
                ann_and_bob)) = users ann_and_bob.
Proof.
  split.
  - pose proof (update_found store_rejects "a" {[ "fullName" := VString "Anna" ]}
                  (profile "a" "Ann") ann_and_bob eq_refl ann_and_bob_a) as Hrun.
    cbn [userRef_set store_rejects with_set] in Hrun.
    destruct (update_failure_leaves_store _ _ _ _ _ _ Hrun) as (Hsame & _).
    eexists. split; [exact Hrun | exact Hsame].
  - pose proof (update_read_rejected read_rejects "a" {[ "fullName" := VString "Anna" ]}
                  ann_and_bob store_unavailable eq_refl) as Hrun.
    destruct (update_failure_leaves_store _ _ _ _ _ _ Hrun) as (Hsame & _).
    split; [exact Hrun |]. rewrite Hrun. exact Hsame.
Defined.

(** ** create, with the world it leaves *)

Lemma create_applied_world Number ext model w r :
  dbAuth_createUser ext (fullName model) (email model) (password model) = Ok (Some r) →
  userRef_set ext (rec_uid r) (created_doc ext model w r) = SetApplied →
  userRef_get ext (rec_uid r) = None →
  ∃ w',
    UserService.sendEmailVerification Number ext (rec_uid r) (email model)
      (world_with_profile ext model w r) = (Ok tt, w') ∧
    UserService.create Number ext model w
      = (Ok (UserService.user_view (created_doc ext model w r)), w').
Proof.
  intros Hc Hset Hget. unfold world_with_profile.
  unfold UserService.create, UserService.saveUser. unfold_monad.
  rewrite Hc. cbn [clock_reads with_tick with_account].
  fold (created_doc ext model w r). rewrite Hset. cbn beta iota.
  run_email. destruct Hq as (_ & Husers & _).
  cbn [users with_users with_tick with_account] in Husers.
  rewrite Hget, Husers, lookup_insert_eq. exists w2. split; reflexivity.
Qed.

Lemma create_rejected_world Number ext model w r e :
  dbAuth_createUser ext (fullName model) (email model) (password model) = Ok (Some r) →
  userRef_set ext (rec_uid r) (created_doc ext model w r) = SetRejected e →
  UserService.create Number ext model w
    = (Throw (HttpException "Unable to save account information. Please try again."
                INTERNAL_SERVER_ERROR),
       with_log
         {| level := LevelError;
            args := [LThrown (HttpException
                                "Unable to save account information. Please try again."
                                INTERNAL_SERVER_ERROR);
                     LText "Error creating user"] |}
         (with_log
            {| level := LevelError;
               args := [LText "❌ [USER] Error saving user in db:"; LThrown e] |}
            (with_tick (with_tick (with_account r w))))).
Proof.
  intros Hc Hset.
  unfold UserService.create, UserService.saveUser. unfold_monad.
  rewrite Hc. cbn [clock_reads with_tick with_account].
  fold (created_doc ext model w r). rewrite Hset. reflexivity.
Qed.

Lemma create_lost_world Number ext model w r :
  dbAuth_createUser ext (fullName model) (email model) (password model) = Ok (Some r) →
  userRef_set ext (rec_uid r) (created_doc ext model w r) = SetLost →
  userRef_get ext (rec_uid r) = None →
  ∃ w',
    UserService.sendEmailVerification Number ext (rec_uid r) (email model)
      (with_users (delete (rec_uid r)) (with_tick (with_tick (with_account r w))))
      = (Ok tt, w') ∧
    UserService.create Number ext model w
      = (Throw (HttpException
                  "Account created but verification failed. Please contact support."
                  INTERNAL_SERVER_ERROR),
         with_log
           {| level := LevelError;
              args := [LThrown (HttpException
                                  "Account created but verification failed. Please contact support."
                                  INTERNAL_SERVER_ERROR);
                       LText "Error creating user"] |} w').
Proof.
  intros Hc Hset Hget.
  unfold UserService.create, UserService.saveUser. unfold_monad.
  rewrite Hc. cbn [clock_reads with_tick with_account].
  fold (created_doc ext model w r). rewrite Hset. cbn beta iota.
  run_email. destruct Hq as (_ & Husers & _).
  cbn [users with_users with_tick with_account] in Husers.
  rewrite Hget, Husers, lookup_delete_eq. exists w2. split; reflexivity.
Qed.

(** The write raised no error and left the world [w1]; the read that
    follows is rejected. *)
Lemma create_reread_rejected_world Number ext model w r e w1 :
  dbAuth_createUser ext (fullName model) (email model) (password model) = Ok (Some r) →
  doc_set ext (rec_uid r) (created_doc ext model w r)
    (with_tick (with_tick (with_account r w))) = (Ok tt, w1) →
  userRef_get ext (rec_uid r) = Some e →
  ∃ w',
    UserService.sendEmailVerification Number ext (rec_uid r) (email model) w1
      = (Ok tt, w') ∧
    UserService.create Number ext model w
      = (Throw e,
         with_log {| level := LevelError;
                     args := [LThrown e; LText "Error creating user"] |} w').
Proof.
  intros Hc Hwrite Hget.
  unfold UserService.create, UserService.saveUser.
  unfold Timestamp_now, createUser, try_catch, throw, console_error, console_warn,
    mbind, mret, M_bind, M_ret.
  cbn beta iota zeta.
  rewrite Hc. cbn [clock_reads with_tick with_account].
  fold (created_doc ext model w r). rewrite Hwrite. cbn beta iota.
  run_email. unfold doc_get. rewrite Hget. exists w2. split; reflexivity.
Qed.

Lemma create_no_record_world Number ext model w :
  dbAuth_createUser ext (fullName model) (email model) (password model) = Ok None →
  UserService.create Number ext model w
    = (Throw (HttpException "Unable to create account. Please try again."
                INTERNAL_SERVER_ERROR),
       with_log
         {| level := LevelError;
            args := [LThrown (HttpException "Unable to create account. Please try again."
                                INTERNAL_SERVER_ERROR);
                     LText "Error creating user"] |} w).
Proof.
  intros Hc. unfold UserService.create. unfold_monad. now rewrite Hc.
Qed.

(** X6: when the provider creates no account, [create] fails and touches
    nothing but the console: no document, no account, no clock reading, no
    mail.  The provider's own error is rethrown as it is (unlike the store's,
    which [saveUser] replaces); a falsy record gives "Unable to create
    account" (500). *)
Theorem create_without_account_changes_nothing Number ext model w :
  (∀ r, dbAuth_createUser ext (fullName model) (email model) (password model)
        ≠ Ok (Some r)) →
  ∃ x w',
    UserService.create Number ext model w = (Throw x, w') ∧
    users w' = users w ∧
    accounts w' = accounts w ∧
    clock_reads w' = clock_reads w ∧
    smtp_attempts w' = smtp_attempts w ∧
    console w'
      = (console w ++
         [ {| level := LevelError; args := [LThrown x; LText "Error creating user"] |} ])%list ∧
    match dbAuth_createUser ext (fullName model) (email model) (password model) with
    | Throw e => x = e
    | _ => x = HttpException "Unable to create account. Please try again."
                 INTERNAL_SERVER_ERROR
    end.
Proof.
  intros Hnone.
  destruct (dbAuth_createUser ext (fullName model) (email model) (password model))
    as [[r |] | e] eqn:Hc.
  - now destruct (Hnone r).
  - rewrite (create_no_record_world Number ext model w Hc).
    do 2 eexists. repeat split.
  - rewrite (create_provider_rejects Number ext model w e Hc).
    do 2 eexists. repeat split.
Qed.

Lemma create_without_account_changes_nothing_witness :
  ∃ w',
    UserService.create Number_decimal email_taken request_A smtp_world
      = (Throw email_exists, w') ∧
    users w' = users smtp_world ∧
    smtp_attempts w' = smtp_attempts smtp_world.
Proof.
  destruct (create_without_account_changes_nothing Number_decimal email_taken
              request_A smtp_world)
    as (x & w' & Hrun & Husers & _ & _ & Hatt & _ & Hx).
  { intros r. discriminate. }
  cbn [dbAuth_createUser email_taken] in Hx. subst x.
  exists w'. split; [exact Hrun |]. split; assumption.
Defined.

(** X7: [create] does not roll back: when it fails after the provider
    created the account, the account stays with the provider.  The failure
    is one of three.  The write was rejected: the error is "Unable to save
    account information" (500), no document was stored and no mail was
    attempted.  The read that follows the write was rejected: the error is
    the store's own, thrown again as it is.  That read found no document:
    the error is "Account created but verification failed" (500).  So the
    error is a 500 whenever the store answers the read. *)
Theorem create_failure_keeps_account Number ext model w r x w' :
  dbAuth_createUser ext (fullName model) (email model) (password model) = Ok (Some r) →
  UserService.create Number ext model w = (Throw x, w') →
  r ∈ accounts w' ∧
  ((∃ e, userRef_set ext (rec_uid r) (created_doc ext model w r) = SetRejected e ∧
         x = HttpException "Unable to save account information. Please try again."
               INTERNAL_SERVER_ERROR ∧
         users w' = users w ∧ smtp_attempts w' = smtp_attempts w) ∨
   ((∀ e, userRef_set ext (rec_uid r) (created_doc ext model w r) ≠ SetRejected e) ∧
    userRef_get ext (rec_uid r) = Some x) ∨
   (userRef_set ext (rec_uid r) (created_doc ext model w r) = SetLost ∧
    userRef_get ext (rec_uid r) = None ∧
    x = HttpException "Account created but verification failed. Please contact support."
          INTERNAL_SERVER_ERROR ∧
    users w' !! rec_uid r = None)) ∧
  (userRef_get ext (rec_uid r) = None →
   ∃ message, x = HttpException message INTERNAL_SERVER_ERROR).
Proof.
  intros Hc Hrun.
  assert (∀ l : list UserRecord, r ∈ (l ++ [r])%list) as Hin.
  { intros l. apply elem_of_app. right. now apply list_elem_of_singleton. }
  destruct (userRef_set ext (rec_uid r) (created_doc ext model w r)) as [| | e] eqn:Hset.
  - destruct (userRef_get ext (rec_uid r)) as [e |] eqn:Hget.
    + destruct (create_reread_rejected Number ext model w r Hc e)
        as (w2 & Hrun2 & Haccounts & _);
        [intros e'; rewrite Hset; discriminate | exact Hget |].
      rewrite Hrun2 in Hrun. injection Hrun as <- <-.
      split; [rewrite Haccounts; apply Hin |]. split; [| discriminate].
      right. left. split; [discriminate | reflexivity].
    + destruct (create_write_applied Number ext model w r Hc Hset Hget)
        as (w2 & Hrun2 & _).
      rewrite Hrun2 in Hrun. discriminate Hrun.
  - destruct (userRef_get ext (rec_uid r)) as [e |] eqn:Hget.
    + destruct (create_reread_rejected Number ext model w r Hc e)
        as (w2 & Hrun2 & Haccounts & _);
        [intros e'; rewrite Hset; discriminate | exact Hget |].
      rewrite Hrun2 in Hrun. injection Hrun as <- <-.
      split; [rewrite Haccounts; apply Hin |]. split; [| discriminate].
      right. left. split; [discriminate | reflexivity].
    + destruct (create_write_lost Number ext model w r Hc Hset Hget)
        as (w2 & Hrun2 & Husers & Haccounts).
      rewrite Hrun2 in Hrun. injection Hrun as <- <-.
      split; [rewrite Haccounts; apply Hin |]. split; [| eauto].
      right. right. rewrite Husers, lookup_delete_eq. now repeat split.
  - rewrite (create_rejected_world Number ext model w r e Hc Hset) in Hrun.
    injection Hrun as <- <-.
    split; [apply Hin |]. split; [| eauto].
    left. exists e. now repeat split.
Qed.

Lemma create_failure_keeps_account_witness :
  (∃ x w',
    UserService.create Number_decimal store_rejects request_A smtp_world = (Throw x, w') ∧
    record_A ∈ accounts w' ∧
    (∃ message, x = HttpException message INTERNAL_SERVER_ERROR)) ∧
  ∃ w',
    UserService.create Number_decimal read_rejects request_A smtp_world
      = (Throw store_unavailable, w') ∧
    record_A ∈ accounts w'.
Proof.
  split.
  - pose proof (create_rejected_world Number_decimal store_rejects request_A smtp_world
                  record_A store_unavailable eq_refl eq_refl) as Hrun.
    destruct (create_failure_keeps_account Number_decimal store_rejects request_A
                smtp_world record_A _ _ eq_refl Hrun) as (Hin & _ & Hstatus).
    do 2 eexists. split; [exact Hrun |]. split; [exact Hin |].
    exact (Hstatus eq_refl).
  - destruct (create_reread_rejected Number_decimal read_rejects request_A smtp_world
                record_A eq_refl store_unavailable)
      as (w' & Hrun & _); [intros e'; discriminate | reflexivity |].
    destruct (create_failure_keeps_account Number_decimal read_rejects request_A
                smtp_world record_A _ _ eq_refl Hrun) as (Hin & _).
    exists w'. split; [exact Hrun | exact Hin].
Defined.

(** ** The delivery attempts of the verification mail *)

Lemma includes_unfold (hay n : string) :
  includes hay n
  = String.prefix n hay ||
    match hay with
    | EmptyString => false
    | String _ rest => includes rest n
    end.
Proof. now destruct hay. Qed.

Lemma prefix_append (n rest : string) : String.prefix n (n +:+ rest) = true.
Proof.
  induction n as [| c n IH]; [now destruct rest |].
  simpl. destruct (ascii_dec c c) as [_ | Hne]; [exact IH | now destruct Hne].
Qed.

Lemma includes_prefix (n rest : string) : includes (n +:+ rest) n = true.
Proof. now rewrite includes_unfold, prefix_append. Qed.

Lemma includes_prepend (a hay n : string) :
  includes hay n = true → includes (a +:+ hay) n = true.
Proof.
  intros Hinc. induction a as [| c a IH]; [exact Hinc |].
  change (String c a +:+ hay) with (String c (a +:+ hay)).
  rewrite includes_unfold, IH. apply orb_true_r.
Qed.

Lemma service_html_has_link (l : string) : includes (UserService.service_html l) l = true.
Proof.
  unfold UserService.service_html. do 6 apply includes_prepend. apply includes_prefix.
Qed.

Lemma controller_html_has_link (l : string) :
  includes (AuthController.controller_html l) l = true.
Proof.
  unfold AuthController.controller_html. do 2 apply includes_prepend.
  apply includes_prefix.
Qed.

Lemma mail_from_nonempty (a b : option string) : nonempty (UserService.mail_from a b) = true.
Proof.
  unfold UserService.mail_from, str_or.
  destruct a as [s |]; [destruct (nonempty s) eqn:Hs; [exact Hs | reflexivity] | reflexivity].
Qed.

(** What [sendEmailVerification] hands to the transport: nothing, or one
    mail when the link was generated and SMTP is configured. *)
Lemma sendEmailVerification_run Number ext uid mail w :
  ∃ w',
    UserService.sendEmailVerification Number ext uid mail w = (Ok tt, w') ∧
    quiet w w' ∧
    (smtp_attempts w' = smtp_attempts w ∨
     ∃ l cfg,
       dbAuth_generateEmailVerificationLink ext mail (link_settings w) = Ok l ∧
       smtp_settings Number w = Some cfg ∧
       smtp_attempts w'
         = (smtp_attempts w ++ [(transport_options cfg, service_mail w mail l)])%list).
Proof.
  unfold UserService.sendEmailVerification, link_settings, smtp_settings. unfold_monad.
  destruct (dbAuth_generateEmailVerificationLink ext mail _) as [l | e].
  - destruct (UserService.smtp_configured _ _ _ _) as [[[[h p] u] s] | ].
    + destruct (transporter_sendMail ext _ _) as [info | e];
        eexists; (split; [reflexivity |]);
        (split; [eapply quiet_trans; [apply quiet_attempt | apply quiet_log] |]);
        right; exists l, (h, p, u, s); repeat split.
    + eexists. split; [reflexivity |]. split; [apply quiet_log | now left].
  - eexists. split; [reflexivity |]. split; [apply quiet_log | now left].
Qed.

(** X8: [sendEmailVerification] never fails and hands the transport at
    most one mail; that mail goes to the address it was given, carries the
    generated link in its body, has a sender, and is sent with the SMTP
    settings of the environment, over a secure connexion exactly when the
    port is 465. *)
Theorem verification_mail_goes_to_the_address Number ext uid mail w :
  ∃ w',
    UserService.sendEmailVerification Number ext uid mail w = (Ok tt, w') ∧
    users w' = users w ∧
    (smtp_attempts w' = smtp_attempts w ∨
     ∃ o m l,
       smtp_attempts w' = (smtp_attempts w ++ [(o, m)])%list ∧
       dbAuth_generateEmailVerificationLink ext mail (link_settings w) = Ok l ∧
       to m = mail ∧
       includes (html m) l = true ∧
       nonempty (from m) = true ∧
       secure o = num_is (port o) 465 ∧
       smtp_settings Number w = Some (host o, port o, auth_user o, auth_pass o)).
Proof.
  destruct (sendEmailVerification_run Number ext uid mail w)
    as (w' & Hrun & (_ & Husers & _) & Hatt).
  exists w'. split; [exact Hrun |]. split; [exact Husers |].
  destruct Hatt as [Hnone | (l & [[[h p] u] s] & Hlink & Hcfg & Hone)]; [now left |].
  right. exists (transport_options (h, p, u, s)), (service_mail w mail l), l.
  split; [exact Hone |]. split; [exact Hlink |]. split; [reflexivity |].
  split; [apply service_html_has_link |]. split; [apply mail_from_nonempty |].
  split; [reflexivity | exact Hcfg].
Qed.

Lemma resend_catch_throws e w :
  ∃ message status w',
    AuthController.resend_catch e w = (Throw (HttpException message status), w') ∧
    (status = NOT_FOUND ∨ status = INTERNAL_SERVER_ERROR) ∧
    users w' = users w ∧ smtp_attempts w' = smtp_attempts w.
Proof.
  destruct (AuthController.maps_to_not_found e) eqn:Hm.
  - rewrite (resend_catch_not_found e w Hm). do 3 eexists.
    split; [reflexivity |]. split; [now left |]. now split.
  - rewrite (resend_catch_internal e w Hm). do 3 eexists.
    split; [reflexivity |]. split; [now right |]. now split.
Qed.

Lemma resendVerification_without_email Number ext body w :
  truthy (body ≫= body_email) = false →
  AuthController.resendVerification Number ext body w
    = (Throw (HttpException "Email is required" BAD_REQUEST), w).
Proof.
  unfold AuthController.resendVerification.
  destruct (body ≫= body_email) as [mail |]; [| reflexivity].
  cbn. now intros ->.
Qed.

Lemma truthy_email body :
  truthy (body ≫= body_email) = true →
  ∃ mail, body = Some {| body_email := Some mail |} ∧ nonempty mail = true.
Proof.
  destruct body as [[[mail |]] |]; cbn; try discriminate.
  intros Hmail. now exists mail.
Qed.

(** X9: when the resend endpoint answers, the answer has [success: true]
    and tells how the link left: either SMTP is not configured, the link was
    logged and is returned with [logged: true], and no mail was attempted; or
    one mail carrying the link was handed to the transport for the requested
    address, and the answer holds neither [logged] nor the link. *)
Theorem resend_answer_tells_how_the_link_left Number ext body w resp w' :
  AuthController.resendVerification Number ext body w = (Ok resp, w') →
  ∃ mail l,
    body = Some {| body_email := Some mail |} ∧
    dbAuth_generateEmailVerificationLink ext mail (link_settings w) = Ok l ∧
    success resp = true ∧
    ((smtp_settings Number w = None ∧
      logged resp = Some true ∧ link resp = Some l ∧
      smtp_attempts w' = smtp_attempts w ∧
      console w' = (console w ++ [link_logged l])%list) ∨
     (logged resp = None ∧ link resp = None ∧
      console w' = console w ∧
      ∃ o m,
        smtp_attempts w' = (smtp_attempts w ++ [(o, m)])%list ∧
        to m = mail ∧
        includes (html m) l = true ∧
        secure o = num_is (port o) 465 ∧
        smtp_settings Number w = Some (host o, port o, auth_user o, auth_pass o))).
Proof.
  intros Hrun.
  destruct (truthy (body ≫= body_email)) eqn:Hbody;
    [| rewrite (resendVerification_without_email Number ext body w Hbody) in Hrun;
       discriminate Hrun].
  destruct (truthy_email body Hbody) as (mail & -> & Hmail).
  rewrite (resendVerification_with_email Number ext mail w Hmail) in Hrun.
  unfold try_catch in Hrun.
  destruct (AuthController.resend_try Number ext mail w) as [[v | e] w1] eqn:Htry.
  2:{ destruct (resend_catch_throws e w1) as (? & ? & ? & Hcatch & _).
      rewrite Hcatch in Hrun. discriminate Hrun. }
  injection Hrun as <- <-.
  destruct (dbAuth_getUserByEmail ext mail) as [r | e] eqn:Hlookup;
    [| rewrite (resend_try_lookup_fails Number ext mail w e Hlookup) in Htry;
       discriminate Htry].
  destruct (dbAuth_generateEmailVerificationLink ext mail (link_settings w))
    as [l | e] eqn:Hlink;
    [| rewrite (resend_try_link_fails Number ext mail w r e Hlookup Hlink) in Htry;
       discriminate Htry].
  exists mail, l. split; [reflexivity |]. split; [exact Hlink |].
  destruct (smtp_settings Number w) as [[[[h p] u] s] |] eqn:Hcfg.
  - rewrite (resend_try_configured Number ext mail w r l _ Hlookup Hlink Hcfg) in Htry.
    destruct (transporter_sendMail ext _ _); [| discriminate Htry].
    injection Htry as <- <-. split; [reflexivity |]. right.
    repeat (split; [reflexivity |]).
    exists (transport_options (h, p, u, s)), (controller_mail w mail l).
    split; [reflexivity |]. split; [reflexivity |].
    split; [apply controller_html_has_link |]. now split.
  - rewrite (resend_try_unconfigured Number ext mail w r l Hlookup Hlink Hcfg) in Htry.
    injection Htry as <- <-. split; [reflexivity |]. left. now repeat split.
Qed.

Lemma resend_answer_tells_how_the_link_left_witness :
  ∃ resp w',
    AuthController.resendVerification Number_decimal healthy resend_A smtp_world
      = (Ok resp, w') ∧
    link resp = None ∧
    length (smtp_attempts w') = 1.
Proof.
  assert (smtp_settings Number_decimal smtp_world
          = Some ("smtp.example.com", JFinite 587, "mailer", "secret")) as Hcfg
    by (vm_compute; reflexivity).
  pose proof (resend_try_configured Number_decimal healthy "a@x.com" smtp_world
                record_A link_1 _ eq_refl eq_refl Hcfg) as Htry.
  cbn [transporter_sendMail healthy] in Htry.
  pose proof (resendVerification_returns Number_decimal healthy "a@x.com" smtp_world
                _ _ eq_refl Htry) as Hrun.
  do 2 eexists. split; [exact Hrun |].
  destruct (resend_answer_tells_how_the_link_left _ _ _ _ _ _ Hrun)
    as (mail & l & _ & _ & _ & [(Hnone & _) | (_ & Hlink & _ & o & m & Hatt & _)]).
  - rewrite Hcfg in Hnone. discriminate Hnone.
  - split; [exact Hlink |]. rewrite Hatt. reflexivity.
Defined.

(** X10: the resend endpoint fails only with an [HttpException] whose
    status is 400, 404 or 500, never with the raw error of a collaborator;
    the status is 400 exactly when the body has no email or an empty one, and
    then nothing was called and nothing changed. *)
Theorem resend_fails_with_400_404_or_500 Number ext body w x w' :
  AuthController.resendVerification Number ext body w = (Throw x, w') →
  ∃ message status,
    x = HttpException message status ∧
    (status = BAD_REQUEST ∨ status = NOT_FOUND ∨ status = INTERNAL_SERVER_ERROR) ∧
    (status = BAD_REQUEST ↔ truthy (body ≫= body_email) = false) ∧
    (status = BAD_REQUEST → message = "Email is required" ∧ w' = w) ∧
    users w' = users w.
Proof.
  intros Hrun.
  destruct (truthy (body ≫= body_email)) eqn:Hbody.
  - destruct (truthy_email body Hbody) as (mail & -> & Hmail).
    rewrite (resendVerification_with_email Number ext mail w Hmail) in Hrun.
    unfold try_catch in Hrun.
    destruct (AuthController.resend_try Number ext mail w) as [[v | e] w1] eqn:Htry;
      [discriminate Hrun |].
    assert (users w1 = users w) as Hw1.
    { destruct (resend_try_throws_inv Number ext mail w e w1 Htry)
        as [Hfails | (r & l & cfg & Hlookup & Hlink & Hcfg & Hsend)].
      - rewrite (resend_try_provider_fails Number ext mail w e Hfails) in Htry.
        now injection Htry as <-.
      - rewrite (resend_try_configured Number ext mail w r l cfg Hlookup Hlink Hcfg)
          in Htry.
        now injection Htry as _ <-. }
    destruct (resend_catch_throws e w1)
      as (message & status & w2 & Hcatch & Hstatus & Husers & _).
    rewrite Hcatch in Hrun. injection Hrun as <- <-.
    exists message, status. split; [reflexivity |].
    split; [now right |].
    split; [split; [intros ->; now destruct Hstatus | discriminate] |].
    split; [intros ->; now destruct Hstatus | congruence].
  - rewrite (resendVerification_without_email Number ext body w Hbody) in Hrun.
    injection Hrun as <- <-. do 2 eexists. split; [reflexivity |].
    split; [now left |]. now repeat split.
Qed.

Lemma resend_fails_with_400_404_or_500_witness :
  ∃ x w',
    AuthController.resendVerification Number_decimal healthy
      (Some {| body_email := Some EmptyString |}) smtp_world = (Throw x, w') ∧
    x = HttpException "Email is required" BAD_REQUEST ∧
    w' = smtp_world.
Proof.
  pose proof (resendVerification_without_email Number_decimal healthy
                (Some {| body_email := Some EmptyString |}) smtp_world eq_refl) as Hrun.
  destruct (resend_fails_with_400_404_or_500 _ _ _ _ _ _ Hrun)
    as (message & status & Hx & _ & Hiff & Hbad & _).
  destruct (Hbad (proj2 Hiff eq_refl)) as (Hmessage & Hsame).
  do 2 eexists. split; [exact Hrun |]. split; [| exact Hsame].
  rewrite Hx, Hmessage, (proj2 Hiff eq_refl). reflexivity.
Defined.





(** X12: the service and the endpoint send the same envelope: in the same
    world, for an address that resolves and a generated link, with SMTP
    configured, each hands the transport one mail, with the same transport
    options, sender, recipient and subject; both bodies carry the link. *)
Theorem service_and_endpoint_send_the_same_envelope Number ext mail w r l cfg :
  nonempty mail = true →
  dbAuth_getUserByEmail ext mail = Ok r →
  dbAuth_generateEmailVerificationLink ext mail (link_settings w) = Ok l →
  smtp_settings Number w = Some cfg →
  ∃ o by_service by_endpoint,
    smtp_attempts (snd (UserService.resendVerification Number ext mail w))
      = (smtp_attempts w ++ [(o, by_service)])%list ∧
    smtp_attempts
      (snd (AuthController.resendVerification Number ext
              (Some {| body_email := Some mail |}) w))
      = (smtp_attempts w ++ [(o, by_endpoint)])%list ∧
    from by_service = from by_endpoint ∧
    to by_service = mail ∧ to by_endpoint = mail ∧
    subject by_service = subject by_endpoint ∧
    includes (html by_service) l = true ∧
    includes (html by_endpoint) l = true.
Proof.
  intros Hmail Hlookup Hlink Hcfg.
  exists (transport_options cfg), (service_mail w mail l), (controller_mail w mail l).
  split; [| split].
  - rewrite (service_resend_resolved Number ext mail w r Hlookup).
    destruct (sendEmailVerification_run Number ext (rec_uid r) mail w)
      as (w' & Hrun & _ & Hatt).
    rewrite Hrun. cbn [snd].
    unfold UserService.sendEmailVerification, link_settings, smtp_settings in *.
    revert Hrun. unfold_monad. rewrite Hlink, Hcfg. destruct cfg as [[[h p] u] s].
    destruct (transporter_sendMail ext _ _); intros [= <-]; reflexivity.
  - pose proof (resend_try_configured Number ext mail w r l cfg Hlookup Hlink Hcfg) as Htry.
    rewrite (resendVerification_with_email Number ext mail w Hmail).
    unfold try_catch. rewrite Htry.
    destruct (transporter_sendMail ext _ _) as [info | e]; [reflexivity |].
    now rewrite resend_catch_no_attempt.
  - repeat split; try reflexivity;
      [apply service_html_has_link | apply controller_html_has_link].
Qed.

Lemma service_and_endpoint_send_the_same_envelope_witness :
  ∃ o by_service by_endpoint,
    smtp_attempts (snd (UserService.resendVerification Number_decimal smtp_down
                          "a@x.com" smtp_world)) = [(o, by_service)] ∧
    smtp_attempts (snd (AuthController.resendVerification Number_decimal smtp_down
                          resend_A smtp_world)) = [(o, by_endpoint)] ∧
    from by_service = from by_endpoint ∧
    to by_endpoint = "a@x.com".
Proof.
  assert (smtp_settings Number_decimal smtp_world
          = Some ("smtp.example.com", JFinite 587, "mailer", "secret")) as Hcfg
    by (vm_compute; reflexivity).
  destruct (service_and_endpoint_send_the_same_envelope Number_decimal smtp_down
              "a@x.com" smtp_world record_A link_1 _ eq_refl eq_refl eq_refl Hcfg)
    as (o & ms & me & Hs & He & Hfrom & _ & Hto & _).
  exists o, ms, me. repeat split; assumption.
Defined.

(** ** create among the other operations *)

Lemma in_accounts_with_account r w : r ∈ accounts (with_account r w).
Proof. cbn. apply elem_of_app. right. now apply list_elem_of_singleton. Qed.

(** What a successful [create] did. *)
Lemma create_ok_inv Number ext model w v w' :
  UserService.create Number ext model w = (Ok v, w') →
  ∃ r,
    dbAuth_createUser ext (fullName model) (email model) (password model) = Ok (Some r) ∧
    userRef_set ext (rec_uid r) (created_doc ext model w r) = SetApplied ∧
    userRef_get ext (rec_uid r) = None ∧
    v = UserService.user_view (created_doc ext model w r) ∧
    UserService.sendEmailVerification Number ext (rec_uid r) (email model)
      (world_with_profile ext model w r) = (Ok tt, w').
Proof.
  intros Hrun.
  destruct (dbAuth_createUser ext (fullName model) (email model) (password model))
    as [[r |] | e] eqn:Hc.
  - exists r. split; [reflexivity |].
    destruct (userRef_set ext (rec_uid r) (created_doc ext model w r)) as [| | e] eqn:Hset.
    + destruct (userRef_get ext (rec_uid r)) as [e |] eqn:Hget.
      { destruct (create_reread_rejected Number ext model w r Hc e) as (w2 & Hrun2 & _);
          [intros e'; rewrite Hset; discriminate | exact Hget |].
        rewrite Hrun2 in Hrun. discriminate Hrun. }
      destruct (create_applied_world Number ext model w r Hc Hset Hget)
        as (w2 & Hmail & Hrun2).
      rewrite Hrun2 in Hrun. injection Hrun as <- <-. now repeat split.
    + destruct (userRef_get ext (rec_uid r)) as [e |] eqn:Hget.
      { destruct (create_reread_rejected Number ext model w r Hc e) as (w2 & Hrun2 & _);
          [intros e'; rewrite Hset; discriminate | exact Hget |].
        rewrite Hrun2 in Hrun. discriminate Hrun. }
      destruct (create_lost_world Number ext model w r Hc Hset Hget) as (w2 & _ & Hrun2).
      rewrite Hrun2 in Hrun. discriminate Hrun.
    + rewrite (create_rejected_world Number ext model w r e Hc Hset) in Hrun.
      discriminate Hrun.
  - rewrite (create_no_record_world Number ext model w Hc) in Hrun. discriminate Hrun.
  - rewrite (create_provider_rejects Number ext model w e Hc) in Hrun. discriminate Hrun.
Qed.

(** What [create] leaves after the write took effect or was lost, whether
    the read that follows answers or not: the world the e-mail step left,
    with one more line on the console when [create] fails. *)
Lemma create_past_write Number ext model w r w1 :
  dbAuth_createUser ext (fullName model) (email model) (password model) = Ok (Some r) →
  doc_set ext (rec_uid r) (created_doc ext model w r)
    (with_tick (with_tick (with_account r w))) = (Ok tt, w1) →
  ∃ w2,
    UserService.sendEmailVerification Number ext (rec_uid r) (email model) w1
      = (Ok tt, w2) ∧
    (snd (UserService.create Number ext model w) = w2 ∨
     ∃ entry, snd (UserService.create Number ext model w) = with_log entry w2).
Proof.
  intros Hc Hwrite.
  destruct (userRef_get ext (rec_uid r)) as [e |] eqn:Hget.
  { destruct (create_reread_rejected_world Number ext model w r e w1 Hc Hwrite Hget)
      as (w2 & Hmail & ->).
    exists w2. split; [exact Hmail |]. right. eexists. reflexivity. }
  unfold doc_set in Hwrite.
  destruct (userRef_set ext (rec_uid r) (created_doc ext model w r)) as [| | e] eqn:Hset;
    [| | discriminate Hwrite]; injection Hwrite as <-.
  - destruct (create_applied_world Number ext model w r Hc Hset Hget)
      as (w2 & Hmail & ->).
    exists w2. split; [exact Hmail |]. now left.
  - destruct (create_lost_world Number ext model w r Hc Hset Hget)
      as (w2 & Hmail & ->).
    exists w2. split; [exact Hmail |]. right. eexists. reflexivity.
Qed.

(** X13: [create] touches one document at most, the one under the uid the
    provider issued: every other document is as before, as are the
    environment and the cookies; and it hands the transport at most one
    mail, addressed to the email of the request. *)
Theorem create_touches_one_document Number ext model w :
  env (snd (UserService.create Number ext model w)) = env w ∧
  cookies (snd (UserService.create Number ext model w)) = cookies w ∧
  (∀ j,
     (∀ r, dbAuth_createUser ext (fullName model) (email model) (password model)
           = Ok (Some r) → j ≠ rec_uid r) →
     users (snd (UserService.create Number ext model w)) !! j = users w !! j) ∧
  (smtp_attempts (snd (UserService.create Number ext model w)) = smtp_attempts w ∨
   ∃ o m,
     smtp_attempts (snd (UserService.create Number ext model w))
       = (smtp_attempts w ++ [(o, m)])%list ∧
     to m = email model).
Proof.
  destruct (dbAuth_createUser ext (fullName model) (email model) (password model))
    as [[r |] | e] eqn:Hc.
  - destruct (userRef_set ext (rec_uid r) (created_doc ext model w r)) as [| | e] eqn:Hset.
    + assert (doc_set ext (rec_uid r) (created_doc ext model w r)
                (with_tick (with_tick (with_account r w)))
              = (Ok tt, world_with_profile ext model w r)) as Hwrite
        by (unfold doc_set; now rewrite Hset).
      destruct (create_past_write Number ext model w r _ Hc Hwrite)
        as (w2 & Hmail & Hend).
      destruct (sendEmailVerification_run Number ext (rec_uid r) (email model)
                  (world_with_profile ext model w r))
        as (w3 & Hmail3 & (Henv & Husers & _ & _ & Hcookies) & Hatt).
      rewrite Hmail in Hmail3. injection Hmail3 as <-.
      assert (env (snd (UserService.create Number ext model w)) = env w2 ∧
              cookies (snd (UserService.create Number ext model w)) = cookies w2 ∧
              users (snd (UserService.create Number ext model w)) = users w2 ∧
              smtp_attempts (snd (UserService.create Number ext model w))
                = smtp_attempts w2) as (-> & -> & -> & ->)
        by (destruct Hend as [-> | (entry & ->)]; repeat split).
      split; [exact Henv |]. split; [exact Hcookies |]. split.
      * intros j Hj. rewrite Husers. cbn [users world_with_profile with_users].
        apply lookup_insert_ne. intros Heq. now apply (Hj r).
      * destruct Hatt as [Hnone | (l & cfg & _ & _ & Hone)]; [now left |].
        right. now exists (transport_options cfg),
          (service_mail (world_with_profile ext model w r) (email model) l).
    + assert (doc_set ext (rec_uid r) (created_doc ext model w r)
                (with_tick (with_tick (with_account r w)))
              = (Ok tt, with_users (delete (rec_uid r))
                          (with_tick (with_tick (with_account r w))))) as Hwrite
        by (unfold doc_set; now rewrite Hset).
      destruct (create_past_write Number ext model w r _ Hc Hwrite)
        as (w2 & Hmail & Hend).
      destruct (sendEmailVerification_run Number ext (rec_uid r) (email model)
                  (with_users (delete (rec_uid r))
                     (with_tick (with_tick (with_account r w)))))
        as (w3 & Hmail3 & (Henv & Husers & _ & _ & Hcookies) & Hatt).
      rewrite Hmail in Hmail3. injection Hmail3 as <-.
      assert (env (snd (UserService.create Number ext model w)) = env w2 ∧
              cookies (snd (UserService.create Number ext model w)) = cookies w2 ∧
              users (snd (UserService.create Number ext model w)) = users w2 ∧
              smtp_attempts (snd (UserService.create Number ext model w))
                = smtp_attempts w2) as (-> & -> & -> & ->)
        by (destruct Hend as [-> | (entry & ->)]; repeat split).
      split; [exact Henv |]. split; [exact Hcookies |]. split.
      * intros j Hj. rewrite Husers. cbn [users with_users].
        apply lookup_delete_ne. intros Heq. now apply (Hj r).
      * destruct Hatt as [Hnone | (l & cfg & _ & _ & Hone)]; [now left |].
        right. now exists (transport_options cfg),
          (service_mail (with_users (delete (rec_uid r))
                           (with_tick (with_tick (with_account r w)))) (email model) l).
    + rewrite (create_rejected_world Number ext model w r e Hc Hset). cbn [snd].
      repeat split. now left.
  - rewrite (create_no_record_world Number ext model w Hc). repeat split. now left.
  - rewrite (create_provider_rejects Number ext model w e Hc). repeat split. now left.
Qed.

Lemma create_touches_one_document_witness :
  users (snd (UserService.create Number_decimal healthy request_A ann_and_bob)) !! "a"
    = Some (profile "a" "Ann").
Proof.
  destruct (create_touches_one_document Number_decimal healthy request_A ann_and_bob)
    as (_ & _ & Hframe & _).
  rewrite (Hframe "a"); [exact ann_and_bob_a |].
  intros r [= <-]. discriminate.
Defined.

Lemma prop_spread_id (x : JsVal) (d : JsObj) (k : string) :
  k ≠ "id" → prop (spread {[ "id" := x ]} d) k = prop d k.
Proof.
  intros Hne. unfold prop. rewrite lookup_spread.
  destruct (d !! k); [reflexivity |]. now rewrite lookup_singleton_ne.
Qed.

(** X14: after a successful [create], [findOne] on the issued uid returns
    the stored document with [id] set to that uid, of which the profile
    [create] returned is the eight-field view; [remove] on the uid, unless the
    store rejects the deletion, returns the same, takes the document out
    again (the store is as before the [create] when the uid was free), and
    leaves the account with the provider; when the store rejects the
    deletion [remove] fails with the store's error and changes nothing. *)
Theorem create_then_findOne_and_remove Number ext model w v w' :
  UserService.create Number ext model w = (Ok v, w') →
  ∃ r found,
    dbAuth_createUser ext (fullName model) (email model) (password model) = Ok (Some r) ∧
    UserService.findOne ext (rec_uid r) w' = (Ok found, w') ∧
    found !! "id" = Some (VString (rec_uid r)) ∧
    v = UserService.user_view found ∧
    match userRef_delete ext (rec_uid r) with
    | Some e => UserService.remove ext (rec_uid r) w' = (Throw e, w')
    | None =>
        ∃ w'',
          UserService.remove ext (rec_uid r) w' = (Ok found, w'') ∧
          users w'' = delete (rec_uid r) (users w) ∧
          (users w !! rec_uid r = None → users w'' = users w) ∧
          r ∈ accounts w''
    end.
Proof.
  intros Hrun.
  destruct (create_ok_inv Number ext model w v w' Hrun)
    as (r & Hc & Hset & Hget & -> & Hmail).
  destruct (sendEmailVerification_ok Number ext (rec_uid r) (email model)
              (world_with_profile ext model w r))
    as (w2 & Hmail2 & _ & Husers & Haccounts & _).
  rewrite Hmail in Hmail2. injection Hmail2 as <-.
  assert (users w' !! rec_uid r = Some (created_doc ext model w r)) as Hstored.
  { rewrite Husers. apply lookup_insert_eq. }
  exists r, (spread {[ "id" := VString (rec_uid r) ]} (created_doc ext model w r)).
  split; [exact Hc |]. split; [now apply findOne_found |].
  split.
  { rewrite lookup_spread.
    assert (created_doc ext model w r !! "id" = None) as -> by reflexivity.
    apply lookup_singleton_eq. }
  split.
  { unfold UserService.user_view. now rewrite !prop_spread_id by discriminate. }
  rewrite remove_run, Hget, Hstored.
  destruct (userRef_delete ext (rec_uid r)) as [e |]; [reflexivity |].
  exists (with_users (delete (rec_uid r)) w').
  split; [reflexivity |].
  assert (users (with_users (delete (rec_uid r)) w') = delete (rec_uid r) (users w))
    as Hdeleted.
  { cbn [users with_users]. rewrite Husers. cbn [users world_with_profile with_users].
    apply delete_insert_eq. }
  split; [exact Hdeleted |]. split.
  - intros Hfree. rewrite Hdeleted. now apply delete_id.
  - cbn [accounts with_users]. rewrite Haccounts. apply in_accounts_with_account.
Qed.

Lemma create_then_findOne_and_remove_witness :
  ∃ v w' found w'',
    UserService.create Number_decimal healthy request_A ann_and_bob = (Ok v, w') ∧
    UserService.findOne healthy "uid-1" w' = (Ok found, w') ∧
    UserService.remove healthy "uid-1" w' = (Ok found, w'') ∧
    users w'' = users ann_and_bob.
Proof.
  destruct (create_applied_world Number_decimal healthy request_A ann_and_bob record_A
              eq_refl eq_refl eq_refl) as (w' & _ & Hrun).
  destruct (create_then_findOne_and_remove _ _ _ _ _ _ Hrun)
    as (r & found & Hc & Hfind & _ & _ & Hremove).
  injection Hc as <-. cbn [rec_uid record_A userRef_delete healthy] in *.
  destruct Hremove as (w'' & Hremove & _ & Hfree & _).
  do 2 eexists. exists found, w''. split; [exact Hrun |].
  split; [exact Hfind |]. split; [exact Hremove |].
  apply Hfree. unfold ann_and_bob, world_of. cbn [users].
  now rewrite !lookup_insert_ne, lookup_empty by discriminate.
Defined.

(** X15: the profile a successful [create] returns has the provider's uid,
    the email, full name and phone number of the request ([undefined] when
    the request has none), no purchases and the role USER; it has these eight
    properties and no other, so neither the password nor an [id]. *)
Theorem create_returns_the_request_as_profile Number ext model w v w' :
  UserService.create Number ext model w = (Ok v, w') →
  ∃ r,
    dbAuth_createUser ext (fullName model) (email model) (password model) = Ok (Some r) ∧
    v !! "uid" = Some (VString (rec_uid r)) ∧
    v !! "email" = Some (VString (email model)) ∧
    v !! "fullName" = Some (VString (fullName model)) ∧
    v !! "phoneNumber" = Some (UserService.opt_string (phoneNumber model)) ∧
    v !! "purchases" = Some (VArray []) ∧
    v !! "role" = Some UserRole_USER ∧
    ∀ k, is_Some (v !! k) ↔
         k ∈ ["uid"; "email"; "fullName"; "phoneNumber";
              "createdAt"; "lastLogin"; "purchases"; "role"].
Proof.
  intros Hrun.
  destruct (create_ok_inv Number ext model w v w' Hrun) as (r & Hc & _ & _ & -> & _).
  exists r. split; [exact Hc |]. do 6 (split; [reflexivity |]).
  intros k. rewrite <- elem_of_dom. unfold UserService.user_view.
  rewrite dom_list_to_map_L, elem_of_list_to_set. reflexivity.
Qed.

Lemma create_returns_the_request_as_profile_witness :
  ∃ v w',
    UserService.create Number_decimal healthy request_A smtp_world = (Ok v, w') ∧
    v !! "email" = Some (VString "a@x.com") ∧
    v !! "phoneNumber" = Some VUndefined ∧
    v !! "password" = None.
Proof.
  destruct (create_applied_world Number_decimal healthy request_A smtp_world record_A
              eq_refl eq_refl eq_refl) as (w' & _ & Hrun).
  destruct (create_returns_the_request_as_profile _ _ _ _ _ _ Hrun)
    as (r & _ & _ & Hemail & _ & Hphone & _ & _ & Hkeys).
  do 2 eexists. split; [exact Hrun |]. split; [exact Hemail |]. split; [exact Hphone |].
  apply eq_None_not_Some. intros Hsome. apply Hkeys in Hsome.
  repeat (apply elem_of_cons in Hsome as [Heq | Hsome]; [discriminate Heq |]).
  now apply elem_of_nil in Hsome.
Defined.

(** ** findAll *)

Lemma nullish_defined (a b : JsVal) :
  b ≠ VUndefined → b ≠ VNull → nullish a b ≠ VUndefined ∧ nullish a b ≠ VNull.
Proof. intros Hu Hn. now destruct a. Qed.

Lemma nullish_absent (a b : JsVal) : a = VUndefined ∨ a = VNull → nullish a b = b.
Proof. now intros [-> | ->]. Qed.

Lemma nullish_present (a b : JsVal) : a ≠ VUndefined → a ≠ VNull → nullish a b = a.
Proof. intros Hu Hn. now destruct a. Qed.

Lemma findAll_run ext w :
  UserService.findAll ext w
    = match users_get ext with
      | Some e => (Throw e, w)
      | None =>
          (Ok ((λ doc, UserService.listed_view (snd doc)) <$> map_to_list (users w)), w)
      end.
Proof.
  unfold UserService.findAll, collection_get. unfold_monad.
  now destruct (users_get ext).
Qed.

(** X16: [findAll] changes nothing.  When the store rejects the listing,
    [findAll] fails with the store's error; otherwise it lists one profile
    per stored document, each the view of a stored document.  A listed
    profile always has a role and purchases that are neither [undefined] nor
    [null]: USER and [[]] stand in for a document in which they are missing
    or [null], any other value is kept; the six other fields are those of
    the document, as they are; and it has no [id]. *)
Theorem findAll_lists_every_document ext w :
  match users_get ext with
  | Some e => UserService.findAll ext w = (Throw e, w)
  | None =>
      ∃ l,
        UserService.findAll ext w = (Ok l, w) ∧
        length l = size (users w) ∧
        (∀ v, v ∈ l ↔
              ∃ key data, users w !! key = Some data ∧ v = UserService.listed_view data)
  end ∧
  ∀ data,
    (∃ x, UserService.listed_view data !! "role" = Some x ∧ x ≠ VUndefined ∧ x ≠ VNull) ∧
    (∃ x, UserService.listed_view data !! "purchases" = Some x ∧
          x ≠ VUndefined ∧ x ≠ VNull) ∧
    (prop data "role" = VUndefined ∨ prop data "role" = VNull →
     UserService.listed_view data !! "role" = Some UserRole_USER) ∧
    (prop data "role" ≠ VUndefined → prop data "role" ≠ VNull →
     UserService.listed_view data !! "role" = Some (prop data "role")) ∧
    (prop data "purchases" = VUndefined ∨ prop data "purchases" = VNull →
     UserService.listed_view data !! "purchases" = Some (VArray [])) ∧
    (prop data "purchases" ≠ VUndefined → prop data "purchases" ≠ VNull →
     UserService.listed_view data !! "purchases" = Some (prop data "purchases")) ∧
    (∀ k, k ∈ ["uid"; "email"; "fullName"; "phoneNumber"; "createdAt"; "lastLogin"] →
          UserService.listed_view data !! k = Some (prop data k)) ∧
    UserService.listed_view data !! "id" = None.
Proof.
  split.
  - rewrite findAll_run. destruct (users_get ext) as [e |]; [reflexivity |].
    eexists. split; [reflexivity |]. split.
    + now rewrite length_fmap, length_map_to_list.
    + intros v. rewrite list_elem_of_fmap. split.
      * intros ([key data] & -> & Hin). apply elem_of_map_to_list in Hin. eauto.
      * intros (key & data & Hdata & ->). exists (key, data).
        split; [reflexivity | now apply elem_of_map_to_list].
  - intros data.
    assert (UserService.listed_view data !! "role"
            = Some (nullish (prop data "role") UserRole_USER)) as Hrole by reflexivity.
    assert (UserService.listed_view data !! "purchases"
            = Some (nullish (prop data "purchases") (VArray []))) as Hpurchases
      by reflexivity.
    rewrite Hrole, Hpurchases.
    split; [eexists; split; [reflexivity | now apply nullish_defined] |].
    split; [eexists; split; [reflexivity | now apply nullish_defined] |].
    split; [intros Habsent; now rewrite nullish_absent |].
    split; [intros Hu Hn; now rewrite nullish_present |].
    split; [intros Habsent; now rewrite nullish_absent |].
    split; [intros Hu Hn; now rewrite nullish_present |].
    split; [| reflexivity].
    intros k Hk.
    repeat (apply elem_of_cons in Hk as [-> | Hk]; [reflexivity |]).
    now apply elem_of_nil in Hk.
Qed.

Lemma findAll_lists_every_document_witness :
  (∃ l,
    UserService.findAll healthy ann_and_bob = (Ok l, ann_and_bob) ∧
    length l = 2 ∧
    UserService.listed_view (profile "a" "Ann") ∈ l) ∧
  UserService.listed_view {[ "uid" := VString "c" ]} !! "role" = Some UserRole_USER ∧
  UserService.listed_view {[ "uid" := VString "c"; "role" := VNull ]} !! "role"
    = Some UserRole_USER ∧
  UserService.listed_view {[ "uid" := VString "c"; "role" := VString "ADMIN" ]} !! "role"
    = Some (VString "ADMIN").
Proof.
  destruct (findAll_lists_every_document healthy ann_and_bob) as (Hlist & Hview).
  cbn [users_get healthy] in Hlist. destruct Hlist as (l & Hrun & Hlength & Hin).
  split; [exists l; split; [exact Hrun |]; split |].
  - rewrite Hlength. unfold ann_and_bob, world_of. cbn [users].
    rewrite !map_size_insert_None, map_size_empty; [reflexivity | apply lookup_empty |].
    rewrite lookup_insert_ne by discriminate. apply lookup_empty.
  - apply Hin. exists "a", (profile "a" "Ann"). split; [exact ann_and_bob_a | reflexivity].
  - split; [| split].
    + destruct (Hview {[ "uid" := VString "c" ]}) as (_ & _ & Hmissing & _).
      apply Hmissing. now left.
    + destruct (Hview {[ "uid" := VString "c"; "role" := VNull ]})
        as (_ & _ & Hmissing & _).
      apply Hmissing. now right.
    + destruct (Hview {[ "uid" := VString "c"; "role" := VString "ADMIN" ]})
        as (_ & _ & _ & Hkept & _).
      apply Hkept; discriminate.
Defined.

(** ** login and logout *)

Lemma login_accepted ext dto w result :
  authSvc_login ext dto = Ok result →
  AuthController.login ext dto w
    = (Ok result,
       with_cookie
         {| cookie_name := "sp_auth";
            cookie_value := base64 (JSON_stringify_session (idToken result) (user_role result));
            httpOnly := true;
            sameSite := Lax;
            maxAge := AuthController.twelveHoursMs;
            cookie_secure := bool_decide (env w !! "NODE_ENV" = Some "production");
            cookie_path := "/" |} w).
Proof.
  intros Hlogin. unfold AuthController.login, AuthController.res_cookie.
  unfold_monad. now rewrite Hlogin.
Qed.

Lemma logout_run w :
  AuthController.logout w
    = (Ok {| success := true; logged := None; link := None |},
       with_cookie
         {| cookie_name := "sp_auth";
            cookie_value := EmptyString;
            httpOnly := true;
            sameSite := Lax;
            maxAge := 0;
            cookie_secure := bool_decide (env w !! "NODE_ENV" = Some "production");
            cookie_path := "/" |} w).
Proof. reflexivity. Qed.

Lemma snoc_neq {A} (l : list A) (x : A) : (l ++ [x])%list ≠ l.
Proof.
  intros Heq. apply (f_equal length) in Heq. rewrite length_app in Heq.
  cbn in Heq. lia.
Qed.

(** X17: [login] hands back exactly what [AuthService.login] gave, value
    or error, touches neither the store nor the console, and adds a cookie to
    the response exactly when [AuthService.login] succeeded. *)
Theorem login_passes_the_result_through ext dto w :
  fst (AuthController.login ext dto w) = authSvc_login ext dto ∧
  users (snd (AuthController.login ext dto w)) = users w ∧
  console (snd (AuthController.login ext dto w)) = console w ∧
  (cookies (snd (AuthController.login ext dto w)) = cookies w ↔
   ∃ e, authSvc_login ext dto = Throw e).
Proof.
  destruct (authSvc_login ext dto) as [result | e] eqn:Hlogin.
  - rewrite (login_accepted ext dto w result Hlogin). cbn [fst snd].
    repeat split; [| intros (e & [=])].
    intros Heq. cbn in Heq. now apply snoc_neq in Heq.
  - rewrite (login_rejected ext dto w e Hlogin). cbn [fst snd].
    repeat split. eauto.
Qed.

Lemma login_passes_the_result_through_witness :
  fst (AuthController.login wrong_password
         {| login_email := "a@x.com"; login_password := "wrong" |} bare_world)
    = Throw bad_credentials ∧
  cookies (snd (AuthController.login wrong_password
                  {| login_email := "a@x.com"; login_password := "wrong" |} bare_world))
    = cookies bare_world.
Proof.
  destruct (login_passes_the_result_through wrong_password
              {| login_email := "a@x.com"; login_password := "wrong" |} bare_world)
    as (Hfst & _ & _ & Hcookies).
  split; [exact Hfst |]. apply Hcookies. now exists bad_credentials.
Defined.

(** X18: [logout] always succeeds, whatever the cookies so far, and adds
    one cookie.  After a successful [login], that cookie has the name, path,
    HttpOnly, SameSite and Secure attributes of the session cookie, an empty
    value and a max-age of 0: it replaces the session cookie and expires at
    once. *)
Theorem logout_expires_the_session_cookie ext dto w result :
  authSvc_login ext dto = Ok result →
  ∃ session cleared w1 w2,
    AuthController.login ext dto w = (Ok result, w1) ∧
    AuthController.logout w1 = (Ok {| success := true; logged := None; link := None |}, w2) ∧
    cookies w2 = (cookies w ++ [session; cleared])%list ∧
    cookie_name cleared = cookie_name session ∧
    cookie_path cleared = cookie_path session ∧
    cookie_secure cleared = cookie_secure session ∧
    httpOnly cleared = httpOnly session ∧
    sameSite cleared = sameSite session ∧
    cookie_value cleared = EmptyString ∧
    maxAge cleared = 0%Z ∧
    nonempty (cookie_value session) = true.
Proof.
  intros Hlogin. do 4 eexists.
  split; [apply (login_accepted ext dto w result Hlogin) |].
  split; [apply logout_run |].
  cbn [cookies with_cookie env cookie_name cookie_path cookie_secure httpOnly sameSite
       cookie_value maxAge].
  split; [now rewrite <- app_assoc |].
  repeat (split; [reflexivity |]).
  reflexivity.
Qed.

Lemma logout_expires_the_session_cookie_witness :
  ∃ session cleared w1 w2,
    AuthController.login healthy
      {| login_email := "a@x.com"; login_password := "secret1" |} bare_world
      = (Ok {| idToken := "abc"; user_role := "USER"; user_uid := "uid-1" |}, w1) ∧
    AuthController.logout w1
      = (Ok {| success := true; logged := None; link := None |}, w2) ∧
    cookies w2 = [session; cleared] ∧
    cookie_name cleared = cookie_name session ∧
    maxAge cleared = 0%Z.
Proof.
  destruct (logout_expires_the_session_cookie healthy
              {| login_email := "a@x.com"; login_password := "secret1" |}
              bare_world _ eq_refl)
    as (session & cleared & w1 & w2 & Hin & Hout & Hcookies & Hname & _ & _ & _ & _ & _
        & Hage & _).
  exists session, cleared, w1, w2. repeat split; assumption.
Defined.

(** ** The session cookie read back *)

(** X19: the session cookie determines the session: two pairs of token
    and role with the same cookie value are the same pair, whatever
    characters the token and the role contain. *)
Theorem session_cookie_determines_token_and_role (t r t' r' : string) :
  base64 (JSON_stringify_session t r) = base64 (JSON_stringify_session t' r') →
  t = t' ∧ r = r'.
Proof.
  intros Heq. apply base64_injective in Heq.
  apply (f_equal parse_session) in Heq.
  rewrite !parse_session_stringify in Heq. now injection Heq.
Qed.

Lemma session_cookie_determines_token_and_role_witness :
  base64 (JSON_stringify_session "abc" "USER") = "eyJ0IjoiYWJjIiwiciI6IlVTRVIifQ==" ∧
  "abc" = "abc" ∧ "USER" = "USER".
Proof.
  split; [reflexivity |].
  exact (session_cookie_determines_token_and_role "abc" "USER" "abc" "USER" eq_refl).
Defined.

Lemma base64_digit_in_alphabet (n : N) :
  (n < 64)%N → is_Some (base64_value (base64_digit n)) ∨ base64_digit n = "="%char.
Proof. intros Hn. left. rewrite (base64_value_digit n Hn). eauto. Qed.

Lemma base64_shape_upto (n : nat) (bytes : string) :
  (String.length bytes < n)%nat →
  String.length (base64 bytes) = 4 * ((String.length bytes + 2) / 3) ∧
  Forall (λ c, is_Some (base64_value c) ∨ c = "="%char)
    (list_ascii_of_string (base64 bytes)).
Proof.
  revert bytes. induction n as [| n IH]; intros bytes Hlen; [lia |].
  destruct bytes as [| a [| b [| c rest]]].
  - split; [reflexivity | constructor].
  - pose proof (N_ascii_bounded a) as Ha.
    split; [reflexivity |]. cbn [base64 list_ascii_of_string]. cbv zeta.
    constructor; [apply base64_digit_in_alphabet; now apply sextet_1 |].
    constructor; [apply base64_digit_in_alphabet; apply last_sextet_of_1 |].
    constructor; [now right |]. constructor; [now right |]. constructor.
  - pose proof (N_ascii_bounded a) as Ha. pose proof (N_ascii_bounded b) as Hb.
    split; [reflexivity |]. cbn [base64 list_ascii_of_string]. cbv zeta.
    constructor; [apply base64_digit_in_alphabet; now apply sextet_1 |].
    constructor; [apply base64_digit_in_alphabet; now apply sextet_2 |].
    constructor; [apply base64_digit_in_alphabet; apply last_sextet_of_2 |].
    constructor; [now right |]. constructor.
  - pose proof (N_ascii_bounded a) as Ha. pose proof (N_ascii_bounded b) as Hb.
    pose proof (N_ascii_bounded c) as Hc.
    destruct (IH rest) as (Hl & Hchars); [cbn [String.length] in Hlen; lia |].
    split.
    + cbn [base64 String.length]. cbv zeta. cbn [String.length]. rewrite Hl.
      replace (S (S (S (String.length rest))) + 2) with (String.length rest + 2 + 1 * 3)
        by lia.
      rewrite Nat.div_add by lia. lia.
    + cbn [base64 list_ascii_of_string]. cbv zeta. cbn [list_ascii_of_string].
      constructor; [apply base64_digit_in_alphabet; now apply sextet_1 |].
      constructor; [apply base64_digit_in_alphabet; now apply sextet_2 |].
      constructor; [apply base64_digit_in_alphabet; now apply sextet_3 |].
      constructor; [apply base64_digit_in_alphabet; apply sextet_4 | exact Hchars].
Qed.

(** X20: the value of the session cookie is base64 text: four characters
    for every three bytes of the serialized session, rounded up, each a
    digit of the base64 alphabet or the padding [=]. *)
Theorem session_cookie_is_base64_text ext dto w result :
  authSvc_login ext dto = Ok result →
  ∃ c,
    AuthController.login ext dto w = (Ok result, with_cookie c w) ∧
    String.length (cookie_value c)
      = 4 * ((String.length (JSON_stringify_session (idToken result) (user_role result))
              + 2) / 3) ∧
    Forall (λ x, is_Some (base64_value x) ∨ x = "="%char)
      (list_ascii_of_string (cookie_value c)).
Proof.
  intros Hlogin. eexists. split; [apply (login_accepted ext dto w result Hlogin) |].
  cbn [cookie_value].
  apply (base64_shape_upto (S (String.length
           (JSON_stringify_session (idToken result) (user_role result))))).
  lia.
Qed.

Lemma session_cookie_is_base64_text_witness :
  ∃ c,
    AuthController.login healthy
      {| login_email := "a@x.com"; login_password := "secret1" |} bare_world
      = (Ok {| idToken := "abc"; user_role := "USER"; user_uid := "uid-1" |},
         with_cookie c bare_world) ∧
    String.length (cookie_value c) = 32.
Proof.
  destruct (session_cookie_is_base64_text healthy
              {| login_email := "a@x.com"; login_password := "secret1" |}
              bare_world _ eq_refl) as (c & Hrun & Hlength & _).
  exists c. split; [exact Hrun |]. rewrite Hlength. reflexivity.
Defined.

(** ** The keys of the documents, across calls *)

Lemma create_preserves_uid_matches_key Number ext model w :
  uid_matches_key (users w) →
  uid_matches_key (users (snd (UserService.create Number ext model w))).
Proof.
  intros Hinv.
  destruct (dbAuth_createUser ext (fullName model) (email model) (password model))
    as [[r |] | e] eqn:Hc.
  - assert (uid_matches_key (<[rec_uid r := created_doc ext model w r]> (users w)))
      as Hinserted.
    { apply map_Forall_insert_2; [| exact Hinv].
      apply (created_doc_fields ext model w r). }
    destruct (userRef_set ext (rec_uid r) (created_doc ext model w r)) as [| | e] eqn:Hset.
    + destruct (userRef_get ext (rec_uid r)) as [e |] eqn:Hget.
      * destruct (create_reread_rejected Number ext model w r Hc e)
          as (w' & Hrun & _ & Husers & _);
          [intros e'; rewrite Hset; discriminate | exact Hget |].
        rewrite Hrun. cbn [snd]. rewrite (Husers Hset). exact Hinserted.
      * destruct (create_write_applied Number ext model w r Hc Hset Hget)
          as (w' & Hrun & Husers & _).
        rewrite Hrun. cbn [snd]. rewrite Husers. exact Hinserted.
    + destruct (userRef_get ext (rec_uid r)) as [e |] eqn:Hget.
      * destruct (create_reread_rejected Number ext model w r Hc e)
          as (w' & Hrun & _ & _ & Husers);
          [intros e'; rewrite Hset; discriminate | exact Hget |].
        rewrite Hrun. cbn [snd]. rewrite (Husers Hset). now apply map_Forall_delete.
      * destruct (create_write_lost Number ext model w r Hc Hset Hget)
          as (w' & Hrun & Husers & _).
        rewrite Hrun. cbn [snd]. rewrite Husers. now apply map_Forall_delete.
    + rewrite (create_rejected_world Number ext model w r e Hc Hset). exact Hinv.
  - rewrite (create_no_record_world Number ext model w Hc). exact Hinv.
  - rewrite (create_provider_rejects Number ext model w e Hc). exact Hinv.
Qed.

Lemma update_preserves_uid_matches_key ext id model w :
  uid_matches_key (users w) →
  model !! "uid" = None →
  uid_matches_key (users (snd (UserService.update ext id model w))).
Proof.
  intros Hinv Hmodel.
  destruct (userRef_get ext id) as [e |] eqn:Hget;
    [rewrite (update_read_rejected ext id model w e Hget); exact Hinv |].
  destruct (users w !! id) as [data |] eqn:Hdata.
  - rewrite (update_found ext id model data w Hget Hdata).
    destruct (userRef_set ext id _) as [| | e]; cbn [snd users with_users with_log].
    + apply map_Forall_insert_2; [| exact Hinv].
      rewrite !lookup_spread, Hmodel. rewrite (Hinv id data Hdata). reflexivity.
    + now apply map_Forall_delete.
    + exact Hinv.
  - rewrite (update_missing ext id model w Hget Hdata). exact Hinv.
Qed.

Lemma remove_preserves_uid_matches_key ext id w :
  uid_matches_key (users w) →
  uid_matches_key (users (snd (UserService.remove ext id w))).
Proof.
  intros Hinv. rewrite remove_run.
  destruct (userRef_get ext id); [exact Hinv |].
  destruct (users w !! id); [| exact Hinv].
  destruct (userRef_delete ext id); [exact Hinv |].
  cbn. now apply map_Forall_delete.
Qed.

Lemma serve_keeps_keys Number ext q w :
  keeps_keys q →
  id_matches_key (users w) ∧ uid_matches_key (users w) →
  id_matches_key (users (serve Number ext q w)) ∧
  uid_matches_key (users (serve Number ext q w)).
Proof.
  intros Hq [Hid Huid]. destruct q as [model | | id | id partial | id]; cbn [serve].
  - split; [now apply create_preserves_id_matches_key
           | now apply create_preserves_uid_matches_key].
  - rewrite findAll_run. destruct (users_get ext); now split.
  - unfold UserService.findOne. unfold_monad.
    destruct (userRef_get ext id); [now split |].
    destruct (users w !! id); now split.
  - destruct Hq as [Hpid Hpuid].
    split; [now apply update_preserves_id_matches_key
           | now apply update_preserves_uid_matches_key].
  - split; [now apply remove_preserves_id_matches_key
           | now apply remove_preserves_uid_matches_key].
Qed.

(** X21: the service keeps the documents under their keys: starting from a
    store in which every document has its key as [uid] and no [id] other than
    its key (an empty store, for one), after any sequence of [create],
    [findAll], [findOne], [update] and [remove] calls, whatever the
    collaborators answer, the same holds, provided no [update] carries an
    [id] or a [uid] in its partial. *)
Theorem service_keeps_documents_under_their_keys Number qs w :
  id_matches_key (users w) →
  uid_matches_key (users w) →
  Forall (λ q, keeps_keys (snd q)) qs →
  id_matches_key (users (serve_all Number qs w)) ∧
  uid_matches_key (users (serve_all Number qs w)).
Proof.
  intros Hid Huid Hqs. revert w Hid Huid.
  induction Hqs as [| [ext q] qs Hq _ IH]; intros w Hid Huid; [now split |].
  cbn [serve_all].
  destruct (serve_keeps_keys Number ext q w Hq (conj Hid Huid)) as [Hid' Huid'].
  now apply IH.
Qed.

Lemma service_keeps_documents_under_their_keys_witness :
  uid_matches_key
    (users (serve_all Number_decimal
              [(healthy, ReqCreate request_A);
               (store_rejects, ReqUpdate "uid-1" {[ "fullName" := VString "Al" ]});
               (healthy, ReqUpdate "uid-1" {[ "phoneNumber" := VString "555" ]});
               (healthy, ReqFindAll);
               (healthy, ReqRemove "zzz")]
              bare_world)).
Proof.
  apply (service_keeps_documents_under_their_keys Number_decimal _ bare_world).
  - apply map_Forall_empty.
  - apply map_Forall_empty.
  - repeat constructor; cbn; now rewrite lookup_singleton_ne.
Defined.

(** X22: after a successful [create], [findAll], unless the store rejects
    the listing, lists the new profile exactly as [create] returned it; when
    the uid was free, the listing has one profile more than the store had
    documents.  When the store rejects the listing, [findAll] fails with the
    store's error. *)
Theorem findAll_after_create Number ext model w v w' :
  UserService.create Number ext model w = (Ok v, w') →
  ∃ r,
    dbAuth_createUser ext (fullName model) (email model) (password model) = Ok (Some r) ∧
    match users_get ext with
    | Some e => UserService.findAll ext w' = (Throw e, w')
    | None =>
        ∃ l,
          UserService.findAll ext w' = (Ok l, w') ∧
          v ∈ l ∧
          (users w !! rec_uid r = None → length l = S (size (users w)))
    end.
Proof.
  intros Hrun.
  destruct (create_ok_inv Number ext model w v w' Hrun)
    as (r & Hc & Hset & _ & -> & Hmail).
  destruct (sendEmailVerification_ok Number ext (rec_uid r) (email model)
              (world_with_profile ext model w r))
    as (w2 & Hmail2 & _ & Husers & _).
  rewrite Hmail in Hmail2. injection Hmail2 as <-.
  cbn [users world_with_profile with_users with_tick with_account] in Husers.
  exists r. split; [exact Hc |]. rewrite findAll_run.
  destruct (users_get ext) as [e |]; [reflexivity |].
  eexists. split; [reflexivity |]. split.
  - apply list_elem_of_fmap. exists (rec_uid r, created_doc ext model w r).
    split; [reflexivity |].
    apply elem_of_map_to_list. rewrite Husers. apply lookup_insert_eq.
  - intros Hfree. rewrite length_fmap, length_map_to_list, Husers.
    now apply map_size_insert_None.
Qed.

Lemma findAll_after_create_witness :
  ∃ v w' l,
    UserService.create Number_decimal healthy request_A ann_and_bob = (Ok v, w') ∧
    UserService.findAll healthy w' = (Ok l, w') ∧
    v ∈ l ∧
    length l = 3.
Proof.
  destruct (create_applied_world Number_decimal healthy request_A ann_and_bob record_A
              eq_refl eq_refl eq_refl) as (w' & _ & Hrun).
  destruct (findAll_after_create _ _ _ _ _ _ Hrun) as (r & Hc & Hlist).
  injection Hc as <-. cbn [rec_uid record_A users_get healthy] in Hlist.
  destruct Hlist as (l & Hall & Hin & Hlength).
  do 2 eexists. exists l. split; [exact Hrun |]. split; [exact Hall |].
  split; [exact Hin |].
  rewrite Hlength.
  - unfold ann_and_bob, world_of. cbn [users].
    rewrite !map_size_insert_None, map_size_empty; [reflexivity | apply lookup_empty |].
    rewrite lookup_insert_ne by discriminate. apply lookup_empty.
  - unfold ann_and_bob, world_of. cbn [users].
    now rewrite !lookup_insert_ne, lookup_empty by discriminate.
Defined.
